(** * Broker-integration layer of copytrader-backend: a shallow embedding

    The development follows the TypeScript sources
      - services/brokerIntegrations/baseBroker.ts     (BaseBroker)
      - services/brokerIntegrations/deltaExchange.ts  (DeltaExchangeBroker)
      - services/brokerIntegrations/binanceFutures.ts (BinanceFuturesBroker)
      - services/brokerIntegrations/bybit.ts          (BybitBroker)
      - services/brokerIntegrations/okx.ts            (OKXBroker)
      - services/brokerIntegrations/brokerFactory.ts  (BrokerFactory)

    Mutable objects are modelled by explicit state passing; whatever
    the outside world decides (the clock, the answer of the REST
    endpoint, the fate of the WebSocket handshake) is an argument of
    the operation.  A JavaScript [throw] is the [Throw] constructor of
    [outcome]. *)

From Stdlib Require Import ZArith QArith Qabs Lia List Sorted Ascii String.
From stdpp Require Import base option list strings gmap fin_maps sorting.

Open Scope string_scope.
Open Scope Z_scope.

(* ===================================================================== *)
(** ** JavaScript primitives used by the brokers *)
(* ===================================================================== *)

Module Js.

(** *** Characters and strings

    Strings are sequences of 8-bit code units; every string the
    brokers build or inspect (endpoint names, decimal numerals, status
    words, API keys) is ASCII. *)

Definition isDigit (c : ascii) : bool :=
  let n := nat_of_ascii c in (48 <=? n)%nat && (n <=? 57)%nat.

Definition digitValue (c : ascii) : Z := Z.of_nat (nat_of_ascii c) - 48.

Definition digitChar (d : Z) : ascii := ascii_of_nat (48 + Z.to_nat d).

(** StrWhiteSpaceChar restricted to ASCII: TAB, LF, VT, FF, CR, SP. *)
Definition isWhiteSpace (c : ascii) : bool :=
  let n := nat_of_ascii c in
  ((9 <=? n)%nat && (n <=? 13)%nat) || (n =? 32)%nat.

Fixpoint trimStart (s : string) : string :=
  match s with
  | String c r => if isWhiteSpace c then trimStart r else s
  | EmptyString => s
  end.

(** [c.toLowerCase()] on one code unit. *)
Definition lowerChar (c : ascii) : ascii :=
  let n := nat_of_ascii c in
  if (65 <=? n)%nat && (n <=? 90)%nat then ascii_of_nat (n + 32) else c.

Fixpoint toLowerCase (s : string) : string :=
  match s with
  | String c r => String (lowerChar c) (toLowerCase r)
  | EmptyString => EmptyString
  end.

(** A string is truthy iff it is non-empty. *)
Definition truthy (s : string) : bool :=
  match s with EmptyString => false | _ => true end.

(** [s.split(sep)] for a one-character separator: never empty. *)
Fixpoint split (sep : ascii) (s : string) : list string :=
  match s with
  | EmptyString => [EmptyString]
  | String c r =>
      if Ascii.eqb c sep then EmptyString :: split sep r
      else match split sep r with
           | h :: t => String c h :: t
           | [] => [String c EmptyString]
           end
  end.

(** [s.substring(0, n)]. *)
Definition substring0 (n : nat) (s : string) : string := String.substring 0 n s.

(** *** Integers as strings

    [Number.prototype.toString] on an integer below 1e21: an optional
    minus sign and the decimal digits, most significant first. *)

Fixpoint digitsOf (fuel : nat) (n : Z) (acc : string) : string :=
  match fuel with
  | O => acc
  | S f =>
      let acc' := String (digitChar (n mod 10)) acc in
      if n / 10 =? 0 then acc' else digitsOf f (n / 10) acc'
  end.

Definition natToString (n : Z) : string :=
  digitsOf (S (Z.to_nat (Z.log2 n))) n EmptyString.

Definition intToString (n : Z) : string :=
  if n <? 0 then String "-" (natToString (- n)) else natToString n.

(** *** parseInt(s) with the radix left out

    Leading white space is skipped, one sign is read, a "0x"/"0X"
    prefix switches to radix 16, and the longest run of digits of the
    radix is converted; [None] stands for NaN (no digit at all). *)

Definition hexValue (c : ascii) : option Z :=
  let n := nat_of_ascii c in
  if (48 <=? n)%nat && (n <=? 57)%nat then Some (Z.of_nat n - 48)
  else if (97 <=? n)%nat && (n <=? 102)%nat then Some (Z.of_nat n - 87)
  else if (65 <=? n)%nat && (n <=? 70)%nat then Some (Z.of_nat n - 55)
  else None.

(** Accumulates the leading decimal digits; the flag tells whether at
    least one was read. *)
Fixpoint readDecimal (s : string) (acc : Z) (seen : bool) : Z * bool :=
  match s with
  | String c r =>
      if isDigit c then readDecimal r (acc * 10 + digitValue c) true
      else (acc, seen)
  | EmptyString => (acc, seen)
  end.

Fixpoint readHex (s : string) (acc : Z) (seen : bool) : Z * bool :=
  match s with
  | String c r =>
      match hexValue c with
      | Some d => readHex r (acc * 16 + d) true
      | None => (acc, seen)
      end
  | EmptyString => (acc, seen)
  end.

Definition readSign (s : string) : bool * string :=
  match s with
  | String "-" r => (true, r)
  | String "+" r => (false, r)
  | _ => (false, s)
  end.

Definition parseInt (s : string) : option Z :=
  let '(neg, body) := readSign (trimStart s) in
  let '(v, seen) :=
    match body with
    | String "0" (String "x" r) => readHex r 0 false
    | String "0" (String "X" r) => readHex r 0 false
    | _ => readDecimal body 0 false
    end in
  if seen then Some (if neg then - v else v) else None.

(** *** Numbers

    A JavaScript number is a finite value, one of the two infinities
    or NaN.  Finite values are kept exact (rationals): rounding to the
    nearest double and the sign of zero are left out. *)

Inductive number : Type :=
| Fin (q : Q)
| PosInf
| NegInf
| NaN.

Definition ofZ (z : Z) : number := Fin (inject_Z z).

Definition sgn (q : Q) : Z := Z.sgn (Qnum q).

Definition infinity (s : Z) : number :=
  if s =? 0 then NaN else if 0 <? s then PosInf else NegInf.

Definition sign (a : number) : option Z :=
  match a with
  | Fin q => Some (sgn q)
  | PosInf => Some 1
  | NegInf => Some (-1)
  | NaN => None
  end.

(** [a > b] *)
Definition gt (a b : number) : bool :=
  match a, b with
  | NaN, _ | _, NaN => false
  | Fin x, Fin y => negb (Qle_bool x y)
  | PosInf, PosInf => false
  | PosInf, _ => true
  | Fin _, NegInf => true
  | _, _ => false
  end.

(** [a !== b] on numbers: NaN differs from everything. *)
Definition neq (a b : number) : bool :=
  match a, b with
  | Fin x, Fin y => negb (Qeq_bool x y)
  | PosInf, PosInf | NegInf, NegInf => false
  | _, _ => true
  end.

(** [a - b] *)
Definition sub (a b : number) : number :=
  match a, b with
  | NaN, _ | _, NaN => NaN
  | Fin x, Fin y => Fin (Qred (x - y))
  | PosInf, PosInf | NegInf, NegInf => NaN
  | PosInf, _ | _, NegInf => PosInf
  | NegInf, _ | _, PosInf => NegInf
  end.

(** [a + b] *)
Definition add (a b : number) : number :=
  match a, b with
  | NaN, _ | _, NaN => NaN
  | Fin x, Fin y => Fin (Qred (x + y))
  | PosInf, NegInf | NegInf, PosInf => NaN
  | PosInf, _ | _, PosInf => PosInf
  | NegInf, _ | _, NegInf => NegInf
  end.

(** [a * b] *)
Definition mul (a b : number) : number :=
  match a, b with
  | Fin x, Fin y => Fin (Qred (x * y))
  | _, _ =>
      match sign a, sign b with
      | Some sa, Some sb => infinity (sa * sb)
      | _, _ => NaN
      end
  end.

(** [a / b]: a finite non-zero value over zero is an infinity, zero
    over zero is NaN. *)
Definition div (a b : number) : number :=
  match a, b with
  | NaN, _ | _, NaN => NaN
  | Fin x, Fin y =>
      if Qeq_bool y 0 then infinity (sgn x) else Fin (Qred (x / y))
  | Fin _, _ => Fin 0
  | _, Fin y => match sign a with
                | Some sa => infinity (sa * (if Qeq_bool y 0 then 1 else sgn y))
                | None => NaN
                end
  | _, _ => NaN
  end.

(** [Math.abs(a)] *)
Definition abs (a : number) : number :=
  match a with
  | Fin x => Fin (Qred (Qabs x))
  | NaN => NaN
  | _ => PosInf
  end.

Definition isFinite (a : number) : bool :=
  match a with Fin _ => true | _ => false end.

(** Truthiness of a number: neither zero nor NaN. *)
Definition truthyNum (a : number) : bool :=
  match a with
  | Fin x => negb (Qeq_bool x 0)
  | NaN => false
  | _ => true
  end.

(** *** parseFloat(s)

    White space, a sign, then either "Infinity" or the longest prefix
    that is a decimal literal: digits, a fraction, an exponent. *)

Fixpoint readDigits (s : string) (acc : Z) (n : nat) : Z * nat * string :=
  match s with
  | String c r =>
      if isDigit c then readDigits r (acc * 10 + digitValue c) (S n)
      else (acc, n, s)
  | EmptyString => (acc, n, s)
  end.

Definition readExponent (s : string) : Z :=
  match s with
  | String c r =>
      if Ascii.eqb c "e" || Ascii.eqb c "E" then
        let '(eneg, r') := readSign r in
        let '(ev, ne, _) := readDigits r' 0 0 in
        if (ne =? 0)%nat then 0 else if eneg then - ev else ev
      else 0
  | EmptyString => 0
  end.

Definition parseFloat (s : string) : number :=
  let '(negative, body) := readSign (trimStart s) in
  if String.prefix "Infinity" body then (if negative then NegInf else PosInf)
  else
    let '(ip, ni, r1) := readDigits body 0 0 in
    let '(fp, nf, r2) :=
      match r1 with
      | String "." r => readDigits r 0 0
      | _ => (0, 0%nat, r1)
      end in
    if (ni + nf =? 0)%nat then NaN
    else
      let m := (inject_Z ip + inject_Z fp / inject_Z (10 ^ Z.of_nat nf))%Q in
      let v := (m * Qpower (inject_Z 10) (readExponent r2))%Q in
      Fin (Qred (if negative then - v else v)).

(** [a || b] on optional strings: the first non-empty one. *)
Definition orElse (a : option string) (b : string) : string :=
  match a with
  | Some x => if truthy x then x else b
  | None => b
  end.

End Js.

(* ===================================================================== *)
(** ** baseBroker.ts *)
(* ===================================================================== *)

(** What a [catch] clause receives: the fields [handleError] looks at
    ([error.response?.status], [error.code], [error.message]). *)
Record JsError := mkJsError {
  response_status : option Z;
  code : option string;
  message : string;
}.

(** [new Error(msg)]. *)
Definition Error (msg : string) : JsError := mkJsError None None msg.

Inductive outcome (A : Type) : Type :=
| Return (a : A)
| Throw (e : JsError).
Arguments Return {A} a.
Arguments Throw {A} e.

Module BaseBroker.

Record BrokerCredentials := {
  apiKey : string;
  apiSecret : string;
  passphrase : option string;
  sandbox : option bool;
}.

(** The key of [endpoint] for the window numbered [bucket]. *)
Definition bucketKey (endpoint : string) (bucket : Z) : string :=
  endpoint +:+ "_" +:+ Js.intToString bucket.

(** The key of the window of [endpoint] that contains [now]:
    [`${endpoint}_${Math.floor(now / windowMs)}`]. *)
Definition windowKey (endpoint : string) (now windowMs : Z) : string :=
  bucketKey endpoint (now / windowMs).

(** The test of the clean-up loop:
    [k.split('_')[1] && parseInt(k.split('_')[1]) <
     Math.floor((now - windowMs) / windowMs)]. *)
Definition isOld (now windowMs : Z) (k : string) : bool :=
  match Js.split "_" k !! 1%nat with
  | Some f =>
      Js.truthy f &&
      match Js.parseInt f with
      | Some b => b <? (now - windowMs) / windowMs
      | None => false
      end
  | None => false
  end.

(** [checkRateLimit(endpoint, limit, windowMs)] on the [rateLimiter]
    map, for integer [now = Date.now()] and [windowMs > 0], where
    [Math.floor(x / windowMs)] is the division of [Z].  The loop over
    [entries()] that deletes as it goes is a filter of the map. *)
Definition checkRateLimit (rateLimiter : gmap string Z) (now : Z)
    (endpoint : string) (limit windowMs : Z) : bool * gmap string Z :=
  let key := windowKey endpoint now windowMs in
  let current := default 0 (rateLimiter !! key) in
  if limit <=? current then (false, rateLimiter)
  else
    let rateLimiter := <[key := current + 1]> rateLimiter in
    (true, filter (λ kv, isOld now windowMs kv.1 = false) rateLimiter).

Definition statusIs (error : JsError) (p : Z → bool) : bool :=
  match response_status error with Some s => p s | None => false end.

Definition codeIs (error : JsError) (c : string) : bool :=
  match code error with Some c' => String.eqb c' c | None => false end.

(** [handleError(error, context)]; the context only goes to the log. *)
Definition handleError (error : JsError) (context : string) : JsError :=
  if statusIs error (Z.eqb 401) then Error "Invalid API credentials"
  else if statusIs error (Z.eqb 429) then Error "Rate limit exceeded"
  else if statusIs error (Z.leb 500) then Error "Broker service unavailable"
  else if codeIs error "ECONNREFUSED" then Error "Connection refused by broker"
  else if codeIs error "ETIMEDOUT" then Error "Request timeout"
  else Error (if Js.truthy (message error) then message error
              else "Unknown broker error").

(** *** The unified data model *)

Inductive Side := buy | sell.
Inductive OrderType := market | limit.
Inductive TimeInForce := GTC | IOC | FOK.
Inductive OrderStatus := pending | filled | cancelled | rejected.

(** [new Date(x)] is kept as the argument it was built from. *)
Inductive Date := DateOfString (s : string) | DateOfNumber (ms : Z).

Definition sideName (s : Side) : string :=
  match s with buy => "buy" | sell => "sell" end.

Module TradeOrder.
Record t := {
  symbol : string;
  side : Side;
  type : OrderType;
  quantity : Js.number;
  price : option Js.number;
  stopPrice : option Js.number;
  timeInForce : option TimeInForce;
}.
End TradeOrder.

Module TradeResult.
Record t := {
  orderId : string;
  symbol : string;
  side : string;
  quantity : Js.number;
  price : Js.number;
  status : OrderStatus;
  timestamp : Date;
  fees : option Js.number;
}.
End TradeResult.

Module AccountBalance.
Record t := {
  asset : string;
  free : Js.number;
  locked : Js.number;
  total : Js.number;
}.
End AccountBalance.

Module Position.
Record t := {
  symbol : string;
  side : string;
  size : Js.number;
  entryPrice : Js.number;
  markPrice : Js.number;
  pnl : Js.number;
  percentage : Js.number;
}.
End Position.

(** *** The connector object

    [credentials], [isConnected] and [rateLimiter] are the fields of
    BaseBroker; [wsClient] is declared, identically, by each of the
    four subclasses. *)

Inductive ReadyState := CONNECTING | OPEN | CLOSING | CLOSED.

Record Broker := {
  credentials : BrokerCredentials;
  isConnected : bool;
  rateLimiter : gmap string Z;
  wsClient : option ReadyState;
}.

(** The object the constructor leaves behind. *)
Definition newBroker (c : BrokerCredentials) : Broker :=
  {| credentials := c; isConnected := false; rateLimiter := ∅; wsClient := None |}.

Definition setRateLimiter (b : Broker) (rl : gmap string Z) : Broker :=
  {| credentials := credentials b; isConnected := isConnected b;
     rateLimiter := rl; wsClient := wsClient b |}.

Definition setConnected (b : Broker) (c : bool) : Broker :=
  {| credentials := credentials b; isConnected := c;
     rateLimiter := rateLimiter b; wsClient := wsClient b |}.

Definition setWsClient (b : Broker) (ws : option ReadyState) : Broker :=
  {| credentials := credentials b; isConnected := isConnected b;
     rateLimiter := rateLimiter b; wsClient := ws |}.

(** *** Methods as state transformers that may throw *)

Definition M (A : Type) : Type := Broker → outcome A * Broker.

#[global] Instance M_ret : MRet M := λ A a b, (Return a, b).

#[global] Instance M_bind : MBind M := λ A B k m b,
  match m b with
  | (Return a, b') => k a b'
  | (Throw e, b') => (Throw e, b')
  end.

Definition throw {A} (e : JsError) : M A := λ b, (Throw e, b).

(** An assignment to a field of [this]. *)
Definition assign (f : Broker → Broker) : M unit := λ b, (Return tt, f b).

(** [try { m } catch (error) { h error }] *)
Definition tryCatch {A} (m : M A) (h : JsError → M A) : M A := λ b,
  match m b with
  | (Return a, b') => (Return a, b')
  | (Throw e, b') => h e b'
  end.

(** [this.checkRateLimit(...)] at time [now]. *)
Definition rateLimit (now : Z) (endpoint : string) (limit windowMs : Z) : M bool :=
  λ b, let '(ok, rl) := checkRateLimit (rateLimiter b) now endpoint limit windowMs in
       (Return ok, setRateLimiter b rl).

(** The guard that opens every REST method. *)
Definition guardRateLimit (now : Z) (endpoint : string) (limit windowMs : Z) : M unit :=
  ok ← rateLimit now endpoint limit windowMs;
  if negb ok then throw (Error "Rate limit exceeded") else mret tt.

(** *** The REST client

    An axios call either resolves with a response (a 2xx status and
    the decoded body) or rejects; the response interceptor rethrows a
    rejection through [handleError]. *)

Record Response (D : Type) := { status : Z; data : D }.
Arguments status {D} _.
Arguments data {D} _.

Inductive ApiResult (D : Type) :=
| Resolved (response : Response D)
| Rejected (error : JsError).
Arguments Resolved {D} response.
Arguments Rejected {D} error.

Definition request {D} (context : string) (o : ApiResult D) : M (Response D) :=
  match o with
  | Resolved response => mret response
  | Rejected error => throw (handleError error context)
  end.

(** Reading a property of [undefined]. *)
Definition TypeError (property : string) : JsError :=
  Error ("Cannot read properties of undefined (reading '" +:+ property +:+ "')").

(** *** The market-data stream

    The handshake ends with 'open' or with 'error'; after 'error' the
    socket emits 'close', whose handler clears [wsClient].  The
    handler code is the same in the four subclasses. *)

Inductive WsResult := WsOpened | WsFailed (error : JsError).

Definition connectWebSocket (o : WsResult) : M unit := λ b,
  match o with
  | WsOpened => (Return tt, setWsClient b (Some OPEN))
  | WsFailed error => (Throw error, setWsClient b None)
  end.

(** [disconnect()] *)
Definition disconnect : M unit :=
  _ ← assign (λ b, setWsClient b None);
  assign (λ b, setConnected b false).

(** [healthCheck()]; the [validateCredentials] of the connector at
    hand stands for the virtual call. *)
Definition healthCheck (validateCredentials : M bool) : M bool :=
  tryCatch validateCredentials (λ error, mret false).

(** [getConnectionStatus()] *)
Definition getConnectionStatus (b : Broker) : bool := isConnected b.

(** [new Date(parseInt(s))].  Without a number at the start of [s]
    this is the invalid date, the value that [new Date("Invalid Date")]
    denotes as well. *)
Definition dateOfParseInt (s : string) : Date :=
  match Js.parseInt s with
  | Some ms => DateOfNumber ms
  | None => DateOfString "Invalid Date"
  end.

(** *** Frames on the market-data stream

    A message object as the methods build it for [JSON.stringify]. *)
#[warnings="-register-all"] Inductive Json :=
| JStr (s : string)
| JNum (n : Z)
| JArr (elements : list Json)
| JObj (properties : list (string * Json)).

(** A connector together with the frames it has put on its stream,
    oldest first. *)
Record Session := {
  this : Broker;
  sent : list Json;
}.

(** Methods that use the stream. *)
Definition Wire (A : Type) : Type := Session → outcome A * Session.

#[global] Instance Wire_ret : MRet Wire := λ A a s, (Return a, s).

#[global] Instance Wire_bind : MBind Wire := λ A B k m s,
  match m s with
  | (Return a, s') => k a s'
  | (Throw e, s') => (Throw e, s')
  end.

(** A method that does not send. *)
Definition lift {A} (m : M A) : Wire A := λ s,
  let '(result, b) := m (this s) in
  (result, {| this := b; sent := sent s |}).

(** [this.wsClient && this.wsClient.readyState === WebSocket.OPEN] *)
Definition isOpen (b : Broker) : bool :=
  match wsClient b with Some OPEN => true | _ => false end.

(** [this.wsClient?.send(JSON.stringify(message))].  Without a socket
    nothing happens; a socket that is still connecting refuses to
    send, one that is closing or closed lets the frame go nowhere. *)
Definition send (message : Json) : Wire unit := λ s,
  match wsClient (this s) with
  | Some OPEN => (Return tt, {| this := this s; sent := (sent s ++ [message])%list |})
  | Some CONNECTING =>
      (Throw (Error "WebSocket is not open: readyState 0 (CONNECTING)"), s)
  | _ => (Return tt, s)
  end.

(** [if (!this.wsClient || this.wsClient.readyState !== WebSocket.OPEN)
     { await this.connectWebSocket(); }] *)
Definition ensureOpen (ws : WsResult) : Wire unit := λ s,
  if negb (isOpen (this s)) then lift (connectWebSocket ws) s
  else (Return tt, s).

(** [if (!this.wsClient || this.wsClient.readyState !== WebSocket.OPEN)
     { return; }], then the rest of the method. *)
Definition whenOpen (rest : Wire unit) : Wire unit := λ s,
  if negb (isOpen (this s)) then (Return tt, s) else rest s.

End BaseBroker.


(* ===================================================================== *)
(** ** deltaExchange.ts *)
(* ===================================================================== *)

Module DeltaExchangeBroker.
Import BaseBroker.

(** Every Delta body is [{success, result, error?}]. *)
Module Body.
Record t (R : Type) := {
  success : bool;
  error_message : option string;   (* error?.message *)
  result : R;
}.
Arguments success {R} _.
Arguments error_message {R} _.
Arguments result {R} _.
End Body.

Module Wallet.
Record t := {
  asset_symbol : string;
  available_balance : string;
  order_margin : string;
  wallet_balance : string;
}.
End Wallet.

Module Product.
Record t := { id : Z; symbol : string }.
End Product.

Module Order.
Record t := {
  id : Z;
  size : string;
  limit_price : option string;
  average_fill_price : option string;
  state : string;
  created_at : string;
  commission : option string;
}.
End Order.

Definition mapOrderStatus (state : string) : OrderStatus :=
  let s := Js.toLowerCase state in
  if String.eqb s "open" || String.eqb s "pending" then pending
  else if String.eqb s "filled" || String.eqb s "closed" then filled
  else if String.eqb s "cancelled" then cancelled
  else if String.eqb s "rejected" then rejected
  else pending.

Definition validateCredentials (now : Z) (profile : ApiResult (Body.t unit)) : M bool :=
  tryCatch
    (_ ← guardRateLimit now "validate" 10 60000;
     response ← request "Delta Exchange API" profile;
     mret ((status response =? 200) && Body.success (data response)))
    (λ error, mret false).

Definition connect (now : Z) (profile : ApiResult (Body.t unit)) (ws : WsResult) : M unit :=
  tryCatch
    (_ ← validateCredentials now profile;
     _ ← connectWebSocket ws;
     assign (λ b, setConnected b true))
    (λ error, throw (handleError error "Delta Exchange connection")).

Definition toBalance (balance : Wallet.t) : AccountBalance.t :=
  {| AccountBalance.asset := Wallet.asset_symbol balance;
     AccountBalance.free := Js.parseFloat (Wallet.available_balance balance);
     AccountBalance.locked := Js.parseFloat (Wallet.order_margin balance);
     AccountBalance.total := Js.parseFloat (Wallet.wallet_balance balance) |}.

Definition getAccountBalance (now : Z)
    (balances : ApiResult (Body.t (list Wallet.t))) : M (list AccountBalance.t) :=
  tryCatch
    (_ ← guardRateLimit now "balance" 10 60000;
     response ← request "Delta Exchange API" balances;
     if negb (Body.success (data response))
     then throw (Error "Failed to fetch balance")
     else mret (map toBalance (Body.result (data response))))
    (λ error, throw (handleError error "Delta Exchange get balance")).

Definition getProductId (symbol : string)
    (products : ApiResult (Body.t (list Product.t))) : M Z :=
  tryCatch
    (response ← request "Delta Exchange API" products;
     match find (λ p, String.eqb (Product.symbol p) symbol)
                (Body.result (data response)) with
     | Some product => mret (Product.id product)
     | None => throw (Error ("Product not found for symbol: " +:+ symbol))
     end)
    (λ error, throw (handleError error "Delta Exchange get product ID")).

Definition toTradeResult (order : TradeOrder.t) (result : Order.t) : TradeResult.t :=
  {| TradeResult.orderId := Js.intToString (Order.id result);
     TradeResult.symbol := TradeOrder.symbol order;
     TradeResult.side := sideName (TradeOrder.side order);
     TradeResult.quantity := Js.parseFloat (Order.size result);
     TradeResult.price :=
       Js.parseFloat (Js.orElse (Order.limit_price result)
                        (Js.orElse (Order.average_fill_price result) "0"));
     TradeResult.status := mapOrderStatus (Order.state result);
     TradeResult.timestamp := DateOfString (Order.created_at result);
     TradeResult.fees := Some (Js.parseFloat (Js.orElse (Order.commission result) "0")) |}.

(** The request body ([orderData]) only travels to the exchange; the
    answer of the exchange is the argument [ack]. *)
Definition placeOrder (now : Z) (order : TradeOrder.t)
    (products : ApiResult (Body.t (list Product.t)))
    (ack : ApiResult (Body.t (option Order.t))) : M TradeResult.t :=
  tryCatch
    (_ ← guardRateLimit now "order" 20 60000;
     product_id ← getProductId (TradeOrder.symbol order) products;
     response ← request "Delta Exchange API" ack;
     if negb (Body.success (data response))
     then throw (Error (Js.orElse (Body.error_message (data response))
                          "Order placement failed"))
     else match Body.result (data response) with
          | Some result => mret (toTradeResult order result)
          | None => throw (TypeError "id")
          end)
    (λ error, throw (handleError error "Delta Exchange place order")).

Definition healthCheck (now : Z) (profile : ApiResult (Body.t unit)) : M bool :=
  BaseBroker.healthCheck (validateCredentials now profile).

(** A row of [result] of /v2/positions. *)
Module PositionRow.
Record t := {
  product_symbol : string;
  size : string;
  entry_price : string;
  mark_price : string;
  unrealized_pnl : string;
  unrealized_pnl_percent : string;
}.
End PositionRow.

(** The [result] of /v2/orders/:id. *)
Module OrderDetail.
Record t := {
  id : Z;
  side : string;
  size : string;
  limit_price : option string;
  average_fill_price : option string;
  state : string;
  created_at : string;
  commission : option string;
}.
End OrderDetail.

Definition toPosition (position : PositionRow.t) : Position.t :=
  {| Position.symbol := PositionRow.product_symbol position;
     Position.side :=
       if Js.gt (Js.parseFloat (PositionRow.size position)) (Js.ofZ 0)
       then "long" else "short";
     Position.size := Js.abs (Js.parseFloat (PositionRow.size position));
     Position.entryPrice := Js.parseFloat (PositionRow.entry_price position);
     Position.markPrice := Js.parseFloat (PositionRow.mark_price position);
     Position.pnl := Js.parseFloat (PositionRow.unrealized_pnl position);
     Position.percentage := Js.parseFloat (PositionRow.unrealized_pnl_percent position) |}.

Definition openPositions (rows : list PositionRow.t) : list Position.t :=
  map toPosition
    (List.filter (λ pos, Js.neq (Js.parseFloat (PositionRow.size pos)) (Js.ofZ 0)) rows).

Definition getPositions (now : Z)
    (positions : ApiResult (Body.t (list PositionRow.t))) : M (list Position.t) :=
  tryCatch
    (_ ← guardRateLimit now "positions" 10 60000;
     response ← request "Delta Exchange API" positions;
     if negb (Body.success (data response))
     then throw (Error "Failed to fetch positions")
     else mret (openPositions (Body.result (data response))))
    (λ error, throw (handleError error "Delta Exchange get positions")).

Definition cancelOrder (now : Z) (orderId symbol : string)
    (products : ApiResult (Body.t (list Product.t)))
    (reply : ApiResult (Body.t unit)) : M bool :=
  tryCatch
    (_ ← guardRateLimit now "cancel" 20 60000;
     productId ← getProductId symbol products;
     response ← request "Delta Exchange API" reply;
     mret (Body.success (data response)))
    (λ error, throw (handleError error "Delta Exchange cancel order")).

Definition toOrderStatus (symbol : string) (order : OrderDetail.t) : TradeResult.t :=
  {| TradeResult.orderId := Js.intToString (OrderDetail.id order);
     TradeResult.symbol := symbol;
     TradeResult.side := OrderDetail.side order;
     TradeResult.quantity := Js.parseFloat (OrderDetail.size order);
     TradeResult.price :=
       Js.parseFloat (Js.orElse (OrderDetail.limit_price order)
                        (Js.orElse (OrderDetail.average_fill_price order) "0"));
     TradeResult.status := mapOrderStatus (OrderDetail.state order);
     TradeResult.timestamp := DateOfString (OrderDetail.created_at order);
     TradeResult.fees := Some (Js.parseFloat (Js.orElse (OrderDetail.commission order) "0")) |}.

Definition getOrderStatus (now : Z) (orderId symbol : string)
    (reply : ApiResult (Body.t (option OrderDetail.t))) : M TradeResult.t :=
  tryCatch
    (_ ← guardRateLimit now "order_status" 10 60000;
     response ← request "Delta Exchange API" reply;
     if negb (Body.success (data response))
     then throw (Error "Failed to fetch order status")
     else match Body.result (data response) with
          | Some order => mret (toOrderStatus symbol order)
          | None => throw (TypeError "id")
          end)
    (λ error, throw (handleError error "Delta Exchange get order status")).

(** The message of [subscribeToMarketData] and
    [unsubscribeFromMarketData] for one product. *)
Definition tickerMessage (type : string) (productId : Z) : Json :=
  JObj [("type", JStr type);
        ("payload",
         JObj [("channels",
                JArr [JObj [("name", JStr "ticker");
                            ("symbols", JArr [JStr (Js.intToString productId)])]])])].

(** [for (const symbol of symbols) { ... }]: one request for the
    products and one frame per symbol; [products n] is the answer to
    the n-th request from here on. *)
Fixpoint sendEach (type : string) (symbols : list string)
    (products : nat → ApiResult (Body.t (list Product.t))) : Wire unit :=
  match symbols with
  | [] => mret tt
  | symbol :: symbols =>
      productId ← lift (getProductId symbol (products 0%nat));
      _ ← send (tickerMessage type productId);
      sendEach type symbols (λ n, products (S n))
  end.

Definition subscribeToMarketData (symbols : list string) (ws : WsResult)
    (products : nat → ApiResult (Body.t (list Product.t))) : Wire unit :=
  _ ← ensureOpen ws;
  sendEach "subscribe" symbols products.

Definition unsubscribeFromMarketData (symbols : list string)
    (products : nat → ApiResult (Body.t (list Product.t))) : Wire unit :=
  whenOpen (sendEach "unsubscribe" symbols products).

End DeltaExchangeBroker.

(* ===================================================================== *)
(** ** binanceFutures.ts *)
(* ===================================================================== *)

Module BinanceFuturesBroker.
Import BaseBroker.

Module Account.
Record t := { canTrade : bool }.
End Account.

Module Balance.
Record t := {
  asset : string;
  balance : string;
  availableBalance : string;
}.
End Balance.

Module Order.
Record t := {
  orderId : Z;
  symbol : string;
  side : string;
  origQty : string;
  price : option string;
  avgPrice : option string;
  status : string;
  updateTime : Z;
}.
End Order.

Definition mapOrderStatus (status : string) : OrderStatus :=
  if String.eqb status "NEW" || String.eqb status "PARTIALLY_FILLED" then pending
  else if String.eqb status "FILLED" then filled
  else if String.eqb status "CANCELED" || String.eqb status "EXPIRED" then cancelled
  else if String.eqb status "REJECTED" then rejected
  else pending.

Definition validateCredentials (now : Z) (account : ApiResult Account.t) : M bool :=
  tryCatch
    (_ ← guardRateLimit now "validate" 10 60000;
     response ← request "Binance Futures API" account;
     mret ((status response =? 200) && Account.canTrade (data response)))
    (λ error, mret false).

Definition connect (now : Z) (account : ApiResult Account.t) (ws : WsResult) : M unit :=
  tryCatch
    (_ ← validateCredentials now account;
     _ ← connectWebSocket ws;
     assign (λ b, setConnected b true))
    (λ error, throw (handleError error "Binance Futures connection")).

Definition toBalance (balance : Balance.t) : AccountBalance.t :=
  {| AccountBalance.asset := Balance.asset balance;
     AccountBalance.free := Js.parseFloat (Balance.availableBalance balance);
     AccountBalance.locked :=
       Js.sub (Js.parseFloat (Balance.balance balance))
              (Js.parseFloat (Balance.availableBalance balance));
     AccountBalance.total := Js.parseFloat (Balance.balance balance) |}.

Definition getAccountBalance (now : Z)
    (balances : ApiResult (list Balance.t)) : M (list AccountBalance.t) :=
  tryCatch
    (_ ← guardRateLimit now "balance" 10 60000;
     response ← request "Binance Futures API" balances;
     mret (map toBalance
             (List.filter (λ balance, Js.gt (Js.parseFloat (Balance.balance balance)) (Js.ofZ 0))
                (data response))))
    (λ error, throw (handleError error "Binance Futures get balance")).

Definition toTradeResult (result : Order.t) : TradeResult.t :=
  {| TradeResult.orderId := Js.intToString (Order.orderId result);
     TradeResult.symbol := Order.symbol result;
     TradeResult.side := Js.toLowerCase (Order.side result);
     TradeResult.quantity := Js.parseFloat (Order.origQty result);
     TradeResult.price :=
       Js.parseFloat (Js.orElse (Order.price result)
                        (Js.orElse (Order.avgPrice result) "0"));
     TradeResult.status := mapOrderStatus (Order.status result);
     TradeResult.timestamp := DateOfNumber (Order.updateTime result);
     TradeResult.fees := Some (Js.ofZ 0) |}.

Definition placeOrder (now : Z) (order : TradeOrder.t)
    (ack : ApiResult Order.t) : M TradeResult.t :=
  tryCatch
    (_ ← guardRateLimit now "order" 20 60000;
     response ← request "Binance Futures API" ack;
     mret (toTradeResult (data response)))
    (λ error, throw (handleError error "Binance Futures place order")).

Definition healthCheck (now : Z) (account : ApiResult Account.t) : M bool :=
  BaseBroker.healthCheck (validateCredentials now account).

(** A row of /fapi/v2/positionRisk. *)
Module PositionRow.
Record t := {
  symbol : string;
  positionAmt : string;
  entryPrice : string;
  markPrice : string;
  unRealizedProfit : string;
  percentage : string;
}.
End PositionRow.

(** The body of DELETE /fapi/v1/order. *)
Module Cancelled.
Record t := { status : string }.
End Cancelled.

(** The body of GET /fapi/v1/order. *)
Module OrderDetail.
Record t := {
  orderId : Z;
  symbol : string;
  side : string;
  origQty : string;
  price : option string;
  avgPrice : option string;
  status : string;
  updateTime : Z;
  commission : option string;
}.
End OrderDetail.

Definition toPosition (position : PositionRow.t) : Position.t :=
  {| Position.symbol := PositionRow.symbol position;
     Position.side :=
       if Js.gt (Js.parseFloat (PositionRow.positionAmt position)) (Js.ofZ 0)
       then "long" else "short";
     Position.size := Js.abs (Js.parseFloat (PositionRow.positionAmt position));
     Position.entryPrice := Js.parseFloat (PositionRow.entryPrice position);
     Position.markPrice := Js.parseFloat (PositionRow.markPrice position);
     Position.pnl := Js.parseFloat (PositionRow.unRealizedProfit position);
     Position.percentage := Js.parseFloat (PositionRow.percentage position) |}.

Definition openPositions (rows : list PositionRow.t) : list Position.t :=
  map toPosition
    (List.filter (λ pos, Js.neq (Js.parseFloat (PositionRow.positionAmt pos)) (Js.ofZ 0)) rows).

Definition getPositions (now : Z)
    (positions : ApiResult (list PositionRow.t)) : M (list Position.t) :=
  tryCatch
    (_ ← guardRateLimit now "positions" 10 60000;
     response ← request "Binance Futures API" positions;
     mret (openPositions (data response)))
    (λ error, throw (handleError error "Binance Futures get positions")).

Definition cancelOrder (now : Z) (orderId symbol : string)
    (reply : ApiResult Cancelled.t) : M bool :=
  tryCatch
    (_ ← guardRateLimit now "cancel" 20 60000;
     response ← request "Binance Futures API" reply;
     mret (String.eqb (Cancelled.status (data response)) "CANCELED"))
    (λ error, throw (handleError error "Binance Futures cancel order")).

Definition toOrderStatus (order : OrderDetail.t) : TradeResult.t :=
  {| TradeResult.orderId := Js.intToString (OrderDetail.orderId order);
     TradeResult.symbol := OrderDetail.symbol order;
     TradeResult.side := Js.toLowerCase (OrderDetail.side order);
     TradeResult.quantity := Js.parseFloat (OrderDetail.origQty order);
     TradeResult.price :=
       Js.parseFloat (Js.orElse (OrderDetail.price order)
                        (Js.orElse (OrderDetail.avgPrice order) "0"));
     TradeResult.status := mapOrderStatus (OrderDetail.status order);
     TradeResult.timestamp := DateOfNumber (OrderDetail.updateTime order);
     TradeResult.fees := Some (Js.parseFloat (Js.orElse (OrderDetail.commission order) "0")) |}.

Definition getOrderStatus (now : Z) (orderId symbol : string)
    (reply : ApiResult OrderDetail.t) : M TradeResult.t :=
  tryCatch
    (_ ← guardRateLimit now "order_status" 10 60000;
     response ← request "Binance Futures API" reply;
     mret (toOrderStatus (data response)))
    (λ error, throw (handleError error "Binance Futures get order status")).

(** [symbols.map(symbol => `${symbol.toLowerCase()}@ticker`)] *)
Definition streams (symbols : list string) : list Json :=
  map (λ symbol, JStr (Js.toLowerCase symbol +:+ "@ticker")) symbols.

Definition subscribeToMarketData (now : Z) (symbols : list string) (ws : WsResult)
    : Wire unit :=
  _ ← ensureOpen ws;
  send (JObj [("method", JStr "SUBSCRIBE"); ("params", JArr (streams symbols));
              ("id", JNum now)]).

Definition unsubscribeFromMarketData (now : Z) (symbols : list string) : Wire unit :=
  whenOpen
    (send (JObj [("method", JStr "UNSUBSCRIBE"); ("params", JArr (streams symbols));
                 ("id", JNum now)])).

End BinanceFuturesBroker.

(* ===================================================================== *)
(** ** bybit.ts *)
(* ===================================================================== *)

Module BybitBroker.
Import BaseBroker.

(** Every Bybit body is [{retCode, retMsg, result}]. *)
Module Body.
Record t (R : Type) := {
  retCode : Z;
  retMsg : option string;
  result : R;
}.
Arguments retCode {R} _.
Arguments retMsg {R} _.
Arguments result {R} _.
End Body.

Module Coin.
Record t := {
  coin : string;
  walletBalance : string;
  availableToWithdraw : string;
}.
End Coin.

Module Account.
Record t := { coin : list Coin.t }.
End Account.

(** A row of [result.list] of /v5/position/list. *)
Module PositionRow.
Record t := {
  symbol : string;
  side : string;
  size : string;
  avgPrice : string;
  markPrice : string;
  unrealisedPnl : string;
  positionValue : string;
}.
End PositionRow.

(** The acknowledgment of /v5/order/create.  [placeOrder] reads
    [orderId] only; [orderStatus] stands for a status word that the
    acknowledgment may carry along. *)
Module Ack.
Record t := {
  orderId : string;
  orderStatus : option string;
}.
End Ack.

Definition mapOrderStatus (status : string) : OrderStatus :=
  if String.eqb status "New" || String.eqb status "PartiallyFilled" then pending
  else if String.eqb status "Filled" then filled
  else if String.eqb status "Cancelled" || String.eqb status "Rejected" then cancelled
  else if String.eqb status "Deactivated" then rejected
  else pending.

Definition validateCredentials (now : Z) (info : ApiResult (Body.t unit)) : M bool :=
  tryCatch
    (_ ← guardRateLimit now "validate" 10 60000;
     response ← request "Bybit API" info;
     mret (Body.retCode (data response) =? 0))
    (λ error, mret false).

Definition connect (now : Z) (info : ApiResult (Body.t unit)) (ws : WsResult) : M unit :=
  tryCatch
    (_ ← validateCredentials now info;
     _ ← connectWebSocket ws;
     assign (λ b, setConnected b true))
    (λ error, throw (handleError error "Bybit connection")).

Definition toBalance (coin : Coin.t) : AccountBalance.t :=
  {| AccountBalance.asset := Coin.coin coin;
     AccountBalance.free := Js.parseFloat (Coin.availableToWithdraw coin);
     AccountBalance.locked :=
       Js.sub (Js.parseFloat (Coin.walletBalance coin))
              (Js.parseFloat (Coin.availableToWithdraw coin));
     AccountBalance.total := Js.parseFloat (Coin.walletBalance coin) |}.

(** The two nested [forEach] loops that push onto [balances]. *)
Definition collectBalances (accounts : list Account.t) : list AccountBalance.t :=
  flat_map
    (λ account,
       map toBalance
         (List.filter (λ coin, Js.gt (Js.parseFloat (Coin.walletBalance coin)) (Js.ofZ 0))
            (Account.coin account)))
    accounts.

Definition getAccountBalance (now : Z)
    (wallet : ApiResult (Body.t (list Account.t))) : M (list AccountBalance.t) :=
  tryCatch
    (_ ← guardRateLimit now "balance" 10 60000;
     response ← request "Bybit API" wallet;
     if negb (Body.retCode (data response) =? 0)
     then throw (Error "Failed to fetch balance")
     else mret (collectBalances (Body.result (data response))))
    (λ error, throw (handleError error "Bybit get balance")).

Definition toPosition (position : PositionRow.t) : Position.t :=
  {| Position.symbol := PositionRow.symbol position;
     Position.side := Js.toLowerCase (PositionRow.side position);
     Position.size := Js.parseFloat (PositionRow.size position);
     Position.entryPrice := Js.parseFloat (PositionRow.avgPrice position);
     Position.markPrice := Js.parseFloat (PositionRow.markPrice position);
     Position.pnl := Js.parseFloat (PositionRow.unrealisedPnl position);
     Position.percentage :=
       Js.mul (Js.div (Js.parseFloat (PositionRow.unrealisedPnl position))
                      (Js.parseFloat (PositionRow.positionValue position)))
              (Js.ofZ 100) |}.

Definition openPositions (rows : list PositionRow.t) : list Position.t :=
  map toPosition
    (List.filter (λ pos, Js.neq (Js.parseFloat (PositionRow.size pos)) (Js.ofZ 0)) rows).

Definition getPositions (now : Z)
    (positions : ApiResult (Body.t (list PositionRow.t))) : M (list Position.t) :=
  tryCatch
    (_ ← guardRateLimit now "positions" 10 60000;
     response ← request "Bybit API" positions;
     if negb (Body.retCode (data response) =? 0)
     then throw (Error "Failed to fetch positions")
     else mret (openPositions (Body.result (data response))))
    (λ error, throw (handleError error "Bybit get positions")).

(** [order.price || 0] *)
Definition priceOrZero (price : option Js.number) : Js.number :=
  match price with
  | Some p => if Js.truthyNum p then p else Js.ofZ 0
  | None => Js.ofZ 0
  end.

Definition toTradeResult (now : Z) (order : TradeOrder.t) (result : Ack.t) : TradeResult.t :=
  {| TradeResult.orderId := Ack.orderId result;
     TradeResult.symbol := TradeOrder.symbol order;
     TradeResult.side := sideName (TradeOrder.side order);
     TradeResult.quantity := TradeOrder.quantity order;
     TradeResult.price := priceOrZero (TradeOrder.price order);
     TradeResult.status := pending;
     TradeResult.timestamp := DateOfNumber now;
     TradeResult.fees := Some (Js.ofZ 0) |}.

Definition placeOrder (now : Z) (order : TradeOrder.t)
    (ack : ApiResult (Body.t (option Ack.t))) : M TradeResult.t :=
  tryCatch
    (_ ← guardRateLimit now "order" 20 60000;
     response ← request "Bybit API" ack;
     if negb (Body.retCode (data response) =? 0)
     then throw (Error (Js.orElse (Body.retMsg (data response))
                          "Order placement failed"))
     else match Body.result (data response) with
          | Some result => mret (toTradeResult now order result)
          | None => throw (TypeError "orderId")
          end)
    (λ error, throw (handleError error "Bybit place order")).

Definition healthCheck (now : Z) (info : ApiResult (Body.t unit)) : M bool :=
  BaseBroker.healthCheck (validateCredentials now info).

(** An element of [result.list] of /v5/order/realtime. *)
Module OrderDetail.
Record t := {
  orderId : string;
  symbol : string;
  side : string;
  qty : string;
  price : option string;
  avgPrice : option string;
  orderStatus : string;
  updatedTime : string;
  cumExecFee : option string;
}.
End OrderDetail.

Definition cancelOrder (now : Z) (orderId symbol : string)
    (reply : ApiResult (Body.t unit)) : M bool :=
  tryCatch
    (_ ← guardRateLimit now "cancel" 20 60000;
     response ← request "Bybit API" reply;
     mret (Body.retCode (data response) =? 0))
    (λ error, throw (handleError error "Bybit cancel order")).

Definition toOrderStatus (order : OrderDetail.t) : TradeResult.t :=
  {| TradeResult.orderId := OrderDetail.orderId order;
     TradeResult.symbol := OrderDetail.symbol order;
     TradeResult.side := Js.toLowerCase (OrderDetail.side order);
     TradeResult.quantity := Js.parseFloat (OrderDetail.qty order);
     TradeResult.price :=
       Js.parseFloat (Js.orElse (OrderDetail.price order)
                        (Js.orElse (OrderDetail.avgPrice order) "0"));
     TradeResult.status := mapOrderStatus (OrderDetail.orderStatus order);
     TradeResult.timestamp := dateOfParseInt (OrderDetail.updatedTime order);
     TradeResult.fees := Some (Js.parseFloat (Js.orElse (OrderDetail.cumExecFee order) "0")) |}.

Definition getOrderStatus (now : Z) (orderId symbol : string)
    (reply : ApiResult (Body.t (list OrderDetail.t))) : M TradeResult.t :=
  tryCatch
    (_ ← guardRateLimit now "order_status" 10 60000;
     response ← request "Bybit API" reply;
     if negb (Body.retCode (data response) =? 0)
     then throw (Error "Failed to fetch order status")
     else match Body.result (data response) with
          | order :: _ => mret (toOrderStatus order)
          | [] => throw (TypeError "orderId")
          end)
    (λ error, throw (handleError error "Bybit get order status")).

(** [symbols.map(symbol => `tickers.${symbol}`)] *)
Definition topics (symbols : list string) : list Json :=
  map (λ symbol, JStr ("tickers." +:+ symbol)) symbols.

Definition subscribeToMarketData (symbols : list string) (ws : WsResult) : Wire unit :=
  _ ← ensureOpen ws;
  send (JObj [("op", JStr "subscribe"); ("args", JArr (topics symbols))]).

Definition unsubscribeFromMarketData (symbols : list string) : Wire unit :=
  whenOpen (send (JObj [("op", JStr "unsubscribe"); ("args", JArr (topics symbols))])).

End BybitBroker.

(* ===================================================================== *)
(** ** okx.ts *)
(* ===================================================================== *)

Module OKXBroker.
Import BaseBroker.

(** Every OKX body is [{code, msg, data}]. *)
Module Body.
Record t (R : Type) := {
  code : string;
  msg : option string;
  data : R;
}.
Arguments code {R} _.
Arguments msg {R} _.
Arguments data {R} _.
End Body.

Module Detail.
Record t := {
  ccy : string;
  bal : string;
  availBal : string;
}.
End Detail.

Module Account.
Record t := { details : list Detail.t }.
End Account.

(** An element of [data] in the acknowledgment of /api/v5/trade/order. *)
Module Ack.
Record t := {
  ordId : string;
  sCode : string;
}.
End Ack.

Definition mapOrderStatus (state : string) : OrderStatus :=
  if String.eqb state "live" || String.eqb state "partially_filled" then pending
  else if String.eqb state "filled" then filled
  else if String.eqb state "canceled" then cancelled
  else if String.eqb state "rejected" then rejected
  else pending.

Definition validateCredentials (now : Z) (config : ApiResult (Body.t unit)) : M bool :=
  tryCatch
    (_ ← guardRateLimit now "validate" 10 60000;
     response ← request "OKX API" config;
     mret (String.eqb (Body.code (data response)) "0"))
    (λ error, mret false).

Definition connect (now : Z) (config : ApiResult (Body.t unit)) (ws : WsResult) : M unit :=
  tryCatch
    (_ ← validateCredentials now config;
     _ ← connectWebSocket ws;
     assign (λ b, setConnected b true))
    (λ error, throw (handleError error "OKX connection")).

Definition toBalance (detail : Detail.t) : AccountBalance.t :=
  {| AccountBalance.asset := Detail.ccy detail;
     AccountBalance.free := Js.parseFloat (Detail.availBal detail);
     AccountBalance.locked :=
       Js.sub (Js.parseFloat (Detail.bal detail))
              (Js.parseFloat (Detail.availBal detail));
     AccountBalance.total := Js.parseFloat (Detail.bal detail) |}.

Definition collectBalances (accounts : list Account.t) : list AccountBalance.t :=
  flat_map
    (λ account,
       map toBalance
         (List.filter (λ detail, Js.gt (Js.parseFloat (Detail.bal detail)) (Js.ofZ 0))
            (Account.details account)))
    accounts.

Definition getAccountBalance (now : Z)
    (balance : ApiResult (Body.t (list Account.t))) : M (list AccountBalance.t) :=
  tryCatch
    (_ ← guardRateLimit now "balance" 10 60000;
     response ← request "OKX API" balance;
     if negb (String.eqb (Body.code (data response)) "0")
     then throw (Error "Failed to fetch balance")
     else mret (collectBalances (Body.data (data response))))
    (λ error, throw (handleError error "OKX get balance")).

Definition toTradeResult (now : Z) (order : TradeOrder.t) (result : Ack.t) : TradeResult.t :=
  {| TradeResult.orderId := Ack.ordId result;
     TradeResult.symbol := TradeOrder.symbol order;
     TradeResult.side := sideName (TradeOrder.side order);
     TradeResult.quantity := TradeOrder.quantity order;
     TradeResult.price := BybitBroker.priceOrZero (TradeOrder.price order);
     TradeResult.status := mapOrderStatus (Ack.sCode result);
     TradeResult.timestamp := DateOfNumber now;
     TradeResult.fees := Some (Js.ofZ 0) |}.

Definition placeOrder (now : Z) (order : TradeOrder.t)
    (ack : ApiResult (Body.t (list Ack.t))) : M TradeResult.t :=
  tryCatch
    (_ ← guardRateLimit now "order" 20 60000;
     response ← request "OKX API" ack;
     if negb (String.eqb (Body.code (data response)) "0")
     then throw (Error (Js.orElse (Body.msg (data response))
                          "Order placement failed"))
     else match Body.data (data response) with
          | result :: _ => mret (toTradeResult now order result)
          | [] => throw (TypeError "ordId")
          end)
    (λ error, throw (handleError error "OKX place order")).

Definition healthCheck (now : Z) (config : ApiResult (Body.t unit)) : M bool :=
  BaseBroker.healthCheck (validateCredentials now config).

(** An element of [data] of /api/v5/account/positions. *)
Module PositionRow.
Record t := {
  instId : string;
  posSide : string;
  pos : string;
  avgPx : string;
  markPx : string;
  upl : string;
  uplRatio : string;
}.
End PositionRow.

(** An element of [data] of GET /api/v5/trade/order. *)
Module OrderDetail.
Record t := {
  ordId : string;
  instId : string;
  side : string;
  sz : string;
  px : option string;
  avgPx : option string;
  state : string;
  uTime : string;
  fee : option string;
}.
End OrderDetail.

Definition toPosition (position : PositionRow.t) : Position.t :=
  {| Position.symbol := PositionRow.instId position;
     Position.side :=
       if String.eqb (PositionRow.posSide position) "long" then "long" else "short";
     Position.size := Js.abs (Js.parseFloat (PositionRow.pos position));
     Position.entryPrice := Js.parseFloat (PositionRow.avgPx position);
     Position.markPrice := Js.parseFloat (PositionRow.markPx position);
     Position.pnl := Js.parseFloat (PositionRow.upl position);
     Position.percentage :=
       Js.mul (Js.parseFloat (PositionRow.uplRatio position)) (Js.ofZ 100) |}.

Definition openPositions (rows : list PositionRow.t) : list Position.t :=
  map toPosition
    (List.filter (λ pos, Js.neq (Js.parseFloat (PositionRow.pos pos)) (Js.ofZ 0)) rows).

Definition getPositions (now : Z)
    (positions : ApiResult (Body.t (list PositionRow.t))) : M (list Position.t) :=
  tryCatch
    (_ ← guardRateLimit now "positions" 10 60000;
     response ← request "OKX API" positions;
     if negb (String.eqb (Body.code (data response)) "0")
     then throw (Error "Failed to fetch positions")
     else mret (openPositions (Body.data (data response))))
    (λ error, throw (handleError error "OKX get positions")).

Definition cancelOrder (now : Z) (orderId symbol : string)
    (reply : ApiResult (Body.t unit)) : M bool :=
  tryCatch
    (_ ← guardRateLimit now "cancel" 20 60000;
     response ← request "OKX API" reply;
     mret (String.eqb (Body.code (data response)) "0"))
    (λ error, throw (handleError error "OKX cancel order")).

Definition toOrderStatus (order : OrderDetail.t) : TradeResult.t :=
  {| TradeResult.orderId := OrderDetail.ordId order;
     TradeResult.symbol := OrderDetail.instId order;
     TradeResult.side := OrderDetail.side order;
     TradeResult.quantity := Js.parseFloat (OrderDetail.sz order);
     TradeResult.price :=
       Js.parseFloat (Js.orElse (OrderDetail.px order)
                        (Js.orElse (OrderDetail.avgPx order) "0"));
     TradeResult.status := mapOrderStatus (OrderDetail.state order);
     TradeResult.timestamp := dateOfParseInt (OrderDetail.uTime order);
     TradeResult.fees := Some (Js.parseFloat (Js.orElse (OrderDetail.fee order) "0")) |}.

Definition getOrderStatus (now : Z) (orderId symbol : string)
    (reply : ApiResult (Body.t (list OrderDetail.t))) : M TradeResult.t :=
  tryCatch
    (_ ← guardRateLimit now "order_status" 10 60000;
     response ← request "OKX API" reply;
     if negb (String.eqb (Body.code (data response)) "0")
     then throw (Error "Failed to fetch order status")
     else match Body.data (data response) with
          | order :: _ => mret (toOrderStatus order)
          | [] => throw (TypeError "ordId")
          end)
    (λ error, throw (handleError error "OKX get order status")).

(** [symbols.map(symbol => ({ channel: 'tickers', instId: symbol }))] *)
Definition channels (symbols : list string) : list Json :=
  map (λ symbol, JObj [("channel", JStr "tickers"); ("instId", JStr symbol)]) symbols.

Definition subscribeToMarketData (symbols : list string) (ws : WsResult) : Wire unit :=
  _ ← ensureOpen ws;
  send (JObj [("op", JStr "subscribe"); ("args", JArr (channels symbols))]).

Definition unsubscribeFromMarketData (symbols : list string) : Wire unit :=
  whenOpen (send (JObj [("op", JStr "unsubscribe"); ("args", JArr (channels symbols))])).

End OKXBroker.

(* ===================================================================== *)
(** ** brokerFactory.ts *)
(* ===================================================================== *)

(** The credential request of a connector with what the exchange
    answers to it: which of the four [validateCredentials] runs is the
    dynamic dispatch on the class of the connector. *)
Module Probe.
Import BaseBroker.

Inductive Check :=
| OnDelta (profile : ApiResult (DeltaExchangeBroker.Body.t unit))
| OnBinance (account : ApiResult BinanceFuturesBroker.Account.t)
| OnBybit (info : ApiResult (BybitBroker.Body.t unit))
| OnOKX (config : ApiResult (OKXBroker.Body.t unit)).

Definition validateCredentials (now : Z) (c : Check) : M bool :=
  match c with
  | OnDelta r => DeltaExchangeBroker.validateCredentials now r
  | OnBinance r => BinanceFuturesBroker.validateCredentials now r
  | OnBybit r => BybitBroker.validateCredentials now r
  | OnOKX r => OKXBroker.validateCredentials now r
  end.

Definition healthCheck (now : Z) (c : Check) : M bool :=
  match c with
  | OnDelta r => DeltaExchangeBroker.healthCheck now r
  | OnBinance r => BinanceFuturesBroker.healthCheck now r
  | OnBybit r => BybitBroker.healthCheck now r
  | OnOKX r => OKXBroker.healthCheck now r
  end.

Definition connect (now : Z) (c : Check) (ws : WsResult) : M unit :=
  match c with
  | OnDelta r => DeltaExchangeBroker.connect now r ws
  | OnBinance r => BinanceFuturesBroker.connect now r ws
  | OnBybit r => BybitBroker.connect now r ws
  | OnOKX r => OKXBroker.connect now r ws
  end.

(** The context string of [connect()]. *)
Definition connectContext (c : Check) : string :=
  match c with
  | OnDelta _ => "Delta Exchange connection"
  | OnBinance _ => "Binance Futures connection"
  | OnBybit _ => "Bybit connection"
  | OnOKX _ => "OKX connection"
  end.

(** Whether the answer of the exchange says that the credentials are
    good: the test each [validateCredentials] makes on the response. *)
Definition accepted (c : Check) : bool :=
  match c with
  | OnDelta (Resolved r) => (status r =? 200) && DeltaExchangeBroker.Body.success (data r)
  | OnBinance (Resolved r) => (status r =? 200) && BinanceFuturesBroker.Account.canTrade (data r)
  | OnBybit (Resolved r) => BybitBroker.Body.retCode (data r) =? 0
  | OnOKX (Resolved r) => String.eqb (OKXBroker.Body.code (data r)) "0"
  | _ => false
  end.

End Probe.

Module BrokerFactory.
Import BaseBroker.

Inductive SupportedBroker := DELTA | BINANCE | BYBIT | OKX.

(** The [switch (brokerType)] of [createBroker]; the type annotation
    is erased at run time, so any string can arrive. *)
Definition brokerClass (brokerType : string) : option SupportedBroker :=
  if String.eqb brokerType "DELTA" then Some DELTA
  else if String.eqb brokerType "BINANCE" then Some BINANCE
  else if String.eqb brokerType "BYBIT" then Some BYBIT
  else if String.eqb brokerType "OKX" then Some OKX
  else None.

(** A connector on the heap: its class and its fields. *)
Record Instance := {
  class : SupportedBroker;
  object : Broker;
}.

(** The static [instances] map holds references; a reference is the
    index of the object on the heap, and [new] allocates at the end. *)
Record Registry := {
  instances : gmap string nat;
  heap : list Instance;
}.

Definition empty : Registry := {| instances := ∅; heap := [] |}.

(** [instanceId || `${brokerType}_${credentials.apiKey.substring(0, 8)}`] *)
Definition instanceKey (brokerType : string) (credentials : BrokerCredentials)
    (instanceId : option string) : string :=
  Js.orElse instanceId
    (brokerType +:+ "_" +:+ Js.substring0 8 (apiKey credentials)).

(** [createBroker(brokerType, credentials, instanceId?)]; the two
    listeners it attaches to a new connector only write to the log. *)
Definition createBroker (brokerType : string) (credentials : BrokerCredentials)
    (instanceId : option string) (reg : Registry) : outcome nat * Registry :=
  let key := instanceKey brokerType credentials instanceId in
  match instances reg !! key with
  | Some broker => (Return broker, reg)
  | None =>
      match brokerClass brokerType with
      | None => (Throw (Error ("Unsupported broker type: " +:+ brokerType)), reg)
      | Some cls =>
          let broker := length (heap reg) in
          (Return broker,
           {| instances := <[key := broker]> (instances reg);
              heap := (heap reg ++ [{| class := cls; object := newBroker credentials |}])%list |})
      end
  end.

(** [getBroker(instanceId)] *)
Definition getBroker (instanceId : string) (reg : Registry) : option nat :=
  instances reg !! instanceId.

(** What [disconnectBroker(instanceId)] does to the registry: the
    object is disconnected and its key removed. *)
Definition disconnectBroker (instanceId : string) (reg : Registry) : Registry :=
  match instances reg !! instanceId with
  | Some broker =>
      {| instances := delete instanceId (instances reg);
         heap := alter (λ i, {| class := class i;
                                object := (disconnect (object i)).2 |})
                       broker (heap reg) |}
  | None => reg
  end.

(** *** The other methods of the registry

    What the exchange and the network answer to one connector while a
    method of the registry runs: the time on the clock, the reply to
    the credential request of each class, and the handshake of the
    stream. *)
Record Exchange := {
  clock : Z;
  deltaProfile : ApiResult (DeltaExchangeBroker.Body.t unit);
  binanceAccount : ApiResult BinanceFuturesBroker.Account.t;
  bybitInfo : ApiResult (BybitBroker.Body.t unit);
  okxConfig : ApiResult (OKXBroker.Body.t unit);
  handshake : WsResult;
}.

(** The credential request that a connector of class [cls] makes. *)
Definition probe (cls : SupportedBroker) (x : Exchange) : Probe.Check :=
  match cls with
  | DELTA => Probe.OnDelta (deltaProfile x)
  | BINANCE => Probe.OnBinance (binanceAccount x)
  | BYBIT => Probe.OnBybit (bybitInfo x)
  | OKX => Probe.OnOKX (okxConfig x)
  end.

(** Methods of the registry as state transformers that may throw. *)
Definition R (A : Type) : Type := Registry → outcome A * Registry.

#[global] Instance R_ret : MRet R := λ A a reg, (Return a, reg).

#[global] Instance R_bind : MBind R := λ A B k m reg,
  match m reg with
  | (Return a, reg') => k a reg'
  | (Throw e, reg') => (Throw e, reg')
  end.

(** The object behind [broker] with its fields replaced. *)
Definition store (broker : nat) (b : Broker) (reg : Registry) : Registry :=
  {| instances := instances reg;
     heap := alter (λ i, {| class := class i; object := b |}) broker (heap reg) |}.

(** [broker.method()]: the method of the class of the object runs on
    the fields of the object.  A reference that points nowhere stands
    for [undefined]. *)
Definition call {A} (method : string) (broker : nat)
    (body : SupportedBroker → M A) : R A := λ reg,
  match heap reg !! broker with
  | Some i => let '(result, b) := body (class i) (object i) in
              (result, store broker b reg)
  | None => (Throw (TypeError method), reg)
  end.

(** A method that only reads the fields of [this]. *)
Definition read {A} (f : Broker → A) : M A := λ this, (Return (f this), this).

(** [connectBroker(brokerType, credentials, instanceId?)] *)
Definition connectBroker (brokerType : string) (credentials : BrokerCredentials)
    (instanceId : option string) (x : Exchange) : R nat :=
  broker ← (createBroker brokerType credentials instanceId : R nat);
  connected ← call "getConnectionStatus" broker (λ _, read getConnectionStatus);
  if negb connected
  then _ ← call "connect" broker
             (λ cls, Probe.connect (clock x) (probe cls x) (handshake x));
       mret broker
  else mret broker.

(** The order of two entries of the map: a key is only ever set
    together with a new object, so the order in which the keys were
    set is the order of the references. *)
Definition older (a b : string * nat) : Prop := (a.2 ≤ b.2)%nat.

#[global] Instance older_dec : RelDecision older :=
  λ a b, decide (a.2 ≤ b.2)%nat.

(** [Array.from(this.instances.entries())]: a Map is walked in the
    order in which its keys were set. *)
Definition entries (reg : Registry) : list (string * nat) :=
  merge_sort older (map_to_list (instances reg)).

(** The closure that [disconnectAllBrokers()] maps over the entries:
    [try { await broker.disconnect() } catch (error) { ... }]. *)
Definition disconnectEntry (reg : Registry) (entry : string * nat) : Registry :=
  (call "disconnect" entry.2 (λ _, tryCatch disconnect (λ error, mret tt)) reg).2.

(** [disconnectAllBrokers()].  The body of [disconnect()] has no
    [await]: the connectors are disconnected in the order of the
    entries, then the map is cleared. *)
Definition disconnectAllBrokers (reg : Registry) : Registry :=
  let reg := foldl disconnectEntry reg (entries reg) in
  {| instances := ∅; heap := heap reg |}.

(** [getConnectedBrokers()] *)
Definition getConnectedBrokers (reg : Registry) : list string :=
  map fst
    (List.filter
       (λ entry, match heap reg !! entry.2 with
                 | Some i => getConnectionStatus (object i)
                 | None => false
                 end)
       (entries reg)).

(** [healthChecks[key] = value] on an object literal: "__proto__" is
    the accessor of Object.prototype, and setting it to a boolean does
    nothing. *)
Definition setProperty (key : string) (value : bool)
    (healthChecks : gmap string bool) : gmap string bool :=
  if String.eqb key "__proto__" then healthChecks
  else <[key := value]> healthChecks.

(** The closure that [healthCheckAll()] maps over the entries, with
    what is answered to the connector filed under each key:
    [try { healthChecks[key] = await broker.healthCheck() }
     catch (error) { healthChecks[key] = false }]. *)
Definition healthCheckEntry (answers : string → Exchange)
    (acc : gmap string bool * Registry) (entry : string * nat)
    : gmap string bool * Registry :=
  let x := answers entry.1 in
  match call "healthCheck" entry.2
          (λ cls, Probe.healthCheck (clock x) (probe cls x)) acc.2 with
  | (Return healthy, reg) => (setProperty entry.1 healthy acc.1, reg)
  | (Throw error, reg) => (setProperty entry.1 false acc.1, reg)
  end.

(** [healthCheckAll()].  Every [healthCheck()] runs up to its request
    in the order of the entries; the answers may come in any order,
    each one sets the property of its own key. *)
Definition healthCheckAll (answers : string → Exchange) (reg : Registry)
    : gmap string bool * Registry :=
  foldl (healthCheckEntry answers) (∅, reg) (entries reg).

(** [getSupportedBrokers()] *)
Definition getSupportedBrokers : list string :=
  ["DELTA"; "BINANCE"; "BYBIT"; "OKX"].

Record Info := {
  name : string;
  baseUrl : string;
  wsUrl : string;
  features : list string;
}.

(** [getBrokerInfo(brokerType)]: the property [brokerType] of the
    table; [None] where the table has no such property of its own. *)
Definition getBrokerInfo (brokerType : string) : option Info :=
  if String.eqb brokerType "DELTA" then
    Some {| name := "Delta Exchange"; baseUrl := "https://api.delta.exchange";
            wsUrl := "wss://socket.delta.exchange";
            features := ["futures"; "options"; "perpetual"] |}
  else if String.eqb brokerType "BINANCE" then
    Some {| name := "Binance Futures"; baseUrl := "https://fapi.binance.com";
            wsUrl := "wss://fstream.binance.com";
            features := ["futures"; "perpetual"; "margin"] |}
  else if String.eqb brokerType "BYBIT" then
    Some {| name := "Bybit"; baseUrl := "https://api.bybit.com";
            wsUrl := "wss://stream.bybit.com";
            features := ["futures"; "perpetual"; "spot"] |}
  else if String.eqb brokerType "OKX" then
    Some {| name := "OKX"; baseUrl := "https://www.okx.com";
            wsUrl := "wss://ws.okx.com";
            features := ["futures"; "perpetual"; "spot"; "options"] |}
  else None.

End BrokerFactory.

(* ===================================================================== *)
(** ** Vocabulary of the statements *)
(* ===================================================================== *)

Module Limiter.
Import BaseBroker.

(** Strings made of decimal digits only. *)
Fixpoint allDigits (s : string) : bool :=
  match s with
  | String c r => Js.isDigit c && allDigits r
  | EmptyString => true
  end.

(** The second "_"-separated field of a key: what the clean-up loop
    reads as the bucket number of the key. *)
Definition secondField (k : string) : option string := Js.split "_" k !! 1%nat.

(** Endpoint names without an underscore: the second field of their
    keys is the bucket number. *)
Definition plainName (endpoint : string) : bool :=
  match secondField endpoint with None => true | Some _ => false end.

(** Endpoint names whose keys the clean-up loop cannot mistake for
    old ones: plain names, and names whose own second field is empty
    or does not start with a number (such as "order_status"). *)
Definition wellKeyed (endpoint : string) : bool :=
  match secondField endpoint with
  | None => true
  | Some f =>
      negb (Js.truthy f) ||
      match Js.parseInt f with None => true | Some _ => false end
  end.

(** Successive calls of [checkRateLimit] at the times [ts]. *)
Fixpoint calls (rateLimiter : gmap string Z) (ts : list Z)
    (endpoint : string) (limit windowMs : Z) : list bool * gmap string Z :=
  match ts with
  | [] => ([], rateLimiter)
  | t :: ts' =>
      let '(b, rl1) := checkRateLimit rateLimiter t endpoint limit windowMs in
      let '(bs, rl2) := calls rl1 ts' endpoint limit windowMs in
      (b :: bs, rl2)
  end.

(** How many of the calls made at the times [ts], with the answers
    [bs], fell in window [w] and were let through. *)
Fixpoint throughIn (windowMs w : Z) (ts : list Z) (bs : list bool) : nat :=
  match ts, bs with
  | t :: ts', b :: bs' =>
      ((if b && (t / windowMs =? w)%Z then 1 else 0) + throughIn windowMs w ts' bs')%nat
  | _, _ => 0%nat
  end.

End Limiter.

(** Whether the limiter of a connector lets a call of [endpoint]
    through at time [now] (all call sites use a 60-second window). *)
Definition allows (b : BaseBroker.Broker) (now : Z) (endpoint : string) (limit : Z) : bool :=
  (BaseBroker.checkRateLimit (BaseBroker.rateLimiter b) now endpoint limit 60000).1.

(** The status of the result a method returned, if it returned. *)
Definition statusOf (o : outcome BaseBroker.TradeResult.t) : option BaseBroker.OrderStatus :=
  match o with
  | Return r => Some (BaseBroker.TradeResult.status r)
  | Throw _ => None
  end.

(** The invariant of the balance rows: a positive total that is the
    sum of the free and the locked part (whenever the free part is a
    finite number). *)
Definition balanced (r : BaseBroker.AccountBalance.t) : Prop :=
  Js.gt (BaseBroker.AccountBalance.total r) (Js.ofZ 0) = true ∧
  (Js.isFinite (BaseBroker.AccountBalance.free r) = true →
   Js.neq (Js.add (BaseBroker.AccountBalance.free r) (BaseBroker.AccountBalance.locked r))
          (BaseBroker.AccountBalance.total r) = false).

(** The status vocabularies as the table of section 4.2 of the
    specification documents them. *)
Module StatusTable.
Import BaseBroker.

Definition delta : list (string * OrderStatus) :=
  [("open", pending); ("pending", pending); ("filled", filled);
   ("closed", filled); ("cancelled", cancelled); ("rejected", rejected)].

Definition binance : list (string * OrderStatus) :=
  [("NEW", pending); ("PARTIALLY_FILLED", pending); ("FILLED", filled);
   ("CANCELED", cancelled); ("EXPIRED", cancelled); ("REJECTED", rejected)].

Definition bybit : list (string * OrderStatus) :=
  [("New", pending); ("PartiallyFilled", pending); ("Filled", filled);
   ("Cancelled", cancelled); ("Rejected", cancelled); ("Deactivated", rejected)].

Definition okx : list (string * OrderStatus) :=
  [("live", pending); ("partially_filled", pending); ("filled", filled);
   ("canceled", cancelled); ("rejected", rejected)].

(** A table, read as a function with [pending] as the default. *)
Fixpoint normalize (table : list (string * OrderStatus)) (native : string) : OrderStatus :=
  match table with
  | (word, st) :: rest => if String.eqb native word then st else normalize rest native
  | [] => pending
  end.

End StatusTable.

(** The invariant of the registry: every reference points into the
    heap, and no object is filed under two keys. *)
Definition wellFormed (reg : BrokerFactory.Registry) : Prop :=
  (∀ k r, BrokerFactory.instances reg !! k = Some r →
          (r < length (BrokerFactory.heap reg))%nat) ∧
  (∀ k1 k2 r, BrokerFactory.instances reg !! k1 = Some r →
              BrokerFactory.instances reg !! k2 = Some r → k1 = k2).

(** The life of the registry: what the methods of BrokerFactory and
    the methods called on a connector do to it, one call at a time. *)
Inductive step : BrokerFactory.Registry → BrokerFactory.Registry → Prop :=
| step_createBroker brokerType credentials instanceId reg :
    step reg (BrokerFactory.createBroker brokerType credentials instanceId reg).2
| step_connectBroker brokerType credentials instanceId x reg :
    step reg (BrokerFactory.connectBroker brokerType credentials instanceId x reg).2
| step_disconnectBroker instanceId reg :
    step reg (BrokerFactory.disconnectBroker instanceId reg)
| step_disconnectAllBrokers reg :
    step reg (BrokerFactory.disconnectAllBrokers reg)
| step_healthCheckAll answers reg :
    step reg (BrokerFactory.healthCheckAll answers reg).2
| step_method {A} method broker (body : BrokerFactory.SupportedBroker → BaseBroker.M A) reg :
    step reg (BrokerFactory.call method broker body reg).2.

(** The registries that a run of the program can reach. *)
Definition reachable (reg : BrokerFactory.Registry) : Prop :=
  rtc step BrokerFactory.empty reg.

(** The calls that do not take the key [key] out of the registry:
    all of them but [disconnectBroker(key)] and
    [disconnectAllBrokers()]. *)
Inductive keeps (key : string) : BrokerFactory.Registry → BrokerFactory.Registry → Prop :=
| keeps_createBroker brokerType credentials instanceId reg :
    keeps key reg (BrokerFactory.createBroker brokerType credentials instanceId reg).2
| keeps_connectBroker brokerType credentials instanceId x reg :
    keeps key reg (BrokerFactory.connectBroker brokerType credentials instanceId x reg).2
| keeps_disconnectBroker instanceId reg :
    instanceId ≠ key →
    keeps key reg (BrokerFactory.disconnectBroker instanceId reg)
| keeps_healthCheckAll answers reg :
    keeps key reg (BrokerFactory.healthCheckAll answers reg).2
| keeps_method {A} method broker (body : BrokerFactory.SupportedBroker → BaseBroker.M A) reg :
    keeps key reg (BrokerFactory.call method broker body reg).2.

(** What a health check of the connector [i] answers at [x]. *)
Definition verdict (i : BrokerFactory.Instance) (x : BrokerFactory.Exchange) : bool :=
  allows (BrokerFactory.object i) (BrokerFactory.clock x) "validate" 10
  && Probe.accepted (BrokerFactory.probe (BrokerFactory.class i) x).

(** A connector after [disconnect()]. *)
Definition disconnected (i : BrokerFactory.Instance) : BrokerFactory.Instance :=
  {| BrokerFactory.class := BrokerFactory.class i;
     BrokerFactory.object := (BaseBroker.disconnect (BrokerFactory.object i)).2 |}.

(** What routes/accounts.ts does to the registry. *)
Module AccountsRoute.

(** POST /, POST /:id/validate and POST /:id/sync:
    [BrokerFactory.createBroker(broker, { apiKey, apiSecret, ... })],
    without an [instanceId]. *)
Definition brokerInstance (broker : string) (credentials : BaseBroker.BrokerCredentials)
    : BrokerFactory.R nat :=
  BrokerFactory.createBroker broker credentials None.

(** DELETE /:id, once the account row is deleted:
    [BrokerFactory.disconnectBroker(`${account.broker}_${account.id}`)]. *)
Definition disconnectDeleted (broker accountId : string)
    (reg : BrokerFactory.Registry) : BrokerFactory.Registry :=
  BrokerFactory.disconnectBroker (broker +:+ "_" +:+ accountId) reg.

End AccountsRoute.

(** The REST methods of the four connectors, other than
    [validateCredentials], each with its arguments and with what the
    exchange answers to the requests it makes. *)
Module Rest.
Import BaseBroker.

Inductive Call :=
| DeltaBalance (balances : ApiResult (DeltaExchangeBroker.Body.t (list DeltaExchangeBroker.Wallet.t)))
| DeltaPositions (positions : ApiResult (DeltaExchangeBroker.Body.t (list DeltaExchangeBroker.PositionRow.t)))
| DeltaPlace (order : TradeOrder.t)
    (products : ApiResult (DeltaExchangeBroker.Body.t (list DeltaExchangeBroker.Product.t)))
    (ack : ApiResult (DeltaExchangeBroker.Body.t (option DeltaExchangeBroker.Order.t)))
| DeltaCancel (orderId symbol : string)
    (products : ApiResult (DeltaExchangeBroker.Body.t (list DeltaExchangeBroker.Product.t)))
    (reply : ApiResult (DeltaExchangeBroker.Body.t unit))
| DeltaStatus (orderId symbol : string)
    (reply : ApiResult (DeltaExchangeBroker.Body.t (option DeltaExchangeBroker.OrderDetail.t)))
| BinanceBalance (balances : ApiResult (list BinanceFuturesBroker.Balance.t))
| BinancePositions (positions : ApiResult (list BinanceFuturesBroker.PositionRow.t))
| BinancePlace (order : TradeOrder.t) (ack : ApiResult BinanceFuturesBroker.Order.t)
| BinanceCancel (orderId symbol : string) (reply : ApiResult BinanceFuturesBroker.Cancelled.t)
| BinanceStatus (orderId symbol : string) (reply : ApiResult BinanceFuturesBroker.OrderDetail.t)
| BybitBalance (wallet : ApiResult (BybitBroker.Body.t (list BybitBroker.Account.t)))
| BybitPositions (positions : ApiResult (BybitBroker.Body.t (list BybitBroker.PositionRow.t)))
| BybitPlace (order : TradeOrder.t) (ack : ApiResult (BybitBroker.Body.t (option BybitBroker.Ack.t)))
| BybitCancel (orderId symbol : string) (reply : ApiResult (BybitBroker.Body.t unit))
| BybitStatus (orderId symbol : string)
    (reply : ApiResult (BybitBroker.Body.t (list BybitBroker.OrderDetail.t)))
| OKXBalance (balance : ApiResult (OKXBroker.Body.t (list OKXBroker.Account.t)))
| OKXPositions (positions : ApiResult (OKXBroker.Body.t (list OKXBroker.PositionRow.t)))
| OKXPlace (order : TradeOrder.t) (ack : ApiResult (OKXBroker.Body.t (list OKXBroker.Ack.t)))
| OKXCancel (orderId symbol : string) (reply : ApiResult (OKXBroker.Body.t unit))
| OKXStatus (orderId symbol : string)
    (reply : ApiResult (OKXBroker.Body.t (list OKXBroker.OrderDetail.t))).

(** What a method returns. *)
Inductive Value :=
| Balances (rows : list AccountBalance.t)
| Positions (rows : list Position.t)
| Trade (result : TradeResult.t)
| Flag (confirmed : bool).

Definition returning {A} (wrap : A → Value) (m : M A) : M Value :=
  a ← m; mret (wrap a).

(** The method that a call stands for. *)
Definition perform (now : Z) (c : Call) : M Value :=
  match c with
  | DeltaBalance r => returning Balances (DeltaExchangeBroker.getAccountBalance now r)
  | DeltaPositions r => returning Positions (DeltaExchangeBroker.getPositions now r)
  | DeltaPlace o p a => returning Trade (DeltaExchangeBroker.placeOrder now o p a)
  | DeltaCancel i s p r => returning Flag (DeltaExchangeBroker.cancelOrder now i s p r)
  | DeltaStatus i s r => returning Trade (DeltaExchangeBroker.getOrderStatus now i s r)
  | BinanceBalance r => returning Balances (BinanceFuturesBroker.getAccountBalance now r)
  | BinancePositions r => returning Positions (BinanceFuturesBroker.getPositions now r)
  | BinancePlace o a => returning Trade (BinanceFuturesBroker.placeOrder now o a)
  | BinanceCancel i s r => returning Flag (BinanceFuturesBroker.cancelOrder now i s r)
  | BinanceStatus i s r => returning Trade (BinanceFuturesBroker.getOrderStatus now i s r)
  | BybitBalance r => returning Balances (BybitBroker.getAccountBalance now r)
  | BybitPositions r => returning Positions (BybitBroker.getPositions now r)
  | BybitPlace o a => returning Trade (BybitBroker.placeOrder now o a)
  | BybitCancel i s r => returning Flag (BybitBroker.cancelOrder now i s r)
  | BybitStatus i s r => returning Trade (BybitBroker.getOrderStatus now i s r)
  | OKXBalance r => returning Balances (OKXBroker.getAccountBalance now r)
  | OKXPositions r => returning Positions (OKXBroker.getPositions now r)
  | OKXPlace o a => returning Trade (OKXBroker.placeOrder now o a)
  | OKXCancel i s r => returning Flag (OKXBroker.cancelOrder now i s r)
  | OKXStatus i s r => returning Trade (OKXBroker.getOrderStatus now i s r)
  end.

(** The endpoint name and the limit that the method hands to
    [checkRateLimit]. *)
Definition budget (c : Call) : string * Z :=
  match c with
  | DeltaBalance _ | BinanceBalance _ | BybitBalance _ | OKXBalance _ => ("balance", 10)
  | DeltaPositions _ | BinancePositions _ | BybitPositions _ | OKXPositions _ =>
      ("positions", 10)
  | DeltaPlace _ _ _ | BinancePlace _ _ | BybitPlace _ _ | OKXPlace _ _ => ("order", 20)
  | DeltaCancel _ _ _ _ | BinanceCancel _ _ _ | BybitCancel _ _ _ | OKXCancel _ _ _ =>
      ("cancel", 20)
  | DeltaStatus _ _ _ | BinanceStatus _ _ _ | BybitStatus _ _ _ | OKXStatus _ _ _ =>
      ("order_status", 10)
  end.

Definition rejectedWith {D} (r : ApiResult D) : option JsError :=
  match r with Rejected e => Some e | Resolved _ => None end.

(** The error with which the first request of the call is rejected, if
    it is rejected. *)
Definition rejection (c : Call) : option JsError :=
  match c with
  | DeltaBalance r => rejectedWith r
  | DeltaPositions r => rejectedWith r
  | DeltaPlace _ p _ => rejectedWith p
  | DeltaCancel _ _ p _ => rejectedWith p
  | DeltaStatus _ _ r => rejectedWith r
  | BinanceBalance r => rejectedWith r
  | BinancePositions r => rejectedWith r
  | BinancePlace _ a => rejectedWith a
  | BinanceCancel _ _ r => rejectedWith r
  | BinanceStatus _ _ r => rejectedWith r
  | BybitBalance r => rejectedWith r
  | BybitPositions r => rejectedWith r
  | BybitPlace _ a => rejectedWith a
  | BybitCancel _ _ r => rejectedWith r
  | BybitStatus _ _ r => rejectedWith r
  | OKXBalance r => rejectedWith r
  | OKXPositions r => rejectedWith r
  | OKXPlace _ a => rejectedWith a
  | OKXCancel _ _ r => rejectedWith r
  | OKXStatus _ _ r => rejectedWith r
  end.

End Rest.

(** What [getPositions] promises about a row: the position is not
    flat, its size is positive when it is a finite number, and its
    side is one of the two of the data model. *)
Definition openPosition (p : BaseBroker.Position.t) : Prop :=
  Js.neq (BaseBroker.Position.size p) (Js.ofZ 0) = true ∧
  (Js.isFinite (BaseBroker.Position.size p) = true →
   Js.gt (BaseBroker.Position.size p) (Js.ofZ 0) = true) ∧
  (BaseBroker.Position.side p = "long" ∨ BaseBroker.Position.side p = "short").

(** The two market-data methods of the four connectors, each with its
    arguments and with what the exchange answers to its requests. *)
Module Feed.
Import BaseBroker.

Inductive Call :=
| OnDelta (symbols : list string)
    (products : nat → ApiResult (DeltaExchangeBroker.Body.t (list DeltaExchangeBroker.Product.t)))
| OnBinance (now : Z) (symbols : list string)
| OnBybit (symbols : list string)
| OnOKX (symbols : list string).

Definition subscribeToMarketData (c : Call) (ws : WsResult) : Wire unit :=
  match c with
  | OnDelta symbols products =>
      DeltaExchangeBroker.subscribeToMarketData symbols ws products
  | OnBinance now symbols => BinanceFuturesBroker.subscribeToMarketData now symbols ws
  | OnBybit symbols => BybitBroker.subscribeToMarketData symbols ws
  | OnOKX symbols => OKXBroker.subscribeToMarketData symbols ws
  end.

Definition unsubscribeFromMarketData (c : Call) : Wire unit :=
  match c with
  | OnDelta symbols products =>
      DeltaExchangeBroker.unsubscribeFromMarketData symbols products
  | OnBinance now symbols => BinanceFuturesBroker.unsubscribeFromMarketData now symbols
  | OnBybit symbols => BybitBroker.unsubscribeFromMarketData symbols
  | OnOKX symbols => OKXBroker.unsubscribeFromMarketData symbols
  end.

Definition symbols (c : Call) : list string :=
  match c with
  | OnDelta symbols _ | OnBinance _ symbols | OnBybit symbols | OnOKX symbols => symbols
  end.

(** Whether the call sends all its symbols in one frame. *)
Definition oneFrame (c : Call) : bool :=
  match c with OnDelta _ _ => false | _ => true end.

(** The entries of the list that a frame of Binance ([params]), Bybit
    or OKX ([args]) carries. *)
Definition listed (frame : Json) : option (list Json) :=
  match frame with
  | JObj [(_, _); (_, JArr elements)] => Some elements
  | JObj [(_, _); (_, JArr elements); (_, _)] => Some elements
  | _ => None
  end.

(** The product that the list [products] has for [symbol]:
    [result.find((p) => p.symbol === symbol)]. *)
Definition productFor (products : list DeltaExchangeBroker.Product.t) (symbol : string)
    : option DeltaExchangeBroker.Product.t :=
  find (λ p, String.eqb (DeltaExchangeBroker.Product.symbol p) symbol) products.

End Feed.

(** Sample inputs. *)
Module Sample.
Import BaseBroker.

Definition credentials : BrokerCredentials :=
  {| apiKey := "k3yA1b2c3d4e5"; apiSecret := "s3cret";
     passphrase := None; sandbox := None |}.

(** A connector fresh from its constructor. *)
Definition broker : Broker := newBroker credentials.

(** The rejections the REST client can raise. *)
Definition unauthorized : JsError :=
  mkJsError (Some 401) (Some "ERR_BAD_REQUEST") "Request failed with status code 401".
Definition timeout : JsError :=
  mkJsError None (Some "ETIMEDOUT") "connect ETIMEDOUT".
Definition refused : JsError :=
  mkJsError None (Some "ECONNREFUSED") "connect ECONNREFUSED".
Definition unavailable : JsError :=
  mkJsError (Some 503) (Some "ERR_BAD_RESPONSE") "Request failed with status code 503".

(** The order of the end-to-end scenario. *)
Definition marketBuy : TradeOrder.t :=
  {| TradeOrder.symbol := "BTCUSDT"; TradeOrder.side := buy;
     TradeOrder.type := market; TradeOrder.quantity := Js.ofZ 1;
     TradeOrder.price := None; TradeOrder.stopPrice := None;
     TradeOrder.timeInForce := None |}.

(** A limiter that has already let ten "validate" calls through in
    the window of [now = 120000]. *)
Definition exhausted : Broker :=
  setRateLimiter broker {[ "validate_2" := 10 ]}.

(** What /v2/wallet/balances can answer: an empty wallet, and a
    wallet part of which is tied up as position margin. *)
Definition deltaWallets : list DeltaExchangeBroker.Wallet.t :=
  [ {| DeltaExchangeBroker.Wallet.asset_symbol := "BTC";
       DeltaExchangeBroker.Wallet.available_balance := "0";
       DeltaExchangeBroker.Wallet.order_margin := "0";
       DeltaExchangeBroker.Wallet.wallet_balance := "0" |};
    {| DeltaExchangeBroker.Wallet.asset_symbol := "USDT";
       DeltaExchangeBroker.Wallet.available_balance := "60";
       DeltaExchangeBroker.Wallet.order_margin := "10";
       DeltaExchangeBroker.Wallet.wallet_balance := "100" |} ].

Definition deltaBalances : ApiResult (DeltaExchangeBroker.Body.t (list DeltaExchangeBroker.Wallet.t)) :=
  Resolved {| status := 200;
              data := {| DeltaExchangeBroker.Body.success := true;
                         DeltaExchangeBroker.Body.error_message := None;
                         DeltaExchangeBroker.Body.result := deltaWallets |} |}.

(** The same two balances as Binance reports them. *)
Definition binanceBalances : ApiResult (list BinanceFuturesBroker.Balance.t) :=
  Resolved {| status := 200;
              data := [ {| BinanceFuturesBroker.Balance.asset := "BTC";
                           BinanceFuturesBroker.Balance.balance := "0";
                           BinanceFuturesBroker.Balance.availableBalance := "0" |};
                        {| BinanceFuturesBroker.Balance.asset := "USDT";
                           BinanceFuturesBroker.Balance.balance := "100";
                           BinanceFuturesBroker.Balance.availableBalance := "60" |} ] |}.

(** Acknowledgments of an order. *)
Definition binanceAck (status : string) : ApiResult BinanceFuturesBroker.Order.t :=
  Resolved {| status := 200;
              data := {| BinanceFuturesBroker.Order.orderId := 4061;
                         BinanceFuturesBroker.Order.symbol := "BTCUSDT";
                         BinanceFuturesBroker.Order.side := "BUY";
                         BinanceFuturesBroker.Order.origQty := "1";
                         BinanceFuturesBroker.Order.price := Some "0";
                         BinanceFuturesBroker.Order.avgPrice := Some "0.00";
                         BinanceFuturesBroker.Order.status := status;
                         BinanceFuturesBroker.Order.updateTime := 120000 |} |}.

Definition bybitAck (status : string) : ApiResult (BybitBroker.Body.t (option BybitBroker.Ack.t)) :=
  Resolved {| status := 200;
              data := {| BybitBroker.Body.retCode := 0;
                         BybitBroker.Body.retMsg := Some "OK";
                         BybitBroker.Body.result :=
                           Some {| BybitBroker.Ack.orderId := "1321003749386327552";
                                   BybitBroker.Ack.orderStatus := Some status |} |} |}.

(** A Bybit position that is open but whose value is reported as 0. *)
Definition zeroValuePosition : BybitBroker.PositionRow.t :=
  {| BybitBroker.PositionRow.symbol := "BTCUSDT";
     BybitBroker.PositionRow.side := "Buy";
     BybitBroker.PositionRow.size := "0.01";
     BybitBroker.PositionRow.avgPrice := "0";
     BybitBroker.PositionRow.markPrice := "0";
     BybitBroker.PositionRow.unrealisedPnl := "0";
     BybitBroker.PositionRow.positionValue := "0" |}.

Definition bybitPositions (rows : list BybitBroker.PositionRow.t)
    : ApiResult (BybitBroker.Body.t (list BybitBroker.PositionRow.t)) :=
  Resolved {| status := 200;
              data := {| BybitBroker.Body.retCode := 0;
                         BybitBroker.Body.retMsg := Some "OK";
                         BybitBroker.Body.result := rows |} |}.

(** Two accounts whose API keys start with the same eight characters. *)
Definition alice : BrokerCredentials :=
  {| apiKey := "9f8e7d6c-alice"; apiSecret := "alice-secret";
     passphrase := Some "alice-pass"; sandbox := None |}.
Definition bob : BrokerCredentials :=
  {| apiKey := "9f8e7d6c-bob"; apiSecret := "bob-secret";
     passphrase := Some "bob-pass"; sandbox := None |}.

(** Answers to the credential request. *)
Definition deltaProfile (success : bool) : ApiResult (DeltaExchangeBroker.Body.t unit) :=
  Resolved {| status := 200;
              data := {| DeltaExchangeBroker.Body.success := success;
                         DeltaExchangeBroker.Body.error_message := None;
                         DeltaExchangeBroker.Body.result := tt |} |}.

Definition bybitInfo (retCode : Z) (retMsg : string) : ApiResult (BybitBroker.Body.t unit) :=
  Resolved {| status := 200;
              data := {| BybitBroker.Body.retCode := retCode;
                         BybitBroker.Body.retMsg := Some retMsg;
                         BybitBroker.Body.result := tt |} |}.

(** Bybit turning an order down. *)
Definition bybitRefusal : Response (BybitBroker.Body.t (option BybitBroker.Ack.t)) :=
  {| status := 200;
     data := {| BybitBroker.Body.retCode := 110007;
                BybitBroker.Body.retMsg := Some "Insufficient available balance";
                BybitBroker.Body.result := None |} |}.

(** The state of an order as Bybit and OKX report it. *)
Definition bybitOrder (orderStatus : string) : BybitBroker.OrderDetail.t :=
  {| BybitBroker.OrderDetail.orderId := "1321003749386327552";
     BybitBroker.OrderDetail.symbol := "BTCUSDT";
     BybitBroker.OrderDetail.side := "Buy";
     BybitBroker.OrderDetail.qty := "1";
     BybitBroker.OrderDetail.price := Some "";
     BybitBroker.OrderDetail.avgPrice := Some "42000.5";
     BybitBroker.OrderDetail.orderStatus := orderStatus;
     BybitBroker.OrderDetail.updatedTime := "1700000000000";
     BybitBroker.OrderDetail.cumExecFee := Some "0.42" |}.

Definition bybitOrderReply (orderStatus : string)
    : Response (BybitBroker.Body.t (list BybitBroker.OrderDetail.t)) :=
  {| status := 200;
     data := {| BybitBroker.Body.retCode := 0;
                BybitBroker.Body.retMsg := Some "OK";
                BybitBroker.Body.result := [bybitOrder orderStatus] |} |}.

(** A short of half a contract and a flat row, as Binance reports them. *)
Definition binancePositions : Response (list BinanceFuturesBroker.PositionRow.t) :=
  {| status := 200;
     data := [ {| BinanceFuturesBroker.PositionRow.symbol := "BTCUSDT";
                  BinanceFuturesBroker.PositionRow.positionAmt := "-0.5";
                  BinanceFuturesBroker.PositionRow.entryPrice := "42000";
                  BinanceFuturesBroker.PositionRow.markPrice := "41000";
                  BinanceFuturesBroker.PositionRow.unRealizedProfit := "500";
                  BinanceFuturesBroker.PositionRow.percentage := "2.38" |};
               {| BinanceFuturesBroker.PositionRow.symbol := "ETHUSDT";
                  BinanceFuturesBroker.PositionRow.positionAmt := "0.000";
                  BinanceFuturesBroker.PositionRow.entryPrice := "0.0";
                  BinanceFuturesBroker.PositionRow.markPrice := "2200";
                  BinanceFuturesBroker.PositionRow.unRealizedProfit := "0";
                  BinanceFuturesBroker.PositionRow.percentage := "0" |} ] |}.

(** A long position as Bybit reports it. *)
Definition bybitLong : BybitBroker.PositionRow.t :=
  {| BybitBroker.PositionRow.symbol := "BTCUSDT";
     BybitBroker.PositionRow.side := "Buy";
     BybitBroker.PositionRow.size := "0.01";
     BybitBroker.PositionRow.avgPrice := "42000";
     BybitBroker.PositionRow.markPrice := "43000";
     BybitBroker.PositionRow.unrealisedPnl := "10";
     BybitBroker.PositionRow.positionValue := "420" |}.

(** A position list of Bybit with that one row. *)
Definition bybitBook : Response (BybitBroker.Body.t (list BybitBroker.PositionRow.t)) :=
  {| status := 200;
     data := {| BybitBroker.Body.retCode := 0;
                BybitBroker.Body.retMsg := Some "OK";
                BybitBroker.Body.result := [bybitLong] |} |}.

(** Every credential request answered with 401, the stream opens. *)
Definition rejecting : BrokerFactory.Exchange :=
  {| BrokerFactory.clock := 120000;
     BrokerFactory.deltaProfile := Rejected unauthorized;
     BrokerFactory.binanceAccount := Rejected unauthorized;
     BrokerFactory.bybitInfo := Rejected unauthorized;
     BrokerFactory.okxConfig := Rejected unauthorized;
     BrokerFactory.handshake := WsOpened |}.

(** No route to the exchange. *)
Definition offline : BrokerFactory.Exchange :=
  {| BrokerFactory.clock := 120000;
     BrokerFactory.deltaProfile := Rejected refused;
     BrokerFactory.binanceAccount := Rejected refused;
     BrokerFactory.bybitInfo := Rejected refused;
     BrokerFactory.okxConfig := Rejected refused;
     BrokerFactory.handshake := WsFailed refused |}.

(** Every credential request accepted. *)
Definition accepting : BrokerFactory.Exchange :=
  {| BrokerFactory.clock := 120000;
     BrokerFactory.deltaProfile := deltaProfile true;
     BrokerFactory.binanceAccount :=
       Resolved {| status := 200;
                   data := {| BinanceFuturesBroker.Account.canTrade := true |} |};
     BrokerFactory.bybitInfo := bybitInfo 0 "OK";
     BrokerFactory.okxConfig :=
       Resolved {| status := 200;
                   data := {| OKXBroker.Body.code := "0";
                              OKXBroker.Body.msg := None;
                              OKXBroker.Body.data := tt |} |};
     BrokerFactory.handshake := WsOpened |}.

(** A registry with two connectors: one for OKX that was only
    created, one for Bybit that is connected. *)
Definition desk : BrokerFactory.Registry :=
  (BrokerFactory.connectBroker "BYBIT" alice None accepting
     (BrokerFactory.createBroker "OKX" alice None BrokerFactory.empty).2).2.

(** A connector whose stream is open, nothing sent yet. *)
Definition streaming : Session :=
  {| this := setWsClient broker (Some OPEN); sent := [] |}.

(** A connector without stream. *)
Definition silent : Session := {| this := broker; sent := [] |}.

(** The products of Delta: two of them. *)
Definition deltaProducts
    : Response (DeltaExchangeBroker.Body.t (list DeltaExchangeBroker.Product.t)) :=
  {| status := 200;
     data := {| DeltaExchangeBroker.Body.success := true;
                DeltaExchangeBroker.Body.error_message := None;
                DeltaExchangeBroker.Body.result :=
                  [ {| DeltaExchangeBroker.Product.id := 27;
                       DeltaExchangeBroker.Product.symbol := "BTCUSD" |};
                    {| DeltaExchangeBroker.Product.id := 3136;
                       DeltaExchangeBroker.Product.symbol := "ETHUSD" |} ] |} |}.

(** The registry after a look-up for Binance, and after a further
    look-up for Bybit. *)
Definition first : BrokerFactory.Registry :=
  (BrokerFactory.createBroker "BINANCE" alice None BrokerFactory.empty).2.

Definition second : BrokerFactory.Registry :=
  (BrokerFactory.createBroker "BYBIT" alice None first).2.

(** The times of seven calls, spread over two minutes. *)
Definition orderTimes : list Z :=
  [120000; 120001; 130000; 150000; 180000; 180001; 200000].

End Sample.

(* ===================================================================== *)
(** * Properties *)
(* ===================================================================== *)

(** ** The primitives on a few inputs *)

Example intToString_bucket : Js.intToString (1700000000000 / 60000) = "28333333".
Proof. reflexivity. Qed.

Example parseInt_bucket : Js.parseInt "28333333" = Some 28333333.
Proof. reflexivity. Qed.

Example parseInt_word : Js.parseInt "status" = None.
Proof. reflexivity. Qed.

Example parseInt_prefix : Js.parseInt " -17abc" = Some (-17).
Proof. reflexivity. Qed.

Example split_key :
  Js.split "_" "order_status_28333333" = ["order"; "status"; "28333333"].
Proof. reflexivity. Qed.

Example parseFloat_decimal : Js.parseFloat "12.50" = Js.Fin (25 # 2).
Proof. by vm_compute. Qed.

Example parseFloat_exponent : Js.parseFloat "-0.5e1x" = Js.Fin (-5).
Proof. by vm_compute. Qed.

Example parseFloat_word : Js.parseFloat "abc" = Js.NaN.
Proof. by vm_compute. Qed.

Example window_keys :
  BaseBroker.windowKey "order" 120000 60000 = "order_2" ∧
  BaseBroker.isOld 120000 60000 "order_0" = true ∧
  BaseBroker.isOld 120000 60000 "order_1" = false ∧
  BaseBroker.isOld 120000 60000 "order_status_0" = false ∧
  BaseBroker.isOld 120000 60000 "a_0_2" = true.
Proof. by vm_compute. Qed.

Example handleError_kinds :
  BaseBroker.handleError Sample.unauthorized "ctx" = Error "Invalid API credentials" ∧
  BaseBroker.handleError Sample.unavailable "ctx" = Error "Broker service unavailable" ∧
  BaseBroker.handleError Sample.refused "ctx" = Error "Connection refused by broker" ∧
  BaseBroker.handleError Sample.timeout "ctx" = Error "Request timeout" ∧
  BaseBroker.handleError (Error "Rate limit exceeded") "ctx" = Error "Rate limit exceeded".
Proof. by vm_compute. Qed.

(** ** Strings and numerals *)

Section StringFacts.
Import Limiter.

Lemma app_cons x (a b : string) : String x a +:+ b = String x (a +:+ b).
Proof. reflexivity. Qed.

Lemma app_empty_l (b : string) : EmptyString +:+ b = b.
Proof. reflexivity. Qed.

Lemma split_nonempty sep s : Js.split sep s ≠ [].
Proof. destruct s as [|c r]; simpl; [done|]. by repeat case_match. Qed.

Lemma split_app_sep sep a b :
  Js.split sep (a +:+ String sep b) = (Js.split sep a ++ Js.split sep b)%list.
Proof.
  induction a as [|c r IH]; rewrite ?app_cons, ?app_empty_l; simpl.
  - by rewrite Ascii.eqb_refl.
  - rewrite IH. destruct (Ascii.eqb c sep); [done|].
    pose proof (split_nonempty sep r).
    by destruct (Js.split sep r).
Qed.

Lemma split_allDigits s : allDigits s = true → Js.split "_" s = [s].
Proof.
  induction s as [|c r IH]; simpl; [done|].
  intros [Hc Hr]%andb_prop. rewrite (IH Hr).
  destruct (Ascii.eqb_spec c "_") as [->|]; [done|done].
Qed.

Lemma string_app_assoc (a b c : string) : (a +:+ b) +:+ c = a +:+ (b +:+ c).
Proof. induction a as [|x a IH]; [done|]. rewrite !app_cons. by f_equal. Qed.

Lemma allDigits_app a b :
  allDigits a = true → allDigits b = true → allDigits (a +:+ b) = true.
Proof.
  induction a as [|x a IH]; rewrite ?app_cons; simpl; [done|].
  intros [Hx Ha]%andb_prop Hb. by rewrite Hx, IH.
Qed.

Lemma digit_cases d :
  0 ≤ d < 10 →
  d = 0 ∨ d = 1 ∨ d = 2 ∨ d = 3 ∨ d = 4 ∨ d = 5 ∨ d = 6 ∨ d = 7 ∨ d = 8 ∨ d = 9.
Proof. lia. Qed.

Lemma isDigit_digitChar d : 0 ≤ d < 10 → Js.isDigit (Js.digitChar d) = true.
Proof. intros H%digit_cases. by repeat destruct H as [->|H]; subst. Qed.

Lemma digitValue_digitChar d : 0 ≤ d < 10 → Js.digitValue (Js.digitChar d) = d.
Proof. intros H%digit_cases. by repeat destruct H as [->|H]; subst. Qed.

Lemma isDigit_cases c :
  Js.isDigit c = true →
  c ∈ ["0"; "1"; "2"; "3"; "4"; "5"; "6"; "7"; "8"; "9"]%char.
Proof.
  intros H. assert (∃ d, c = Js.digitChar d ∧ 0 ≤ d < 10) as (d & -> & Hd).
  { exists (Js.digitValue c).
    destruct c as [[] [] [] [] [] [] [] []]; try discriminate H; by vm_compute. }
  apply digit_cases in Hd.
  repeat destruct Hd as [->|Hd]; subst;
    repeat first [apply list_elem_of_here | apply list_elem_of_further].
Qed.

(** Reading back the numeral that [digitsOf] prints. *)
Lemma digitsOf_spec fuel : ∀ n acc,
  0 ≤ n < 2 ^ Z.of_nat fuel → (0 < fuel)%nat →
  ∃ ds k, Js.digitsOf fuel n acc = ds +:+ acc ∧
        allDigits ds = true ∧ ds ≠ EmptyString ∧
        ∀ r a seen, Js.readDecimal (ds +:+ r) a seen
                    = Js.readDecimal r (a * k + n) true.
Proof.
  induction fuel as [|f IH]; intros n acc Hn Hf; [lia|].
  assert (Hd : 0 ≤ n `mod` 10 < 10) by (apply Z.mod_pos_bound; lia).
  pose proof (Z.div_mod n 10 ltac:(lia)) as Hdm.
  cbn [Js.digitsOf]. destruct (Z.eqb_spec (n / 10) 0) as [Hq|Hq].
  - exists (String (Js.digitChar (n `mod` 10)) EmptyString), 10.
    split; [reflexivity|]. split.
    { cbn [allDigits]. by rewrite isDigit_digitChar. }
    split; [done|].
    intros r a seen. rewrite app_cons, app_empty_l. cbn [Js.readDecimal].
    rewrite isDigit_digitChar, digitValue_digitChar by done.
    f_equal. lia.
  - assert (0 < n / 10) by (pose proof (Z.div_pos n 10); lia).
    assert (n / 10 < 2 ^ Z.of_nat f).
    { apply Z.div_lt_upper_bound; [lia|].
      rewrite Nat2Z.inj_succ, Z.pow_succ_r in Hn by lia. lia. }
    assert (0 < f)%nat.
    { destruct f; [|lia]. change (2 ^ Z.of_nat 0) with 1 in *. lia. }
    destruct (IH (n / 10) (String (Js.digitChar (n `mod` 10)) acc))
      as (ds & k & -> & Hds & Hne & Hread); [lia|done|].
    exists (ds +:+ String (Js.digitChar (n `mod` 10)) EmptyString), (k * 10).
    repeat split.
    + by rewrite string_app_assoc.
    + apply allDigits_app; [done|]. cbn [allDigits]. by rewrite isDigit_digitChar.
    + by destruct ds.
    + intros r a seen.
      rewrite string_app_assoc, Hread, app_cons, app_empty_l. cbn [Js.readDecimal].
      rewrite isDigit_digitChar, digitValue_digitChar by done.
      f_equal. lia.
Qed.

Lemma natToString_spec n :
  0 ≤ n →
  allDigits (Js.natToString n) = true ∧ Js.natToString n ≠ EmptyString ∧
  Js.readDecimal (Js.natToString n) 0 false = (n, true).
Proof.
  intros Hn. unfold Js.natToString.
  destruct (digitsOf_spec (S (Z.to_nat (Z.log2 n))) n EmptyString)
    as (ds & k & Heq & Hds & Hne & Hread); [|lia|].
  - split; [done|]. rewrite Nat2Z.inj_succ, Z2Nat.id by apply Z.log2_nonneg.
    destruct (Z.eq_dec n 0) as [->|]; [done|].
    apply Z.log2_spec. lia.
  - assert (Happ : ∀ s : string, s +:+ EmptyString = s).
    { induction s as [|x s IHs]; [done|]. by rewrite app_cons, IHs. }
    rewrite Heq, Happ. repeat split; [done..|].
    specialize (Hread EmptyString 0 false). by rewrite Happ in Hread.
Qed.

Lemma parseInt_allDigits s :
  allDigits s = true → s ≠ EmptyString →
  Js.parseInt s =
    (let '(v, seen) := Js.readDecimal s 0 false in
     if seen then Some v else None).
Proof.
  destruct s as [|c r]; [done|]. cbn [allDigits].
  intros [Hc Hr]%andb_prop _. apply isDigit_cases in Hc.
  assert (Hx : ∀ r', allDigits r' = true →
               match r' with String "x" _ | String "X" _ => False | _ => True end).
  { intros [|c' r'']; [done|]. cbn [allDigits]. intros [Hc' _]%andb_prop.
    apply isDigit_cases in Hc'.
    repeat (apply elem_of_cons in Hc' as [->|Hc']; [done|]).
    by apply elem_of_nil in Hc'. }
  specialize (Hx r Hr).
  repeat (apply elem_of_cons in Hc as [->|Hc];
          [unfold Js.parseInt; cbn [Js.trimStart Js.isWhiteSpace Js.readSign];
           try done|]).
  2: by apply elem_of_nil in Hc.
  cbn. destruct r as [|c' r']; [done|].
  destruct c' as [[] [] [] [] [] [] [] []]; done.
Qed.

Lemma parseInt_natToString n : 0 ≤ n → Js.parseInt (Js.natToString n) = Some n.
Proof.
  intros Hn. destruct (natToString_spec n Hn) as (Hd & Hne & Hread).
  by rewrite parseInt_allDigits, Hread.
Qed.

End StringFacts.

(** ** The rate limiter *)

Section RateLimiter.
Import BaseBroker Limiter.

Lemma intToString_nonneg n : 0 ≤ n → Js.intToString n = Js.natToString n.
Proof. intros H. unfold Js.intToString. by destruct (Z.ltb_spec n 0); [lia|]. Qed.

Lemma bucketKey_inj e b b' :
  0 ≤ b → 0 ≤ b' → bucketKey e b = bucketKey e b' → b = b'.
Proof.
  intros Hb Hb' Heq. unfold bucketKey in Heq.
  do 2 apply String.app_inj in Heq.
  rewrite !intToString_nonneg in Heq by done.
  apply (f_equal Js.parseInt) in Heq.
  rewrite !parseInt_natToString in Heq by done. congruence.
Qed.

Lemma secondField_bucketKey e b :
  0 ≤ b →
  secondField (bucketKey e b) =
    match secondField e with
    | Some f => Some f
    | None => Some (Js.intToString b)
    end.
Proof.
  intros Hb. unfold secondField, bucketKey.
  change ("_" +:+ Js.intToString b) with (String "_" (Js.intToString b)).
  rewrite split_app_sep.
  rewrite (split_allDigits (Js.intToString b)).
  2: { rewrite intToString_nonneg by done. by apply natToString_spec. }
  pose proof (split_nonempty "_" e).
  by destruct (Js.split "_" e) as [|h [|f t]].
Qed.

(** The key of the running window is never taken for an old one. *)
Lemma isOld_windowKey e now W :
  0 < W → 0 ≤ now / W → wellKeyed e = true →
  isOld now W (windowKey e now W) = false.
Proof.
  intros HW Hw He. unfold isOld, windowKey.
  fold (secondField (bucketKey e (now / W))).
  rewrite secondField_bucketKey by done. unfold wellKeyed in He.
  destruct (secondField e) as [f|].
  - destruct (Js.truthy f); [|done]. simpl in *.
    by destruct (Js.parseInt f).
  - rewrite intToString_nonneg, parseInt_natToString by done.
    destruct (natToString_spec _ Hw) as (_ & Hne & _).
    destruct (Js.natToString (now / W)); [done|]. simpl.
    apply Z.ltb_ge.
    replace (now - W) with (now + (-1) * W) by lia.
    rewrite Z.div_add by lia. lia.
Qed.

(** For a plain endpoint name the loop compares the bucket number. *)
Lemma isOld_plain e b now W :
  0 ≤ b → plainName e = true →
  isOld now W (bucketKey e b) = (b <? (now - W) / W).
Proof.
  intros Hb He. unfold isOld. fold (secondField (bucketKey e b)).
  rewrite secondField_bucketKey by done. unfold plainName in He.
  destruct (secondField e); [done|].
  rewrite intToString_nonneg, parseInt_natToString by done.
  destruct (natToString_spec _ Hb) as (_ & Hne & _).
  by destruct (Js.natToString b).
Qed.

Lemma checkRateLimit_denied rl now e limit W :
  limit ≤ default 0 (rl !! windowKey e now W) →
  checkRateLimit rl now e limit W = (false, rl).
Proof. intros H. unfold checkRateLimit. by rewrite (proj2 (Z.leb_le _ _) H). Qed.

Lemma checkRateLimit_allowed rl now e limit W :
  default 0 (rl !! windowKey e now W) < limit →
  ∃ rl', checkRateLimit rl now e limit W = (true, rl') ∧
    ∀ k, rl' !! k =
      if isOld now W k then None
      else if decide (k = windowKey e now W)
           then Some (default 0 (rl !! windowKey e now W) + 1)
           else rl !! k.
Proof.
  intros H. unfold checkRateLimit. rewrite (proj2 (Z.leb_gt _ _) H).
  eexists; split; [done|]. intros k.
  rewrite map_lookup_filter, lookup_insert. simpl.
  destruct (isOld now W k) eqn:Hold;
    repeat case_decide; simplify_eq; simpl; try done;
    destruct (rl !! k); simpl; try done;
    repeat case_decide; simplify_eq; simpl in *; congruence.
Qed.

(** A run of allowed calls inside one window counts them one by one
    and never creates a key other than the key of that window. *)
Lemma calls_allowed e limit W w :
  0 < W → 0 ≤ w → wellKeyed e = true →
  ∀ ts rl,
    Forall (λ t, t / W = w) ts →
    default 0 (rl !! bucketKey e w) + Z.of_nat (length ts) ≤ limit →
    ∃ rl', calls rl ts e limit W = (replicate (length ts) true, rl') ∧
      default 0 (rl' !! bucketKey e w)
        = default 0 (rl !! bucketKey e w) + Z.of_nat (length ts) ∧
      ∀ k, k ≠ bucketKey e w → rl !! k = None → rl' !! k = None.
Proof.
  intros HW Hw He. induction ts as [|t ts IH]; intros rl Hts Hlim.
  - exists rl. simpl. split; [done|]. split; [lia|done].
  - apply Forall_cons in Hts as [Ht Hts]. simpl length in *.
    assert (Hwk : windowKey e t W = bucketKey e w)
      by (unfold windowKey; by rewrite Ht).
    pose proof (isOld_windowKey e t W HW) as Hold.
    destruct (checkRateLimit_allowed rl t e limit W) as (rl1 & Hcall & Hlk).
    { rewrite Hwk. lia. }
    rewrite Hwk in Hlk, Hold.
    assert (Hkey : rl1 !! bucketKey e w
                   = Some (default 0 (rl !! bucketKey e w) + 1)).
    { rewrite Hlk, Hold by (done || lia). by rewrite decide_True. }
    destruct (IH rl1 Hts) as (rl' & Hcalls & Hcnt & Hfresh).
    { rewrite Hkey. simpl. lia. }
    exists rl'. cbn [calls]. rewrite Hcall, Hcalls. split; [done|]. split.
    + rewrite Hcnt, Hkey. simpl. lia.
    + intros k Hk Hnone. apply Hfresh; [done|]. rewrite Hlk.
      destruct (isOld t W k); [done|]. by rewrite decide_False.
Qed.

(** X24.  Fixed-window counting: for an endpoint name
    whose keys the clean-up loop cannot mistake for old ones (no
    underscore, or a non-numeric second field as in "order_status"),
    a limit [N] and a window length [W > 0], starting from a limiter
    that holds no counter for window [w]: each of the first [N] calls
    made in window [w] returns [true] and leaves the window counter at
    the number of calls made so far; every further call in window [w]
    returns [false] and leaves the map untouched; and a call in
    window [w + 1] is allowed again (when [N > 0]). *)
Theorem checkRateLimit_fixed_window
    (rl : gmap string Z) (endpoint : string) (N : nat) (W w : Z) (ts : list Z) :
  0 < W → 0 ≤ w → wellKeyed endpoint = true →
  rl !! bucketKey endpoint w = None →
  length ts = N → Forall (λ t, t / W = w) ts →
  (∀ k, (k ≤ N)%nat →
     ∃ rlk, calls rl (take k ts) endpoint (Z.of_nat N) W = (replicate k true, rlk) ∧
            default 0 (rlk !! bucketKey endpoint w) = Z.of_nat k) ∧
  ∃ rl1,
    calls rl ts endpoint (Z.of_nat N) W = (replicate N true, rl1) ∧
    (∀ t, t / W = w →
       checkRateLimit rl1 t endpoint (Z.of_nat N) W = (false, rl1)) ∧
    (∀ t, t / W = w + 1 → (0 < N)%nat →
       rl !! bucketKey endpoint (w + 1) = None →
       ∃ rl2, checkRateLimit rl1 t endpoint (Z.of_nat N) W = (true, rl2) ∧
              rl2 !! bucketKey endpoint (w + 1) = Some 1).
Proof.
  intros HW Hw He Hnone Hlen Hts.
  assert (Hprefix : ∀ k, (k ≤ N)%nat →
    ∃ rlk, calls rl (take k ts) endpoint (Z.of_nat N) W = (replicate k true, rlk) ∧
           default 0 (rlk !! bucketKey endpoint w) = Z.of_nat k ∧
           ∀ k', k' ≠ bucketKey endpoint w → rl !! k' = None → rlk !! k' = None).
  { intros k Hk.
    destruct (calls_allowed endpoint (Z.of_nat N) W w HW Hw He (take k ts) rl)
      as (rlk & Hc & Hcnt & Hfresh).
    - by apply Forall_take.
    - rewrite Hnone, length_take. simpl. lia.
    - rewrite length_take, Hlen, Nat.min_l in Hc, Hcnt by done.
      rewrite Hnone in Hcnt. exists rlk. by repeat split. }
  split.
  { intros k Hk. destruct (Hprefix k Hk) as (rlk & ? & ? & _). by exists rlk. }
  destruct (Hprefix N (le_n N)) as (rl1 & Hc & Hcnt & Hfresh).
  rewrite <- Hlen, firstn_all, Hlen in Hc.
  exists rl1. split; [done|]. split.
  - intros t Ht. apply checkRateLimit_denied.
    unfold windowKey. rewrite Ht, Hcnt. lia.
  - intros t Ht HN Hnext.
    assert (Hne : bucketKey endpoint (w + 1) ≠ bucketKey endpoint w).
    { intros Heq%bucketKey_inj; lia. }
    assert (Hwk : windowKey endpoint t W = bucketKey endpoint (w + 1))
      by (unfold windowKey; by rewrite Ht).
    pose proof (isOld_windowKey endpoint t W HW) as Hold.
    destruct (checkRateLimit_allowed rl1 t endpoint (Z.of_nat N) W)
      as (rl2 & Hcall & Hlk).
    { rewrite Hwk, (Hfresh _ Hne Hnext). simpl. lia. }
    rewrite Hwk in Hlk, Hold.
    exists rl2. split; [done|]. rewrite Hlk, Hold by (done || lia).
    rewrite decide_True by done. by rewrite (Hfresh _ Hne Hnext).
Qed.

(** The scenario of the specification: eleven calls of
    [checkRateLimit("order", 10, 60000)] in one 60-second window. *)
Lemma checkRateLimit_fixed_window_witness :
  (0 < 60000 ∧ 0 ≤ 2 ∧ wellKeyed "order" = true ∧
   (∅ : gmap string Z) !! bucketKey "order" 2 = None ∧
   length (replicate 10 120000) = 10%nat ∧
   Forall (λ t, t / 60000 = 2) (replicate 10 120000)) ∧
  ∃ rl1,
    calls ∅ (replicate 10 120000) "order" 10 60000 = (replicate 10 true, rl1) ∧
    checkRateLimit rl1 179999 "order" 10 60000 = (false, rl1) ∧
    ∃ rl2, checkRateLimit rl1 180000 "order" 10 60000 = (true, rl2).
Proof.
  assert (H : 0 < 60000 ∧ 0 ≤ 2 ∧ wellKeyed "order" = true ∧
   (∅ : gmap string Z) !! bucketKey "order" 2 = None ∧
   length (replicate 10 120000) = 10%nat ∧
   Forall (λ t, t / 60000 = 2) (replicate 10 120000)).
  { repeat split; try lia; try reflexivity. by repeat constructor. }
  split; [exact H|].
  destruct H as (H1 & H2 & H3 & H4 & H5 & H6).
  destruct (checkRateLimit_fixed_window ∅ "order" 10 60000 2
              (replicate 10 120000) H1 H2 H3 H4 H5 H6)
    as (_ & rl1 & Hc & Hdeny & Hnext).
  exists rl1. split; [exact Hc|]. split; [by apply Hdeny|].
  destruct (Hnext 180000) as (rl2 & Hrl2 & _); [reflexivity|lia|reflexivity|].
  by exists rl2.
Defined.

(** C6 (the code as it is, at the input where it departs from the
    claim).  The clean-up loop takes the second '_'-separated field of
    a key for the number of its window.  The key of endpoint "a_0" in
    window 2 is "a_0_2", the field is "0", and the loop deletes the
    counter that the call has just written: with limit 1, three calls
    in one window are all let through and the map stays empty.  The
    same calls for the endpoint "order" are let through once and
    denied twice. *)
Theorem checkRateLimit_numeric_endpoint_never_denied :
  calls ∅ [120000; 120001; 120002] "a_0" 1 60000 = ([true; true; true], ∅) ∧
  windowKey "a_0" 120000 60000 = "a_0_2" ∧
  isOld 120000 60000 "a_0_2" = true ∧
  (calls ∅ [120000; 120001; 120002] "order" 1 60000).1 = [true; false; false].
Proof. repeat split; by vm_compute. Qed.

(** C7 (as amended).  What a call purges.  A denied call changes
    nothing.  An allowed call removes, among the keys of endpoint
    names without an underscore, exactly those of the windows that
    lie at least two windows before the running one; the keys of the
    running window and of the window just before it stay, with their
    counters. *)
Theorem checkRateLimit_purges_old_buckets
    (rl : gmap string Z) (now : Z) (endpoint : string) (limit W : Z) :
  0 < W →
  let '(allowed, rl') := checkRateLimit rl now endpoint limit W in
  if allowed then
    ∀ e b, plainName e = true → 0 ≤ b →
      (b < now / W - 1 → rl' !! bucketKey e b = None) ∧
      (now / W - 1 ≤ b → bucketKey e b ≠ windowKey endpoint now W →
         rl' !! bucketKey e b = rl !! bucketKey e b)
  else rl' = rl.
Proof.
  intros HW.
  destruct (Z.le_gt_cases limit (default 0 (rl !! windowKey endpoint now W)))
    as [Hden|Hallow].
  - by rewrite checkRateLimit_denied.
  - destruct (checkRateLimit_allowed rl now endpoint limit W Hallow)
      as (rl' & -> & Hlk).
    assert (Hthr : (now - W) / W = now / W - 1).
    { replace (now - W) with (now + (-1) * W) by lia.
      rewrite Z.div_add by lia. lia. }
    intros e b He Hb. split.
    + intros Hlt. rewrite Hlk, isOld_plain, Hthr by done.
      by rewrite (proj2 (Z.ltb_lt _ _) Hlt).
    + intros Hge Hne. rewrite Hlk, isOld_plain, Hthr by done.
      rewrite (proj2 (Z.ltb_ge _ _) Hge). by rewrite decide_False.
Qed.

(** A call at time 120000, in window 2 of the 60-second grid, with
    counters left from windows 0 and 1: the counter of window 0 goes,
    the counter of window 1 stays. *)
Lemma checkRateLimit_purges_old_buckets_witness :
  0 < 60000 ∧
  ∃ rl', checkRateLimit {[ "order_0" := 4; "order_1" := 3 ]} 120000
           "order" 10 60000 = (true, rl') ∧
         rl' !! "order_0" = None ∧ rl' !! "order_1" = Some 3.
Proof.
  split; [lia|].
  pose proof (checkRateLimit_purges_old_buckets
                {[ "order_0" := 4; "order_1" := 3 ]} 120000 "order" 10 60000
                ltac:(lia)) as H.
  destruct (checkRateLimit _ _ _ _ _) as [[] rl'] eqn:Hcall in H.
  - exists rl'. split; [exact Hcall|].
    split.
    + exact (proj1 (H "order" 0 eq_refl ltac:(lia)) ltac:(by vm_compute)).
    + etransitivity; [|reflexivity].
      exact (proj2 (H "order" 1 eq_refl ltac:(lia))
               ltac:(by vm_compute) ltac:(by vm_compute)).
  - by vm_compute in Hcall.
Defined.

(** C7, as stated, fails twice.  An allowed call in window 2 keeps
    the key of window 1, which precedes the running window; and a
    denied call purges nothing at all, not even the key of window 0. *)
Lemma checkRateLimit_keeps_earlier_window_keys :
  (∃ rl', checkRateLimit {[ "order_1" := 3 ]} 120000 "order" 10 60000
            = (true, rl') ∧ rl' !! "order_1" = Some 3) ∧
  (∃ rl', checkRateLimit {[ "order_0" := 4; "order_2" := 10 ]} 120000
            "order" 10 60000 = (false, rl') ∧ rl' !! "order_0" = Some 4).
Proof. split; by eexists. Qed.

End RateLimiter.

(** ** The connectors *)

Section Connectors.
Import BaseBroker.

(** Unfolds the monadic plumbing of a method body. *)
Ltac run :=
  unfold tryCatch, guardRateLimit, rateLimit, request, throw,
    connectWebSocket, assign, mbind, M_bind, mret, M_ret in *;
  cbn beta iota in *.

(** C1 (as amended).  On every connector [validateCredentials()]
    never throws.  It returns [true] exactly when the limiter allows
    the call, the request resolves and the body reports success; on
    every rejected request, whatever the cause (401, timeout,
    connection refused, 5xx), and on a local rate-limit denial it
    returns [false]. *)
Theorem validateCredentials_never_throws (now : Z) (b : Broker) :
  (∀ o, (DeltaExchangeBroker.validateCredentials now o b).1 =
        Return (allows b now "validate" 10 &&
                match o with
                | Resolved r => (status r =? 200) && DeltaExchangeBroker.Body.success (data r)
                | Rejected _ => false
                end)) ∧
  (∀ o, (BinanceFuturesBroker.validateCredentials now o b).1 =
        Return (allows b now "validate" 10 &&
                match o with
                | Resolved r => (status r =? 200) && BinanceFuturesBroker.Account.canTrade (data r)
                | Rejected _ => false
                end)) ∧
  (∀ o, (BybitBroker.validateCredentials now o b).1 =
        Return (allows b now "validate" 10 &&
                match o with
                | Resolved r => BybitBroker.Body.retCode (data r) =? 0
                | Rejected _ => false
                end)) ∧
  (∀ o, (OKXBroker.validateCredentials now o b).1 =
        Return (allows b now "validate" 10 &&
                match o with
                | Resolved r => String.eqb (OKXBroker.Body.code (data r)) "0"
                | Rejected _ => false
                end)).
Proof.
  unfold allows.
  repeat split; intros o;
    unfold DeltaExchangeBroker.validateCredentials,
      BinanceFuturesBroker.validateCredentials,
      BybitBroker.validateCredentials, OKXBroker.validateCredentials; run;
    destruct (checkRateLimit (rateLimiter b) now "validate" 10 60000) as [[] rl];
    destruct o; reflexivity.
Qed.

(** C1, as stated, fails: a timeout, a refused connection, a 503 and
    a local rate-limit denial all come back as [false], none is
    thrown. *)
Lemma validateCredentials_swallows_infrastructure_failures :
  (BybitBroker.validateCredentials 120000 (Rejected Sample.timeout) Sample.broker).1
    = Return false ∧
  (BinanceFuturesBroker.validateCredentials 120000 (Rejected Sample.unavailable) Sample.broker).1
    = Return false ∧
  (DeltaExchangeBroker.validateCredentials 120000 (Rejected Sample.refused) Sample.broker).1
    = Return false ∧
  (∀ o, (OKXBroker.validateCredentials 120000 o Sample.exhausted).1 = Return false).
Proof.
  do 3 (split; [by vm_compute|]). intros o. by vm_compute.
Qed.

(** The credential check always returns, and the rate limiter is the
    only field it touches. *)
Lemma validateCredentials_returns (now : Z) (b : Broker) :
  let b1 := setRateLimiter b (checkRateLimit (rateLimiter b) now "validate" 10 60000).2 in
  (∀ o, ∃ valid, DeltaExchangeBroker.validateCredentials now o b = (Return valid, b1)) ∧
  (∀ o, ∃ valid, BinanceFuturesBroker.validateCredentials now o b = (Return valid, b1)) ∧
  (∀ o, ∃ valid, BybitBroker.validateCredentials now o b = (Return valid, b1)) ∧
  (∀ o, ∃ valid, OKXBroker.validateCredentials now o b = (Return valid, b1)).
Proof.
  repeat split; intros o;
    unfold DeltaExchangeBroker.validateCredentials,
      BinanceFuturesBroker.validateCredentials,
      BybitBroker.validateCredentials, OKXBroker.validateCredentials; run;
    destruct (checkRateLimit (rateLimiter b) now "validate" 10 60000) as [[] rl];
    destruct o; by eexists.
Qed.

(** The body of [connect()] once the credential check has returned,
    whatever it returned. *)
Lemma connect_body_returned (validate : M bool) (context : string)
    (ws : WsResult) (b b1 : Broker) (valid : bool) :
  validate b = (Return valid, b1) →
  tryCatch
    (_ ← validate;
     _ ← connectWebSocket ws;
     assign (λ b, setConnected b true))
    (λ error, throw (handleError error context)) b =
    match ws with
    | WsOpened => (Return tt, setConnected (setWsClient b1 (Some OPEN)) true)
    | WsFailed error => (Throw (handleError error context), setWsClient b1 None)
    end.
Proof. intros H. run. rewrite H. by destruct ws. Qed.

(** On every connector, when the handshake of the stream succeeds,
    [connect()] returns normally and sets [isConnected], whatever the
    credential check answered: the answer is dropped. *)
Lemma connect_ignores_validation (now : Z) (b : Broker) :
  (∀ o, (DeltaExchangeBroker.connect now o WsOpened b).1 = Return tt ∧
        isConnected (DeltaExchangeBroker.connect now o WsOpened b).2 = true) ∧
  (∀ o, (BinanceFuturesBroker.connect now o WsOpened b).1 = Return tt ∧
        isConnected (BinanceFuturesBroker.connect now o WsOpened b).2 = true) ∧
  (∀ o, (BybitBroker.connect now o WsOpened b).1 = Return tt ∧
        isConnected (BybitBroker.connect now o WsOpened b).2 = true) ∧
  (∀ o, (OKXBroker.connect now o WsOpened b).1 = Return tt ∧
        isConnected (OKXBroker.connect now o WsOpened b).2 = true).
Proof.
  destruct (validateCredentials_returns now b) as (H1 & H2 & H3 & H4).
  unfold DeltaExchangeBroker.connect, BinanceFuturesBroker.connect,
    BybitBroker.connect, OKXBroker.connect.
  split; [|split; [|split]]; intros o;
    [destruct (H1 o) as [v Hv] | destruct (H2 o) as [v Hv]
    |destruct (H3 o) as [v Hv] | destruct (H4 o) as [v Hv]];
    by rewrite (connect_body_returned _ _ _ _ _ _ Hv).
Qed.

(** When the handshake fails, [connect()] throws the classified
    error and leaves [isConnected] as it was. *)
Lemma connect_stream_failure (now : Z) (b : Broker) (error : JsError) :
  (∀ o, (DeltaExchangeBroker.connect now o (WsFailed error) b).1
          = Throw (handleError error "Delta Exchange connection") ∧
        isConnected (DeltaExchangeBroker.connect now o (WsFailed error) b).2
          = isConnected b) ∧
  (∀ o, (BinanceFuturesBroker.connect now o (WsFailed error) b).1
          = Throw (handleError error "Binance Futures connection") ∧
        isConnected (BinanceFuturesBroker.connect now o (WsFailed error) b).2
          = isConnected b) ∧
  (∀ o, (BybitBroker.connect now o (WsFailed error) b).1
          = Throw (handleError error "Bybit connection") ∧
        isConnected (BybitBroker.connect now o (WsFailed error) b).2
          = isConnected b) ∧
  (∀ o, (OKXBroker.connect now o (WsFailed error) b).1
          = Throw (handleError error "OKX connection") ∧
        isConnected (OKXBroker.connect now o (WsFailed error) b).2
          = isConnected b).
Proof.
  destruct (validateCredentials_returns now b) as (H1 & H2 & H3 & H4).
  unfold DeltaExchangeBroker.connect, BinanceFuturesBroker.connect,
    BybitBroker.connect, OKXBroker.connect.
  split; [|split; [|split]]; intros o;
    [destruct (H1 o) as [v Hv] | destruct (H2 o) as [v Hv]
    |destruct (H3 o) as [v Hv] | destruct (H4 o) as [v Hv]];
    by rewrite (connect_body_returned _ _ _ _ _ _ Hv).
Qed.

(** C2 (the code as it is, at the input where it departs from the
    claim).  The exchange rejects the API key with 401, so that
    [validateCredentials()] is [false]; the public stream opens; and
    [connect()] on each of the four connectors returns normally with
    [isConnected = true]. *)
Theorem connect_with_rejected_key :
  ((DeltaExchangeBroker.validateCredentials 120000
      (Rejected Sample.unauthorized) Sample.broker).1 = Return false ∧
   (DeltaExchangeBroker.connect 120000
      (Rejected Sample.unauthorized) WsOpened Sample.broker).1 = Return tt ∧
   isConnected (DeltaExchangeBroker.connect 120000
      (Rejected Sample.unauthorized) WsOpened Sample.broker).2 = true) ∧
  ((BinanceFuturesBroker.validateCredentials 120000
      (Rejected Sample.unauthorized) Sample.broker).1 = Return false ∧
   (BinanceFuturesBroker.connect 120000
      (Rejected Sample.unauthorized) WsOpened Sample.broker).1 = Return tt ∧
   isConnected (BinanceFuturesBroker.connect 120000
      (Rejected Sample.unauthorized) WsOpened Sample.broker).2 = true) ∧
  ((BybitBroker.validateCredentials 120000
      (Rejected Sample.unauthorized) Sample.broker).1 = Return false ∧
   (BybitBroker.connect 120000
      (Rejected Sample.unauthorized) WsOpened Sample.broker).1 = Return tt ∧
   isConnected (BybitBroker.connect 120000
      (Rejected Sample.unauthorized) WsOpened Sample.broker).2 = true) ∧
  ((OKXBroker.validateCredentials 120000
      (Rejected Sample.unauthorized) Sample.broker).1 = Return false ∧
   (OKXBroker.connect 120000
      (Rejected Sample.unauthorized) WsOpened Sample.broker).1 = Return tt ∧
   isConnected (OKXBroker.connect 120000
      (Rejected Sample.unauthorized) WsOpened Sample.broker).2 = true).
Proof. repeat split; by vm_compute. Qed.

(** *** Balances *)

Lemma add_sub_cancel (free total : Js.number) :
  Js.isFinite free = true → Js.gt total (Js.ofZ 0) = true →
  Js.neq (Js.add free (Js.sub total free)) total = false.
Proof.
  destruct free as [f| | |], total as [t| | |]; try done. intros _ _. simpl.
  apply negb_false_iff, Qeq_bool_iff.
  rewrite !Qred_correct. ring.
Qed.

(** A row built the way Binance, Bybit and OKX build it (the locked
    part is the total minus the free part) from a positive total. *)
Lemma balanced_by_difference (asset : string) (free total : Js.number) :
  Js.gt total (Js.ofZ 0) = true →
  balanced {| AccountBalance.asset := asset; AccountBalance.free := free;
              AccountBalance.locked := Js.sub total free;
              AccountBalance.total := total |}.
Proof.
  intros Hpos. split; [done|]. simpl. intros Hfin. by apply add_sub_cancel.
Qed.

(** Binance, Bybit and OKX return balanced rows only. *)
Lemma sibling_balances_balanced (now : Z) (b : Broker) :
  (∀ o rows, (BinanceFuturesBroker.getAccountBalance now o b).1 = Return rows →
             Forall balanced rows) ∧
  (∀ o rows, (BybitBroker.getAccountBalance now o b).1 = Return rows →
             Forall balanced rows) ∧
  (∀ o rows, (OKXBroker.getAccountBalance now o b).1 = Return rows →
             Forall balanced rows).
Proof.
  split; [|split]; intros o rows;
    unfold BinanceFuturesBroker.getAccountBalance,
      BybitBroker.getAccountBalance, OKXBroker.getAccountBalance; run;
    destruct (checkRateLimit (rateLimiter b) now "balance" 10 60000) as [[] rl];
    destruct o as [r|e]; simpl; try done.
  - intros [= <-]. apply Forall_forall. intros x Hx.
    apply list_elem_of_In, in_map_iff in Hx as (row & <- & Hrow).
    apply filter_In in Hrow as [_ Hpos]. by apply balanced_by_difference.
  - destruct (BybitBroker.Body.retCode (data r) =? 0); simpl; [|done].
    intros [= <-]. apply Forall_forall. intros x Hx.
    apply list_elem_of_In, in_flat_map in Hx as (account & _ & Hx).
    apply in_map_iff in Hx as (row & <- & Hrow).
    apply filter_In in Hrow as [_ Hpos]. by apply balanced_by_difference.
  - destruct (String.eqb (OKXBroker.Body.code (data r)) "0"); simpl; [|done].
    intros [= <-]. apply Forall_forall. intros x Hx.
    apply list_elem_of_In, in_flat_map in Hx as (account & _ & Hx).
    apply in_map_iff in Hx as (row & <- & Hrow).
    apply filter_In in Hrow as [_ Hpos]. by apply balanced_by_difference.
Qed.

(** Delta returns one row per native row, whatever its balance. *)
Lemma delta_getAccountBalance_unfiltered (now : Z) (b : Broker)
    (r : Response (DeltaExchangeBroker.Body.t (list DeltaExchangeBroker.Wallet.t))) :
  allows b now "balance" 10 = true →
  DeltaExchangeBroker.Body.success (data r) = true →
  (DeltaExchangeBroker.getAccountBalance now (Resolved r) b).1 =
    Return (map DeltaExchangeBroker.toBalance (DeltaExchangeBroker.Body.result (data r))).
Proof.
  unfold allows, DeltaExchangeBroker.getAccountBalance. run.
  destruct (checkRateLimit (rateLimiter b) now "balance" 10 60000) as [[] rl];
    simpl; [|done].
  by intros _ ->.
Qed.

(** C3 (the code as it is).  On Delta the rows of the wallet come
    back unfiltered and with the margin of the open orders as the
    locked part: an empty wallet is returned with total 0, and a
    wallet of 100 with 60 available and 10 in order margin is
    returned with free + locked = 70.  Binance returns the second
    wallet only, with locked = 40. *)
Theorem delta_getAccountBalance_zero_rows :
  (DeltaExchangeBroker.getAccountBalance 120000 Sample.deltaBalances Sample.broker).1
    = Return [ {| AccountBalance.asset := "BTC"; AccountBalance.free := Js.Fin 0;
                  AccountBalance.locked := Js.Fin 0; AccountBalance.total := Js.Fin 0 |};
               {| AccountBalance.asset := "USDT"; AccountBalance.free := Js.Fin 60;
                  AccountBalance.locked := Js.Fin 10; AccountBalance.total := Js.Fin 100 |} ] ∧
  (BinanceFuturesBroker.getAccountBalance 120000 Sample.binanceBalances Sample.broker).1
    = Return [ {| AccountBalance.asset := "USDT"; AccountBalance.free := Js.Fin 60;
                  AccountBalance.locked := Js.Fin 40; AccountBalance.total := Js.Fin 100 |} ] ∧
  Js.gt (Js.Fin 0) (Js.ofZ 0) = false ∧
  Js.neq (Js.add (Js.Fin 60) (Js.Fin 10)) (Js.Fin 100) = true.
Proof. repeat split; by vm_compute. Qed.

(** *** Orders *)

(** C4 (as amended).  When the limiter allows the call and the
    exchange acknowledges the order, [placeOrder] returns a result
    whose status is: on Delta the normalized [state] of the
    acknowledgment; on Binance its normalized [status]; on Bybit
    always [pending], the acknowledgment is not consulted; on OKX the
    status mapping applied to the [sCode] of the acknowledgment, which
    is [pending] for the success code "0".  An acknowledgment that
    carries the word "NEW" yields [pending] on all four. *)
Theorem placeOrder_status (now : Z) (b : Broker) (order : TradeOrder.t) :
  allows b now "order" 20 = true →
  (∀ rp product ra result,
     find (λ p, String.eqb (DeltaExchangeBroker.Product.symbol p) (TradeOrder.symbol order))
          (DeltaExchangeBroker.Body.result (data rp)) = Some product →
     DeltaExchangeBroker.Body.success (data ra) = true →
     DeltaExchangeBroker.Body.result (data ra) = Some result →
     statusOf (DeltaExchangeBroker.placeOrder now order (Resolved rp) (Resolved ra) b).1
       = Some (DeltaExchangeBroker.mapOrderStatus (DeltaExchangeBroker.Order.state result))) ∧
  (∀ ra,
     statusOf (BinanceFuturesBroker.placeOrder now order (Resolved ra) b).1
       = Some (BinanceFuturesBroker.mapOrderStatus (BinanceFuturesBroker.Order.status (data ra)))) ∧
  (∀ ra result,
     BybitBroker.Body.retCode (data ra) = 0 →
     BybitBroker.Body.result (data ra) = Some result →
     statusOf (BybitBroker.placeOrder now order (Resolved ra) b).1 = Some pending) ∧
  (∀ ra result rest,
     OKXBroker.Body.code (data ra) = "0" →
     OKXBroker.Body.data (data ra) = result :: rest →
     statusOf (OKXBroker.placeOrder now order (Resolved ra) b).1
       = Some (OKXBroker.mapOrderStatus (OKXBroker.Ack.sCode result))) ∧
  DeltaExchangeBroker.mapOrderStatus "NEW" = pending ∧
  BinanceFuturesBroker.mapOrderStatus "NEW" = pending ∧
  OKXBroker.mapOrderStatus "NEW" = pending ∧
  OKXBroker.mapOrderStatus "0" = pending.
Proof.
  unfold allows. intros Hallow.
  split; [|split; [|split; [|split; [|done]]]].
  - intros rp product ra result Hfind Hok Hres.
    unfold DeltaExchangeBroker.placeOrder, DeltaExchangeBroker.getProductId. run.
    destruct (checkRateLimit (rateLimiter b) now "order" 20 60000) as [[] rl];
      simpl in *; [|done].
    by rewrite Hfind, Hok, Hres.
  - intros ra. unfold BinanceFuturesBroker.placeOrder. run.
    by destruct (checkRateLimit (rateLimiter b) now "order" 20 60000) as [[] rl].
  - intros ra result Hok Hres. unfold BybitBroker.placeOrder. run.
    destruct (checkRateLimit (rateLimiter b) now "order" 20 60000) as [[] rl];
      simpl in *; [|done].
    by rewrite Hok, Hres.
  - intros ra result rest Hok Hres. unfold OKXBroker.placeOrder. run.
    destruct (checkRateLimit (rateLimiter b) now "order" 20 60000) as [[] rl];
      simpl in *; [|done].
    by rewrite Hok, Hres.
Qed.

(** The end-to-end scenario: the market order for one BTCUSDT,
    acknowledged by Binance with status "NEW". *)
Lemma placeOrder_status_witness :
  allows Sample.broker 120000 "order" 20 = true ∧
  statusOf (BinanceFuturesBroker.placeOrder 120000 Sample.marketBuy
              (Sample.binanceAck "NEW") Sample.broker).1 = Some pending.
Proof.
  assert (H : allows Sample.broker 120000 "order" 20 = true) by by vm_compute.
  split; [exact H|].
  exact (proj1 (proj2 (placeOrder_status 120000 Sample.broker Sample.marketBuy H))
           {| status := 200;
              data := {| BinanceFuturesBroker.Order.orderId := 4061;
                         BinanceFuturesBroker.Order.symbol := "BTCUSDT";
                         BinanceFuturesBroker.Order.side := "BUY";
                         BinanceFuturesBroker.Order.origQty := "1";
                         BinanceFuturesBroker.Order.price := Some "0";
                         BinanceFuturesBroker.Order.avgPrice := Some "0.00";
                         BinanceFuturesBroker.Order.status := "NEW";
                         BinanceFuturesBroker.Order.updateTime := 120000 |} |}).
Defined.

(** C4, as stated for every exchange, fails on Bybit: the status of
    the result is the constant [pending]; an acknowledgment that
    reports the order as "Filled", which the Bybit mapping normalizes
    to [filled], still yields [pending]. *)
Lemma bybit_placeOrder_status_is_constant :
  statusOf (BybitBroker.placeOrder 120000 Sample.marketBuy
              (Sample.bybitAck "Filled") Sample.broker).1 = Some pending ∧
  BybitBroker.mapOrderStatus "Filled" = filled.
Proof. split; by vm_compute. Qed.

(** *** Status vocabularies *)

Lemma normalize_documented table word st :
  NoDup (table.*1) → (word, st) ∈ table → StatusTable.normalize table word = st.
Proof.
  induction table as [|[w s'] table IH]; simpl; intros Hnd Hin.
  - by apply elem_of_nil in Hin.
  - apply NoDup_cons in Hnd as [Hw Hnd].
    destruct (String.eqb_spec word w) as [->|Hne].
    + apply elem_of_cons in Hin as [[= <-]|Hin]; [done|].
      destruct Hw. apply list_elem_of_fmap. by exists (w, st).
    + apply elem_of_cons in Hin as [[= ? ?]|Hin]; [done|]. by apply IH.
Qed.

Lemma normalize_unknown table word :
  word ∉ (table.*1) → StatusTable.normalize table word = pending.
Proof.
  induction table as [|[w s'] table IH]; simpl; intros Hin; [done|].
  apply not_elem_of_cons in Hin as [Hne Hin].
  destruct (String.eqb_spec word w); [done|]. by apply IH.
Qed.

(** C8 (as amended).  On Binance, Bybit and OKX [mapOrderStatus] is
    the table of the specification read with [pending] as default:
    every documented word goes to its normalized status and every
    other string to [pending].  On Delta the same holds after the
    input has been put in lower case: the match is case-insensitive,
    so it is the strings whose lower-case form is undocumented that
    go to [pending]. *)
Theorem mapOrderStatus_follows_table :
  ((∀ s, BinanceFuturesBroker.mapOrderStatus s = StatusTable.normalize StatusTable.binance s) ∧
   (∀ w st, (w, st) ∈ StatusTable.binance → BinanceFuturesBroker.mapOrderStatus w = st) ∧
   (∀ s, s ∉ (StatusTable.binance.*1) → BinanceFuturesBroker.mapOrderStatus s = pending)) ∧
  ((∀ s, BybitBroker.mapOrderStatus s = StatusTable.normalize StatusTable.bybit s) ∧
   (∀ w st, (w, st) ∈ StatusTable.bybit → BybitBroker.mapOrderStatus w = st) ∧
   (∀ s, s ∉ (StatusTable.bybit.*1) → BybitBroker.mapOrderStatus s = pending)) ∧
  ((∀ s, OKXBroker.mapOrderStatus s = StatusTable.normalize StatusTable.okx s) ∧
   (∀ w st, (w, st) ∈ StatusTable.okx → OKXBroker.mapOrderStatus w = st) ∧
   (∀ s, s ∉ (StatusTable.okx.*1) → OKXBroker.mapOrderStatus s = pending)) ∧
  ((∀ s, DeltaExchangeBroker.mapOrderStatus s
         = StatusTable.normalize StatusTable.delta (Js.toLowerCase s)) ∧
   (∀ w st, (w, st) ∈ StatusTable.delta → DeltaExchangeBroker.mapOrderStatus w = st) ∧
   (∀ s, Js.toLowerCase s ∉ (StatusTable.delta.*1) →
         DeltaExchangeBroker.mapOrderStatus s = pending)).
Proof.
  assert (Hb : ∀ s, BinanceFuturesBroker.mapOrderStatus s
                    = StatusTable.normalize StatusTable.binance s).
  { intros s. unfold BinanceFuturesBroker.mapOrderStatus. simpl.
    by repeat (destruct (String.eqb s _); simpl). }
  assert (Hy : ∀ s, BybitBroker.mapOrderStatus s
                    = StatusTable.normalize StatusTable.bybit s).
  { intros s. unfold BybitBroker.mapOrderStatus. simpl.
    by repeat (destruct (String.eqb s _); simpl). }
  assert (Ho : ∀ s, OKXBroker.mapOrderStatus s
                    = StatusTable.normalize StatusTable.okx s).
  { intros s. unfold OKXBroker.mapOrderStatus. simpl.
    by repeat (destruct (String.eqb s _); simpl). }
  assert (Hd : ∀ s, DeltaExchangeBroker.mapOrderStatus s
                    = StatusTable.normalize StatusTable.delta (Js.toLowerCase s)).
  { intros s. unfold DeltaExchangeBroker.mapOrderStatus. simpl.
    by repeat (destruct (String.eqb (Js.toLowerCase s) _); simpl). }
  assert (Hnd : ∀ table : list (string * OrderStatus),
            bool_decide (NoDup (table.*1)) = true → NoDup (table.*1)).
  { intros table H. by apply bool_decide_eq_true in H. }
  repeat split; try done.
  - intros w st Hin. rewrite Hb. apply normalize_documented; [by apply Hnd|done].
  - intros s Hs. rewrite Hb. by apply normalize_unknown.
  - intros w st Hin. rewrite Hy. apply normalize_documented; [by apply Hnd|done].
  - intros s Hs. rewrite Hy. by apply normalize_unknown.
  - intros w st Hin. rewrite Ho. apply normalize_documented; [by apply Hnd|done].
  - intros s Hs. rewrite Ho. by apply normalize_unknown.
  - intros w st Hin. unfold StatusTable.delta in Hin.
    repeat (apply elem_of_cons in Hin as [[= -> ->]|Hin]; [done|]).
    by apply elem_of_nil in Hin.
  - intros s Hs. rewrite Hd. by apply normalize_unknown.
Qed.

(** The Bybit row of the table, and a word outside the Delta table. *)
Lemma mapOrderStatus_follows_table_witness :
  (("Rejected", cancelled) ∈ StatusTable.bybit ∧
   BybitBroker.mapOrderStatus "Rejected" = cancelled) ∧
  ((Js.toLowerCase "Triggered" ∉ StatusTable.delta.*1) ∧
   DeltaExchangeBroker.mapOrderStatus "Triggered" = pending).
Proof.
  assert (H1 : ("Rejected", cancelled) ∈ StatusTable.bybit).
  { unfold StatusTable.bybit. do 4 apply list_elem_of_further. apply list_elem_of_here. }
  assert (H2 : Js.toLowerCase "Triggered" ∉ (StatusTable.delta.*1)).
  { apply (bool_decide_eq_true_1 _). by vm_compute. }
  split; (split; [done|]).
  - exact (proj1 (proj2 (proj1 (proj2 mapOrderStatus_follows_table))) _ _ H1).
  - exact (proj2 (proj2 (proj2 (proj2 (proj2 mapOrderStatus_follows_table)))) _ H2).
Defined.

(** C8, as stated, fails on Delta: "FILLED" is not one of the
    documented words of Delta, which are in lower case, and yet it is
    mapped to [filled], not to [pending]. *)
Lemma delta_mapOrderStatus_ignores_case :
  ("FILLED" ∉ StatusTable.delta.*1) ∧
  StatusTable.normalize StatusTable.delta "FILLED" = pending ∧
  DeltaExchangeBroker.mapOrderStatus "FILLED" = filled.
Proof.
  split; [|split; by vm_compute].
  apply (bool_decide_eq_true_1 _). by vm_compute.
Qed.

(** *** Positions *)

(** Dividing any number by zero and scaling the quotient by 100
    gives an infinity or NaN. *)
Lemma div_zero_not_finite (pnl value : Js.number) :
  Js.neq value (Js.ofZ 0) = false →
  Js.isFinite (Js.mul (Js.div pnl value) (Js.ofZ 100)) = false.
Proof.
  destruct value as [y| | |]; try done. simpl. intros Hy%negb_false_iff.
  change (Qeq_bool y 0 = true) in Hy.
  destruct pnl as [x| | |]; simpl; rewrite ?Hy; try done.
  unfold Js.sgn. by destruct (Qnum x).
Qed.

(** C9.  Bybit [getPositions] computes [percentage] as
    [unrealisedPnl / positionValue * 100] with no guard on the
    divisor: a row that passes the size filter (size is not 0) and
    whose [positionValue] is 0 is returned, and its percentage is the
    outcome of a division by zero, an infinity or NaN. *)
Theorem bybit_percentage_divides_by_zero (now : Z) (b : Broker)
    (r : Response (BybitBroker.Body.t (list BybitBroker.PositionRow.t)))
    (row : BybitBroker.PositionRow.t) :
  allows b now "positions" 10 = true →
  BybitBroker.Body.retCode (data r) = 0 →
  row ∈ BybitBroker.Body.result (data r) →
  Js.neq (Js.parseFloat (BybitBroker.PositionRow.size row)) (Js.ofZ 0) = true →
  Js.neq (Js.parseFloat (BybitBroker.PositionRow.positionValue row)) (Js.ofZ 0) = false →
  ∃ positions,
    (BybitBroker.getPositions now (Resolved r) b).1 = Return positions ∧
    BybitBroker.toPosition row ∈ positions ∧
    Position.percentage (BybitBroker.toPosition row) =
      Js.mul (Js.div (Js.parseFloat (BybitBroker.PositionRow.unrealisedPnl row))
                     (Js.parseFloat (BybitBroker.PositionRow.positionValue row)))
             (Js.ofZ 100) ∧
    Js.isFinite (Position.percentage (BybitBroker.toPosition row)) = false.
Proof.
  unfold allows. intros Hallow Hok Hin Hsize Hzero.
  exists (BybitBroker.openPositions (BybitBroker.Body.result (data r))).
  split; [|split; [|split]].
  - unfold BybitBroker.getPositions. run.
    destruct (checkRateLimit (rateLimiter b) now "positions" 10 60000) as [[] rl];
      simpl in *; [|done].
    by rewrite Hok.
  - unfold BybitBroker.openPositions.
    apply list_elem_of_In, in_map, filter_In. split; [|done].
    by apply list_elem_of_In.
  - reflexivity.
  - by apply div_zero_not_finite.
Qed.

(** An open position of 0.01 BTC whose value and profit are reported
    as 0: the percentage is 0 / 0 * 100, that is NaN. *)
Lemma bybit_percentage_divides_by_zero_witness :
  (allows Sample.broker 120000 "positions" 10 = true ∧
   Js.neq (Js.parseFloat "0.01") (Js.ofZ 0) = true ∧
   Js.neq (Js.parseFloat "0") (Js.ofZ 0) = false) ∧
  ∃ positions,
    (BybitBroker.getPositions 120000
       (Sample.bybitPositions [Sample.zeroValuePosition]) Sample.broker).1
      = Return positions ∧
    BybitBroker.toPosition Sample.zeroValuePosition ∈ positions ∧
    Position.percentage (BybitBroker.toPosition Sample.zeroValuePosition) = Js.NaN.
Proof.
  assert (H1 : allows Sample.broker 120000 "positions" 10 = true) by by vm_compute.
  assert (H2 : Js.neq (Js.parseFloat "0.01") (Js.ofZ 0) = true) by by vm_compute.
  assert (H3 : Js.neq (Js.parseFloat "0") (Js.ofZ 0) = false) by by vm_compute.
  split; [done|].
  destruct (bybit_percentage_divides_by_zero 120000 Sample.broker
              {| status := 200;
                 data := {| BybitBroker.Body.retCode := 0;
                            BybitBroker.Body.retMsg := Some "OK";
                            BybitBroker.Body.result := [Sample.zeroValuePosition] |} |}
              Sample.zeroValuePosition H1 eq_refl (list_elem_of_here _ _) H2 H3)
    as (positions & Hret & Hin & Hpct & _).
  exists positions. split; [exact Hret|]. split; [exact Hin|].
  etransitivity; [exact Hpct|]. by vm_compute.
Defined.

End Connectors.

(** ** The registry *)

Section Registry.
Import BaseBroker BrokerFactory.

Lemma wellFormed_empty : wellFormed empty.
Proof. split; intros *; simpl; by rewrite lookup_empty. Qed.

(** A key that is filed is answered from the cache. *)
Lemma createBroker_cached t c i reg r :
  instances reg !! instanceKey t c i = Some r →
  createBroker t c i reg = (Return r, reg).
Proof. intros H. unfold createBroker. by rewrite H. Qed.

(** A key that is not filed gets a new object at the end of the heap. *)
Lemma createBroker_fresh t c i reg cls :
  instances reg !! instanceKey t c i = None →
  brokerClass t = Some cls →
  createBroker t c i reg =
    (Return (length (heap reg)),
     {| instances := <[instanceKey t c i := length (heap reg)]> (instances reg);
        heap := (heap reg ++ [{| class := cls; object := newBroker c |}])%list |}).
Proof. intros H1 H2. unfold createBroker. by rewrite H1, H2. Qed.

(** After a call that returned, the key of the call is filed under
    the reference that was returned. *)
Lemma createBroker_filed t c i reg r reg1 :
  createBroker t c i reg = (Return r, reg1) →
  instances reg1 !! instanceKey t c i = Some r.
Proof.
  unfold createBroker.
  destruct (instances reg !! instanceKey t c i) as [r'|] eqn:Hk.
  - by intros [= <- <-].
  - destruct (brokerClass t); [|done]. intros [= <- <-]. simpl.
    apply lookup_insert_eq.
Qed.

Lemma createBroker_wellFormed t c i reg :
  wellFormed reg → wellFormed (createBroker t c i reg).2.
Proof.
  intros [Hdom Hinj]. unfold createBroker.
  destruct (instances reg !! instanceKey t c i) as [r'|] eqn:Hk; [done|].
  destruct (brokerClass t); [|done]. simpl. split; simpl.
  - intros k r. rewrite lookup_insert, length_app. simpl.
    case_decide; [intros [= <-]; lia|]. intros Hr%Hdom. lia.
  - intros k1 k2 r. rewrite !lookup_insert.
    repeat case_decide; subst; try done.
    + intros [= <-] Hr%Hdom. lia.
    + intros Hr%Hdom [= <-]. lia.
    + apply Hinj.
Qed.

Lemma disconnectBroker_wellFormed instanceId reg :
  wellFormed reg → wellFormed (disconnectBroker instanceId reg).
Proof.
  intros [Hdom Hinj]. unfold disconnectBroker.
  destruct (instances reg !! instanceId) as [r'|] eqn:Hk; [|done].
  split; simpl.
  - intros k r Hr. rewrite length_alter.
    apply lookup_delete_Some in Hr as [_ Hr]. by eapply Hdom.
  - intros k1 k2 r [_ H1]%lookup_delete_Some [_ H2]%lookup_delete_Some.
    by eapply Hinj.
Qed.

(** C10.  Without an [instanceId] the key is the broker type, an
    underscore and the first eight characters of the API key.  Hence,
    for a supported type and two sets of credentials whose API keys
    agree on their first eight characters: if the first look-up
    creates the connector, the second one returns that very
    connector, which holds the first credentials, and changes
    nothing; the second credentials are stored nowhere. *)
Theorem createBroker_shares_instance_on_key_prefix
    (reg : Registry) (brokerType : string) (cls : SupportedBroker)
    (first second : BrokerCredentials) :
  brokerClass brokerType = Some cls →
  Js.substring0 8 (apiKey first) = Js.substring0 8 (apiKey second) →
  instances reg !! instanceKey brokerType first None = None →
  instanceKey brokerType first None
    = brokerType +:+ "_" +:+ Js.substring0 8 (apiKey first) ∧
  instanceKey brokerType second None = instanceKey brokerType first None ∧
  ∃ r reg1,
    createBroker brokerType first None reg = (Return r, reg1) ∧
    createBroker brokerType second None reg1 = (Return r, reg1) ∧
    heap reg1 !! r = Some {| class := cls; object := newBroker first |} ∧
    credentials (newBroker first) = first.
Proof.
  intros Hcls Hprefix Hnew.
  assert (Hkey : instanceKey brokerType second None = instanceKey brokerType first None).
  { unfold instanceKey. simpl. by rewrite Hprefix. }
  split; [done|]. split; [done|].
  eexists _, _. split; [by apply createBroker_fresh|].
  split; [|split; [|done]].
  - apply createBroker_cached. rewrite Hkey. simpl. apply lookup_insert_eq.
  - simpl. by apply list_lookup_middle.
Qed.

(** Alice and Bob on OKX: Bob is handed the connector that signs
    with the key, the secret and the passphrase of Alice. *)
Lemma createBroker_shares_instance_on_key_prefix_witness :
  (brokerClass "OKX" = Some OKX ∧
   Js.substring0 8 (apiKey Sample.alice) = Js.substring0 8 (apiKey Sample.bob) ∧
   instances empty !! instanceKey "OKX" Sample.alice None = None) ∧
  instanceKey "OKX" Sample.bob None = "OKX_9f8e7d6c" ∧
  ∃ r reg1,
    createBroker "OKX" Sample.alice None empty = (Return r, reg1) ∧
    createBroker "OKX" Sample.bob None reg1 = (Return r, reg1) ∧
    heap reg1 !! r = Some {| class := OKX; object := newBroker Sample.alice |}.
Proof.
  assert (H : brokerClass "OKX" = Some OKX ∧
   Js.substring0 8 (apiKey Sample.alice) = Js.substring0 8 (apiKey Sample.bob) ∧
   instances empty !! instanceKey "OKX" Sample.alice None = None) by done.
  split; [exact H|]. split; [done|].
  destruct H as (H1 & H2 & H3).
  destruct (createBroker_shares_instance_on_key_prefix empty "OKX" OKX
              Sample.alice Sample.bob H1 H2 H3)
    as (_ & _ & r & reg1 & Ha & Hb & Hheap & _).
  by exists r, reg1.
Defined.

End Registry.

(* ===================================================================== *)
(** * Further properties of the code *)
(* ===================================================================== *)

(** ** The rate limiter over whole runs *)

Section LimiterRuns.
Import BaseBroker Limiter.

Lemma string_length_app (a b : string) :
  String.length (a +:+ b) = (String.length a + String.length b)%nat.
Proof. induction a as [|x a IH]; [done|]. rewrite app_cons. simpl. by rewrite IH. Qed.

Lemma string_app_inv_r (a b s : string) : a +:+ s = b +:+ s → a = b.
Proof.
  revert b. induction a as [|x a IH]; intros [|y b] H.
  - done.
  - apply (f_equal String.length) in H.
    rewrite app_empty_l, app_cons in H. simpl in H.
    rewrite string_length_app in H. lia.
  - apply (f_equal String.length) in H.
    rewrite app_empty_l, app_cons in H. simpl in H.
    rewrite string_length_app in H. lia.
  - rewrite !app_cons in H. injection H as -> H. f_equal. by apply IH.
Qed.

(** Two endpoints never share the key of a window. *)
Lemma bucketKey_endpoint_inj e e' b : bucketKey e b = bucketKey e' b → e = e'.
Proof. unfold bucketKey. apply string_app_inv_r. Qed.

(** What the limiter says depends on the counter of the running window
    only. *)
Lemma checkRateLimit_decision rl now e limit W :
  (checkRateLimit rl now e limit W).1
    = negb (limit <=? default 0 (rl !! windowKey e now W)).
Proof. unfold checkRateLimit. by destruct (limit <=? _). Qed.

(** The invariant of a run at non-decreasing times: windows after the
    running one hold no counter, and the counter of the running window
    bounds what the rest of the run can still let through. *)
Lemma calls_bounded e limit W :
  0 < W → wellKeyed e = true →
  ∀ ts rl w0,
    0 ≤ w0 →
    StronglySorted Z.le ts →
    Forall (λ t, w0 ≤ t / W) ts →
    (∀ w, w0 < w → rl !! bucketKey e w = None) →
    0 ≤ default 0 (rl !! bucketKey e w0) →
    ∀ w,
      (w < w0 → throughIn W w ts (calls rl ts e limit W).1 = 0%nat) ∧
      (w = w0 →
         Z.of_nat (throughIn W w ts (calls rl ts e limit W).1)
           + default 0 (rl !! bucketKey e w0)
         ≤ Z.max (Z.max 0 limit) (default 0 (rl !! bucketKey e w0))) ∧
      (w0 < w →
         Z.of_nat (throughIn W w ts (calls rl ts e limit W).1) ≤ Z.max 0 limit).
Proof.
  intros HW He. induction ts as [|t ts IH]; intros rl w0 Hw0 Hsorted Hwin Hlater Hcur w.
  { simpl. repeat split; intros; lia. }
  apply StronglySorted_inv in Hsorted as [Hsorted Hle].
  apply Forall_cons in Hwin as [Ht Hwin].
  assert (Hrest : Forall (λ t', t / W ≤ t' / W) ts).
  { eapply Forall_impl; [exact Hle|]. intros t' Ht'. simpl in Ht'.
    by apply Z.div_le_mono. }
  assert (Hwk : windowKey e t W = bucketKey e (t / W)) by done.
  assert (Hkeep : ∀ rl1 : gmap string Z,
            (∀ k, rl1 !! k =
               if isOld t W k then None
               else if decide (k = windowKey e t W)
                    then Some (default 0 (rl !! windowKey e t W) + 1)
                    else rl !! k) →
            rl1 !! bucketKey e (t / W) = Some (default 0 (rl !! windowKey e t W) + 1) ∧
            ∀ w', t / W < w' → rl1 !! bucketKey e w' = None).
  { intros rl1 Hlk. split.
    - rewrite Hlk, <- Hwk, isOld_windowKey by (done || lia). by rewrite decide_True.
    - intros w' Hw'. rewrite Hlk. destruct (isOld t W (bucketKey e w')); [done|].
      rewrite decide_False; [apply Hlater; lia|].
      rewrite Hwk. intros Heq%bucketKey_inj; lia. }
  cbn [calls].
  destruct (Z.le_gt_cases limit (default 0 (rl !! windowKey e t W))) as [Hden|Hallow].
  - (* denied: the map is as before *)
    rewrite (checkRateLimit_denied _ _ _ _ _ Hden).
    destruct (calls rl ts e limit W) as [bs rl2] eqn:Hrun. cbn [fst throughIn andb].
    specialize (IH rl w0 Hw0 Hsorted Hwin Hlater Hcur w).
    rewrite Hrun in IH. exact IH.
  - destruct (checkRateLimit_allowed rl t e limit W Hallow) as (rl1 & Hcall & Hlk).
    rewrite Hcall. destruct (Hkeep rl1 Hlk) as [Hkey Hnone].
    destruct (calls rl1 ts e limit W) as [bs rl2] eqn:Hrun. cbn [fst throughIn andb].
    assert (Hcur1 : 0 ≤ default 0 (rl1 !! bucketKey e (t / W))).
    { rewrite Hkey. simpl. rewrite Hwk.
      destruct (Z.eq_dec (t / W) w0) as [->|]; [lia|].
      rewrite Hlater by lia. simpl. lia. }
    specialize (IH rl1 (t / W) ltac:(lia) Hsorted Hrest Hnone Hcur1 w).
    rewrite Hrun in IH. cbn [fst] in IH. rewrite Hkey in IH. simpl in IH.
    rewrite Hwk in IH, Hallow.
    destruct IH as (IHlt & IHeq & IHgt).
    destruct (Z.eqb_spec (t / W) w) as [Hw|Hw].
    + (* the call falls in the window that is counted *)
      subst w. specialize (IHeq eq_refl). simpl (true && true).
      split; [intros; lia|]. split.
      * intros Heq. rewrite <- Heq. lia.
      * intros Hlt. rewrite Hlater in IHeq, Hallow by lia.
        simpl in IHeq, Hallow. lia.
    + simpl (true && false). split; [|split].
      * intros Hlt. rewrite IHlt by lia. done.
      * intros ->. rewrite IHlt by lia. lia.
      * intros Hgt. destruct (Z.lt_trichotomy w (t / W)) as [?|[?|?]]; [|lia|].
        -- rewrite IHlt by lia. lia.
        -- specialize (IHgt ltac:(lia)). lia.
Qed.

(** X1.  The guarantee of the limiter.  For a window length [W > 0],
    an endpoint name whose keys the clean-up loop cannot mistake for
    old ones, and a limiter that holds no counter of the endpoint:
    whatever the calls, as long as their times do not go backwards, no
    window lets more than [limit] of them through (none at all if the
    limit is negative). *)
Theorem checkRateLimit_never_exceeds_limit
    (rl : gmap string Z) (endpoint : string) (limit W : Z) (ts : list Z) :
  0 < W → wellKeyed endpoint = true →
  (∀ w, rl !! bucketKey endpoint w = None) →
  Forall (λ t, 0 ≤ t) ts → Sorted Z.le ts →
  ∀ w, (throughIn W w ts (calls rl ts endpoint limit W).1 ≤ Z.to_nat limit)%nat.
Proof.
  intros HW He Hfresh Hpos Hsorted w.
  apply Sorted_StronglySorted in Hsorted; [|intros x y z; apply Z.le_trans].
  pose proof (calls_bounded endpoint limit W HW He ts rl 0 ltac:(lia) Hsorted) as H.
  destruct (H ltac:(eapply Forall_impl; [exact Hpos|]; intros t Ht; simpl in *;
                    by apply Z.div_pos)
              ltac:(intros; apply Hfresh)
              ltac:(rewrite Hfresh; simpl; lia) w) as (Hlt & Heq & Hgt).
  rewrite Hfresh in Heq. simpl in Heq.
  destruct (Z.lt_trichotomy w 0) as [?|[?|?]].
  - rewrite Hlt by done. lia.
  - specialize (Heq ltac:(done)). lia.
  - specialize (Hgt ltac:(done)). lia.
Qed.

(** Seven order calls spread over two minutes, limit 3: three pass in
    each minute. *)
Lemma checkRateLimit_never_exceeds_limit_witness :
  (0 < 60000 ∧ wellKeyed "order" = true ∧
   Forall (λ t, 0 ≤ t) Sample.orderTimes ∧ Sorted Z.le Sample.orderTimes) ∧
  (calls ∅ Sample.orderTimes "order" 3 60000).1
    = [true; true; true; false; true; true; true] ∧
  (throughIn 60000 2 Sample.orderTimes
     (calls ∅ Sample.orderTimes "order" 3 60000).1 ≤ Z.to_nat 3)%nat.
Proof.
  assert (H : 0 < 60000 ∧ wellKeyed "order" = true ∧
   Forall (λ t, 0 ≤ t) Sample.orderTimes ∧ Sorted Z.le Sample.orderTimes).
  { split; [lia|]. split; [reflexivity|]. unfold Sample.orderTimes. split.
    - repeat constructor; lia.
    - repeat constructor; lia. }
  split; [exact H|]. split; [by vm_compute|].
  destruct H as (H1 & H2 & H3 & H4).
  exact (checkRateLimit_never_exceeds_limit ∅ "order" 3 60000 _ H1 H2
           (λ w, lookup_empty _) H3 H4 2).
Defined.

(** X2.  The budgets of two endpoints do not interfere.  A call on
    one endpoint leaves the counter that another endpoint has in the
    same window as it is, and so does not change whether the limiter
    lets that other endpoint through. *)
Theorem checkRateLimit_endpoints_independent
    (rl : gmap string Z) (e e' : string) (limit limit' W t t' : Z) :
  0 < W → 0 ≤ t → e ≠ e' → wellKeyed e' = true → t / W = t' / W →
  (checkRateLimit rl t e limit W).2 !! windowKey e' t' W = rl !! windowKey e' t' W ∧
  (checkRateLimit (checkRateLimit rl t e limit W).2 t' e' limit' W).1
    = (checkRateLimit rl t' e' limit' W).1.
Proof.
  intros HW Ht Hne He' Hwin.
  assert (Hkey : windowKey e' t' W = windowKey e' t W)
    by (unfold windowKey; by rewrite Hwin).
  assert (Hsame : (checkRateLimit rl t e limit W).2 !! windowKey e' t' W
                  = rl !! windowKey e' t' W).
  { rewrite Hkey.
    destruct (Z.le_gt_cases limit (default 0 (rl !! windowKey e t W))) as [Hden|Hallow].
    - by rewrite checkRateLimit_denied.
    - destruct (checkRateLimit_allowed rl t e limit W Hallow) as (rl1 & -> & Hlk).
      simpl. rewrite Hlk.
      rewrite isOld_windowKey by (try done; by apply Z.div_pos).
      rewrite decide_False; [done|].
      unfold windowKey. intros Heq%bucketKey_endpoint_inj. congruence. }
  split; [exact Hsame|]. by rewrite !checkRateLimit_decision, Hsame.
Qed.

(** The eleventh "order" call of a minute is let through or not
    regardless of a "cancel" call made in between. *)
Lemma checkRateLimit_endpoints_independent_witness :
  (0 < 60000 ∧ 0 ≤ 120000 ∧ "cancel" ≠ "order" ∧ wellKeyed "order" = true ∧
   120000 / 60000 = 130000 / 60000) ∧
  (checkRateLimit (checkRateLimit {[ "order_2" := 19 ]} 120000 "cancel" 20 60000).2
     130000 "order" 20 60000).1 = true.
Proof.
  assert (H : 0 < 60000 ∧ 0 ≤ 120000 ∧ "cancel" ≠ "order" ∧ wellKeyed "order" = true ∧
   120000 / 60000 = 130000 / 60000).
  { repeat split; try lia; done. }
  split; [exact H|]. destruct H as (H1 & H2 & H3 & H4 & H5).
  etransitivity.
  - exact (proj2 (checkRateLimit_endpoints_independent {[ "order_2" := 19 ]}
                    "cancel" "order" 20 20 60000 120000 130000 H1 H2 H3 H4 H5)).
  - by vm_compute.
Defined.

(** The keys of an endpoint whose name has a second field that is not
    a number never look old. *)
Lemma isOld_unparsable e b now W :
  plainName e = false → wellKeyed e = true → 0 ≤ b →
  isOld now W (bucketKey e b) = false.
Proof.
  intros Hplain He Hb. unfold isOld. fold (secondField (bucketKey e b)).
  rewrite secondField_bucketKey by done.
  unfold plainName, wellKeyed in *. destruct (secondField e) as [f|]; [|done].
  destruct (Js.truthy f); [|done]. simpl in *. by destruct (Js.parseInt f).
Qed.

(** X3.  The counters of an endpoint such as "order_status", whose
    name has an underscore followed by something that is not a number,
    are never purged: a key of such an endpoint that is in the map is
    still in the map after any run of calls, on any endpoints, at any
    times. *)
Theorem checkRateLimit_never_purges_unparsable_keys
    (e : string) (b : Z) (rl : gmap string Z)
    (ts : list Z) (endpoint : string) (limit W : Z) :
  plainName e = false → wellKeyed e = true → 0 ≤ b →
  is_Some (rl !! bucketKey e b) →
  is_Some ((calls rl ts endpoint limit W).2 !! bucketKey e b).
Proof.
  intros Hplain He Hb. revert rl. induction ts as [|t ts IH]; intros rl Hin; [done|].
  cbn [calls].
  destruct (checkRateLimit rl t endpoint limit W) as [ok rl1] eqn:Hcall.
  specialize (IH rl1).
  destruct (calls rl1 ts endpoint limit W) as [bs rl2] eqn:Hrun. simpl in *.
  apply IH. clear IH Hrun.
  destruct (Z.le_gt_cases limit (default 0 (rl !! windowKey endpoint t W))) as [Hden|Hallow].
  - rewrite checkRateLimit_denied in Hcall by done. by injection Hcall as <- <-.
  - destruct (checkRateLimit_allowed rl t endpoint limit W Hallow) as (rl1' & Hc & Hlk).
    rewrite Hc in Hcall. injection Hcall as <- <-.
    rewrite Hlk, isOld_unparsable by done. by case_decide.
Qed.

(** The counter that "order_status" got in the first minute of the
    epoch is still there 100000 minutes later. *)
Lemma checkRateLimit_never_purges_unparsable_keys_witness :
  (plainName "order_status" = false ∧ wellKeyed "order_status" = true ∧ 0 ≤ 0 ∧
   is_Some (({[ "order_status_0" := 1 ]} : gmap string Z) !! bucketKey "order_status" 0)) ∧
  is_Some ((calls {[ "order_status_0" := 1 ]} [6000000000; 6000060000]
              "order_status" 10 60000).2 !! "order_status_0") ∧
  (calls {[ "order_0" := 1 ]} [6000000000; 6000060000] "order" 10 60000).2
     !! "order_0" = None.
Proof.
  assert (H : plainName "order_status" = false ∧ wellKeyed "order_status" = true ∧ 0 ≤ 0 ∧
   is_Some (({[ "order_status_0" := 1 ]} : gmap string Z) !! bucketKey "order_status" 0)).
  { split; [done|]. split; [done|]. split; [done|]. by exists 1. }
  split; [exact H|]. destruct H as (H1 & H2 & H3 & H4).
  split; [|by vm_compute].
  exact (checkRateLimit_never_purges_unparsable_keys "order_status" 0 _
           [6000000000; 6000060000] "order_status" 10 60000 H1 H2 H3 H4).
Defined.

End LimiterRuns.

(** ** Errors and the REST methods *)

Section RestMethods.
Import BaseBroker.

Ltac step :=
  unfold tryCatch, guardRateLimit, rateLimit, request, throw,
    connectWebSocket, assign, mbind, M_bind, mret, M_ret in *;
  cbn beta iota in *.

Lemma setRateLimiter_same (b : Broker) : setRateLimiter b (rateLimiter b) = b.
Proof. by destruct b. Qed.

(** A denied call leaves the map alone. *)
Lemma checkRateLimit_false rl now e limit W :
  (checkRateLimit rl now e limit W).1 = false →
  checkRateLimit rl now e limit W = (false, rl).
Proof. unfold checkRateLimit. by destruct (limit <=? _). Qed.

Lemma checkRateLimit_true rl now e limit W :
  (checkRateLimit rl now e limit W).1 = true →
  checkRateLimit rl now e limit W = (true, (checkRateLimit rl now e limit W).2).
Proof. by destruct (checkRateLimit rl now e limit W) as [[] ?]. Qed.

(** An error made by [new Error] with a message passes through
    [handleError] as it is. *)
Lemma handleError_plain (msg context : string) :
  Js.truthy msg = true → handleError (Error msg) context = Error msg.
Proof. intros H. unfold handleError, statusIs, codeIs. simpl. by rewrite H. Qed.

Lemma handleError_truthy (e : JsError) (context : string) :
  ∃ msg, handleError e context = Error msg ∧ Js.truthy msg = true.
Proof.
  unfold handleError.
  repeat (case_match; [eexists; split; [reflexivity|done]|]).
  destruct (Js.truthy (message e)) eqn:Hm; (eexists; split; [reflexivity|done]).
Qed.

Lemma handleError_wrapped (e : JsError) (context context' : string) :
  handleError (handleError e context) context' = handleError e context.
Proof.
  destruct (handleError_truthy e context) as (msg & -> & Hmsg).
  by apply handleError_plain.
Qed.

(** The context only goes to the log. *)
Lemma handleError_context (e : JsError) (context context' : string) :
  handleError e context = handleError e context'.
Proof. reflexivity. Qed.

(** X4.  [handleError] is a normalization: its result is an error
    that carries nothing but a non-empty message, it does not depend on
    the context, and classifying an error that is already classified
    changes nothing, so that the two layers of [handleError] that a
    failing request goes through (the response interceptor, then the
    [catch] of the method) classify it once. *)
Theorem handleError_idempotent (e : JsError) (context context' : string) :
  handleError (handleError e context) context' = handleError e context ∧
  handleError e context' = handleError e context ∧
  response_status (handleError e context) = None ∧
  code (handleError e context) = None ∧
  Js.truthy (message (handleError e context)) = true.
Proof.
  split; [apply handleError_wrapped|]. split; [done|].
  destruct (handleError_truthy e context) as (msg & -> & Hmsg). by simpl.
Qed.

(** The body of a REST method whose guard is turned down. *)
Lemma guarded_denied {A} (now : Z) (endpoint : string) (limit : Z)
    (body : M A) (context : string) (b : Broker) :
  allows b now endpoint limit = false →
  tryCatch (_ ← guardRateLimit now endpoint limit 60000; body)
           (λ error, throw (handleError error context)) b
    = (Throw (Error "Rate limit exceeded"), b).
Proof.
  unfold allows. intros H%checkRateLimit_false. step. rewrite H. simpl.
  by rewrite setRateLimiter_same.
Qed.

(** The body of a REST method whose guard lets it through. *)
Lemma guarded_allowed {A} (now : Z) (endpoint : string) (limit : Z)
    (body : M A) (handler : JsError → M A) (b : Broker) :
  allows b now endpoint limit = true →
  tryCatch (_ ← guardRateLimit now endpoint limit 60000; body) handler b
    = tryCatch body handler
        (setRateLimiter b (checkRateLimit (rateLimiter b) now endpoint limit 60000).2).
Proof.
  unfold allows. intros H%checkRateLimit_true. step. by rewrite H.
Qed.

Lemma returning_throw {A} (wrap : A → Rest.Value) (m : M A) (b b' : Broker) e :
  m b = (Throw e, b') → Rest.returning wrap m b = (Throw e, b').
Proof. intros H. unfold Rest.returning. step. by rewrite H. Qed.

Lemma returning_return {A} (wrap : A → Rest.Value) (m : M A) (b b' : Broker) a :
  m b = (Return a, b') → Rest.returning wrap m b = (Return (wrap a), b').
Proof. intros H. unfold Rest.returning. step. by rewrite H. Qed.

Ltac unfold_methods :=
  unfold DeltaExchangeBroker.getAccountBalance, DeltaExchangeBroker.getPositions,
    DeltaExchangeBroker.placeOrder, DeltaExchangeBroker.cancelOrder,
    DeltaExchangeBroker.getOrderStatus, DeltaExchangeBroker.getProductId,
    BinanceFuturesBroker.getAccountBalance, BinanceFuturesBroker.getPositions,
    BinanceFuturesBroker.placeOrder, BinanceFuturesBroker.cancelOrder,
    BinanceFuturesBroker.getOrderStatus,
    BybitBroker.getAccountBalance, BybitBroker.getPositions,
    BybitBroker.placeOrder, BybitBroker.cancelOrder, BybitBroker.getOrderStatus,
    OKXBroker.getAccountBalance, OKXBroker.getPositions,
    OKXBroker.placeOrder, OKXBroker.cancelOrder, OKXBroker.getOrderStatus in *.

(** X6.  Local denial fails fast.  Whichever of the twenty REST
    methods is called (balance, positions, place, cancel and status on
    each of the four connectors): if the limiter turns the call down,
    the method throws "Rate limit exceeded", whatever the exchange
    would have answered, and the connector is left exactly as it was. *)
Theorem rest_call_denied (now : Z) (c : Rest.Call) (b : Broker) :
  allows b now (Rest.budget c).1 (Rest.budget c).2 = false →
  Rest.perform now c b = (Throw (Error "Rate limit exceeded"), b).
Proof.
  intros H. destruct c; simpl in *; apply returning_throw;
    unfold_methods; by apply guarded_denied.
Qed.

Lemma rest_call_denied_witness :
  allows (setRateLimiter Sample.broker {[ "order_2" := 20 ]}) 120000 "order" 20 = false ∧
  ∀ ack, Rest.perform 120000 (Rest.BinancePlace Sample.marketBuy ack)
           (setRateLimiter Sample.broker {[ "order_2" := 20 ]})
         = (Throw (Error "Rate limit exceeded"),
            setRateLimiter Sample.broker {[ "order_2" := 20 ]}).
Proof.
  assert (H : allows (setRateLimiter Sample.broker {[ "order_2" := 20 ]})
                120000 "order" 20 = false) by by vm_compute.
  split; [exact H|]. intros ack.
  exact (rest_call_denied 120000 (Rest.BinancePlace Sample.marketBuy ack) _ H).
Defined.

(** X7.  No method swallows a failed request.  Whichever of the
    twenty REST methods is called: if the limiter lets the call
    through and the first request it makes is rejected, the method
    throws the error that [handleError] makes of the rejection (invalid
    credentials for a 401, rate limit for a 429, service unavailable
    from 500 on, connection refused, timeout, or the message). *)
Theorem rest_call_rejected (now : Z) (c : Rest.Call) (b : Broker) (e : JsError) :
  allows b now (Rest.budget c).1 (Rest.budget c).2 = true →
  Rest.rejection c = Some e →
  (Rest.perform now c b).1 = Throw (handleError e "").
Proof.
  intros H Hrej.
  destruct c; simpl in *;
    match goal with
    | Hr : Rest.rejectedWith ?r = Some _ |- _ => destruct r; [done|]; injection Hr as ->
    end;
    unfold Rest.returning; unfold_methods;
    change (mbind ?f ?m) with (M_bind _ _ f m); unfold M_bind at 1;
    rewrite guarded_allowed by done; step; simpl;
    by rewrite ?handleError_wrapped.
Qed.

Lemma rest_call_rejected_witness :
  (allows Sample.broker 120000 "cancel" 20 = true ∧
   Rest.rejection (Rest.OKXCancel "42" "BTC-USDT-SWAP" (Rejected Sample.unavailable))
     = Some Sample.unavailable) ∧
  (Rest.perform 120000
     (Rest.OKXCancel "42" "BTC-USDT-SWAP" (Rejected Sample.unavailable)) Sample.broker).1
    = Throw (Error "Broker service unavailable").
Proof.
  assert (H : allows Sample.broker 120000 "cancel" 20 = true) by by vm_compute.
  split; [by split|].
  exact (rest_call_rejected 120000
           (Rest.OKXCancel "42" "BTC-USDT-SWAP" (Rejected Sample.unavailable))
           Sample.broker Sample.unavailable H eq_refl).
Defined.

(** *** Health checks *)

(** The credential check in full: its answer and the connector it
    leaves. *)
Lemma validateCredentials_result (now : Z) (c : Probe.Check) (b : Broker) :
  Probe.validateCredentials now c b =
    (Return (allows b now "validate" 10 && Probe.accepted c),
     setRateLimiter b (checkRateLimit (rateLimiter b) now "validate" 10 60000).2).
Proof.
  unfold allows.
  destruct c as [r|r|r|r]; simpl;
    unfold DeltaExchangeBroker.validateCredentials,
      BinanceFuturesBroker.validateCredentials,
      BybitBroker.validateCredentials, OKXBroker.validateCredentials; step;
    destruct (checkRateLimit (rateLimiter b) now "validate" 10 60000) as [[] rl];
    destruct r; reflexivity.
Qed.

Lemma healthCheck_validateCredentials (now : Z) (c : Probe.Check) (b : Broker) :
  Probe.healthCheck now c b = Probe.validateCredentials now c b.
Proof.
  pose proof (validateCredentials_result now c b) as H.
  destruct c; simpl in *;
    unfold DeltaExchangeBroker.healthCheck, BinanceFuturesBroker.healthCheck,
      BybitBroker.healthCheck, OKXBroker.healthCheck, healthCheck, tryCatch;
    by rewrite H.
Qed.

(** X5.  A health check is a credential check and is paid from the
    same budget.  On every connector [healthCheck()] returns what
    [validateCredentials()] returns and leaves the same connector.  As
    long as fewer than ten "validate" calls were let through in the
    running minute it answers what the exchange says and counts itself;
    from the tenth on it answers [false] without asking the exchange
    and changes nothing, also for credentials that are good. *)
Theorem healthCheck_spends_validate_budget (now : Z) (c : Probe.Check) (b : Broker) :
  Probe.healthCheck now c b = Probe.validateCredentials now c b ∧
  (10 ≤ default 0 (rateLimiter b !! windowKey "validate" now 60000) →
   Probe.healthCheck now c b = (Return false, b)) ∧
  (default 0 (rateLimiter b !! windowKey "validate" now 60000) < 10 → 0 ≤ now →
   (Probe.healthCheck now c b).1 = Return (Probe.accepted c) ∧
   default 0 (rateLimiter (Probe.healthCheck now c b).2 !! windowKey "validate" now 60000)
     = default 0 (rateLimiter b !! windowKey "validate" now 60000) + 1).
Proof.
  split; [apply healthCheck_validateCredentials|].
  rewrite healthCheck_validateCredentials, validateCredentials_result. unfold allows.
  split.
  - intros H. rewrite checkRateLimit_denied by done. simpl.
    by rewrite setRateLimiter_same.
  - intros H Hnow.
    destruct (checkRateLimit_allowed _ now "validate" 10 60000 H) as (rl & Hcall & Hlk).
    rewrite Hcall. simpl. split; [done|].
    rewrite Hlk, isOld_windowKey by (try done; apply Z.div_pos; lia).
    by rewrite decide_True.
Qed.

(** Good Delta credentials: the first check of the minute is [true],
    the check after ten is [false]. *)
Lemma healthCheck_spends_validate_budget_witness :
  ((default 0 (rateLimiter Sample.broker !! windowKey "validate" 120000 60000) < 10 ∧
    0 ≤ 120000) ∧
   (Probe.healthCheck 120000 (Probe.OnDelta (Sample.deltaProfile true)) Sample.broker).1
     = Return true) ∧
  (10 ≤ default 0 (rateLimiter Sample.exhausted !! windowKey "validate" 120000 60000) ∧
   Probe.healthCheck 120000 (Probe.OnDelta (Sample.deltaProfile true)) Sample.exhausted
     = (Return false, Sample.exhausted)).
Proof.
  assert (H1 : default 0 (rateLimiter Sample.broker !! windowKey "validate" 120000 60000) < 10)
    by by vm_compute.
  assert (H2 : 10 ≤ default 0 (rateLimiter Sample.exhausted !! windowKey "validate" 120000 60000))
    by by vm_compute.
  split.
  - split; [split; [exact H1|lia]|].
    exact (proj1 (proj2 (proj2 (healthCheck_spends_validate_budget 120000
                    (Probe.OnDelta (Sample.deltaProfile true)) Sample.broker))
                  H1 ltac:(lia))).
  - split; [exact H2|].
    exact (proj1 (proj2 (healthCheck_spends_validate_budget 120000
                    (Probe.OnDelta (Sample.deltaProfile true)) Sample.exhausted)) H2).
Defined.

(** *** Orders *)

Lemma orElse_truthy (a : option string) (d : string) :
  Js.truthy d = true → Js.truthy (Js.orElse a d) = true.
Proof. intros H. unfold Js.orElse. destruct a as [x|]; [|done]. by destruct (Js.truthy x) eqn:?. Qed.

(** X8.  An order that the exchange turns down surfaces with the
    words of the exchange.  When the limiter lets [placeOrder] through:
    on Delta an unknown symbol gives "Product not found for symbol: S"
    whatever the order request would have answered, and an answer with
    [success] false gives the message of the answer; on Bybit a
    [retCode] other than 0 gives [retMsg]; on OKX a [code] other than
    "0" gives [msg]; where the exchange sends no message the error is
    "Order placement failed". *)
Theorem placeOrder_refusal_message (now : Z) (b : Broker) (order : TradeOrder.t) :
  allows b now "order" 20 = true →
  (∀ rp ack,
     find (λ p, String.eqb (DeltaExchangeBroker.Product.symbol p) (TradeOrder.symbol order))
          (DeltaExchangeBroker.Body.result (data rp)) = None →
     (DeltaExchangeBroker.placeOrder now order (Resolved rp) ack b).1
       = Throw (Error ("Product not found for symbol: " +:+ TradeOrder.symbol order))) ∧
  (∀ rp product ra,
     find (λ p, String.eqb (DeltaExchangeBroker.Product.symbol p) (TradeOrder.symbol order))
          (DeltaExchangeBroker.Body.result (data rp)) = Some product →
     DeltaExchangeBroker.Body.success (data ra) = false →
     (DeltaExchangeBroker.placeOrder now order (Resolved rp) (Resolved ra) b).1
       = Throw (Error (Js.orElse (DeltaExchangeBroker.Body.error_message (data ra))
                         "Order placement failed"))) ∧
  (∀ ra,
     BybitBroker.Body.retCode (data ra) ≠ 0 →
     (BybitBroker.placeOrder now order (Resolved ra) b).1
       = Throw (Error (Js.orElse (BybitBroker.Body.retMsg (data ra))
                         "Order placement failed"))) ∧
  (∀ ra,
     OKXBroker.Body.code (data ra) ≠ "0" →
     (OKXBroker.placeOrder now order (Resolved ra) b).1
       = Throw (Error (Js.orElse (OKXBroker.Body.msg (data ra))
                         "Order placement failed"))).
Proof.
  intros H. unfold_methods.
  split; [|split; [|split]].
  - intros rp ack Hfind. rewrite guarded_allowed by done. step. rewrite Hfind. simpl.
    rewrite !handleError_plain; done.
  - intros rp product ra Hfind Hok. rewrite guarded_allowed by done.
    step. rewrite Hfind, Hok. simpl.
    by rewrite handleError_plain by by apply orElse_truthy.
  - intros ra Hcode%Z.eqb_neq. rewrite guarded_allowed by done.
    step. rewrite Hcode. simpl.
    by rewrite handleError_plain by by apply orElse_truthy.
  - intros ra Hcode%String.eqb_neq. rewrite guarded_allowed by done.
    step. rewrite Hcode. simpl.
    by rewrite handleError_plain by by apply orElse_truthy.
Qed.

Lemma placeOrder_refusal_message_witness :
  (allows Sample.broker 120000 "order" 20 = true ∧
   BybitBroker.Body.retCode (data Sample.bybitRefusal) ≠ 0) ∧
  (BybitBroker.placeOrder 120000 Sample.marketBuy (Resolved Sample.bybitRefusal)
     Sample.broker).1 = Throw (Error "Insufficient available balance").
Proof.
  assert (H : allows Sample.broker 120000 "order" 20 = true) by by vm_compute.
  assert (H' : BybitBroker.Body.retCode (data Sample.bybitRefusal) ≠ 0) by done.
  split; [by split|].
  exact (proj1 (proj2 (proj2 (placeOrder_refusal_message 120000 Sample.broker
                                 Sample.marketBuy H))) Sample.bybitRefusal H').
Defined.

Lemma delta_normalize s :
  DeltaExchangeBroker.mapOrderStatus s
    = StatusTable.normalize StatusTable.delta (Js.toLowerCase s).
Proof.
  unfold DeltaExchangeBroker.mapOrderStatus. simpl.
  by repeat (destruct (String.eqb (Js.toLowerCase s) _); simpl).
Qed.

Lemma binance_normalize s :
  BinanceFuturesBroker.mapOrderStatus s = StatusTable.normalize StatusTable.binance s.
Proof.
  unfold BinanceFuturesBroker.mapOrderStatus. simpl.
  by repeat (destruct (String.eqb s _); simpl).
Qed.

Lemma bybit_normalize s :
  BybitBroker.mapOrderStatus s = StatusTable.normalize StatusTable.bybit s.
Proof.
  unfold BybitBroker.mapOrderStatus. simpl.
  by repeat (destruct (String.eqb s _); simpl).
Qed.

Lemma okx_normalize s :
  OKXBroker.mapOrderStatus s = StatusTable.normalize StatusTable.okx s.
Proof.
  unfold OKXBroker.mapOrderStatus. simpl.
  by repeat (destruct (String.eqb s _); simpl).
Qed.

(** X9.  [getOrderStatus] does normalize on all four connectors.  When
    the limiter lets the call through and the exchange answers with
    the order, the status of the result is the native status word read
    through the table of the exchange, [pending] being the default: the
    [state] on Delta (in lower case), the [status] on Binance, the
    [orderStatus] on Bybit and the [state] on OKX. *)
Theorem getOrderStatus_status (now : Z) (b : Broker) (orderId symbol : string) :
  allows b now "order_status" 10 = true →
  (∀ ra order,
     DeltaExchangeBroker.Body.success (data ra) = true →
     DeltaExchangeBroker.Body.result (data ra) = Some order →
     statusOf (DeltaExchangeBroker.getOrderStatus now orderId symbol (Resolved ra) b).1
       = Some (StatusTable.normalize StatusTable.delta
                 (Js.toLowerCase (DeltaExchangeBroker.OrderDetail.state order)))) ∧
  (∀ ra,
     statusOf (BinanceFuturesBroker.getOrderStatus now orderId symbol (Resolved ra) b).1
       = Some (StatusTable.normalize StatusTable.binance
                 (BinanceFuturesBroker.OrderDetail.status (data ra)))) ∧
  (∀ ra order rest,
     BybitBroker.Body.retCode (data ra) = 0 →
     BybitBroker.Body.result (data ra) = order :: rest →
     statusOf (BybitBroker.getOrderStatus now orderId symbol (Resolved ra) b).1
       = Some (StatusTable.normalize StatusTable.bybit
                 (BybitBroker.OrderDetail.orderStatus order))) ∧
  (∀ ra order rest,
     OKXBroker.Body.code (data ra) = "0" →
     OKXBroker.Body.data (data ra) = order :: rest →
     statusOf (OKXBroker.getOrderStatus now orderId symbol (Resolved ra) b).1
       = Some (StatusTable.normalize StatusTable.okx (OKXBroker.OrderDetail.state order))).
Proof.
  intros H. unfold_methods.
  split; [|split; [|split]].
  - intros ra order Hok Hres. rewrite guarded_allowed by done.
    step. rewrite Hok, Hres. simpl. by rewrite delta_normalize.
  - intros ra. rewrite guarded_allowed by done. step. simpl. by rewrite binance_normalize.
  - intros ra order rest Hok Hres. rewrite guarded_allowed by done.
    step. rewrite Hok, Hres. simpl. by rewrite bybit_normalize.
  - intros ra order rest Hok Hres. rewrite guarded_allowed by done.
    step. rewrite Hok, Hres. simpl. by rewrite okx_normalize.
Qed.

(** A filled order on Bybit: [placeOrder] had said [pending],
    [getOrderStatus] says [filled]. *)
Lemma getOrderStatus_status_witness :
  (allows Sample.broker 120000 "order_status" 10 = true ∧
   BybitBroker.Body.retCode (data (Sample.bybitOrderReply "Filled")) = 0) ∧
  statusOf (BybitBroker.getOrderStatus 120000 "1321003749386327552" "BTCUSDT"
              (Resolved (Sample.bybitOrderReply "Filled")) Sample.broker).1 = Some filled.
Proof.
  assert (H : allows Sample.broker 120000 "order_status" 10 = true) by by vm_compute.
  split; [by split|].
  exact (proj1 (proj2 (proj2 (getOrderStatus_status 120000 Sample.broker
                                 "1321003749386327552" "BTCUSDT" H)))
           (Sample.bybitOrderReply "Filled") (Sample.bybitOrder "Filled") [] eq_refl eq_refl).
Defined.

(** *** Positions *)

Lemma abs_open (x : Js.number) :
  Js.neq x (Js.ofZ 0) = true →
  Js.neq (Js.abs x) (Js.ofZ 0) = true ∧
  (Js.isFinite (Js.abs x) = true → Js.gt (Js.abs x) (Js.ofZ 0) = true).
Proof.
  destruct x as [q| | |]; simpl; try done.
  intros Hq%negb_true_iff.
  assert (Hne : ¬ (q == 0)%Q).
  { intros Hz%Qeq_bool_iff. unfold Js.ofZ in Hq. change (inject_Z 0) with 0%Q in Hq. congruence. }
  assert (Habs : ¬ (Qred (Qabs q) <= 0)%Q).
  { rewrite Qred_correct. intros Hle. apply Hne.
    destruct q as [n d]. unfold Qabs, Qle, Qeq in *. simpl in *. lia. }
  split.
  - apply negb_true_iff. destruct (Qeq_bool (Qred (Qabs q)) (inject_Z 0)) eqn:E; [|done].
    apply Qeq_bool_iff in E. exfalso. apply Habs. rewrite E. by unfold Qle.
  - intros _. apply negb_true_iff.
    destruct (Qle_bool (Qred (Qabs q)) (inject_Z 0)) eqn:E; [|done].
    apply Qle_bool_iff in E. by exfalso.
Qed.

Lemma delta_openPositions_open rows :
  Forall openPosition (DeltaExchangeBroker.openPositions rows).
Proof.
  unfold DeltaExchangeBroker.openPositions.
  apply Forall_forall. intros p (row & <- & [_ Hrow]%filter_In)%list_elem_of_In%in_map_iff.
  destruct (abs_open _ Hrow) as [H1 H2].
  unfold openPosition. simpl. repeat split; [done|done|].
  case_match; [by left|by right].
Qed.

Lemma binance_openPositions_open rows :
  Forall openPosition (BinanceFuturesBroker.openPositions rows).
Proof.
  unfold BinanceFuturesBroker.openPositions.
  apply Forall_forall. intros p (row & <- & [_ Hrow]%filter_In)%list_elem_of_In%in_map_iff.
  destruct (abs_open _ Hrow) as [H1 H2].
  unfold openPosition. simpl. repeat split; [done|done|].
  case_match; [by left|by right].
Qed.

Lemma okx_openPositions_open rows :
  Forall openPosition (OKXBroker.openPositions rows).
Proof.
  unfold OKXBroker.openPositions.
  apply Forall_forall. intros p (row & <- & [_ Hrow]%filter_In)%list_elem_of_In%in_map_iff.
  destruct (abs_open _ Hrow) as [H1 H2].
  unfold openPosition. simpl. repeat split; [done|done|].
  case_match; [by left|by right].
Qed.

(** X10.  Delta, Binance-Futures and OKX report open positions only,
    in the words of the data model.  Whatever rows the exchange sends,
    every row that [getPositions] returns has a size other than zero,
    a size above zero when it is a finite number (the sign of the
    native amount is dropped), and the side "long" or "short". *)
Theorem getPositions_rows_open (now : Z) (b : Broker) (rows : list Position.t) :
  (∀ r, (DeltaExchangeBroker.getPositions now r b).1 = Return rows →
        Forall openPosition rows) ∧
  (∀ r, (BinanceFuturesBroker.getPositions now r b).1 = Return rows →
        Forall openPosition rows) ∧
  (∀ r, (OKXBroker.getPositions now r b).1 = Return rows →
        Forall openPosition rows).
Proof.
  unfold_methods. split; [|split]; intros r; step;
    destruct (checkRateLimit (rateLimiter b) now "positions" 10 60000) as [[] rl];
    simpl; try done; destruct r as [resp|e]; simpl; try done.
  - destruct (DeltaExchangeBroker.Body.success (data resp)); simpl; [|done].
    intros [= <-]. apply delta_openPositions_open.
  - intros [= <-]. apply binance_openPositions_open.
  - destruct (String.eqb (OKXBroker.Body.code (data resp)) "0"); simpl; [|done].
    intros [= <-]. apply okx_openPositions_open.
Qed.

(** A short of 0.5 BTC and a flat ETH row on Binance: one row comes
    back, short, with size 1/2. *)
Lemma getPositions_rows_open_witness :
  (BinanceFuturesBroker.getPositions 120000 (Resolved Sample.binancePositions)
     Sample.broker).1
    = Return (BinanceFuturesBroker.openPositions (data Sample.binancePositions)) ∧
  Forall openPosition (BinanceFuturesBroker.openPositions (data Sample.binancePositions)) ∧
  map (λ p, (Position.side p, Position.size p))
      (BinanceFuturesBroker.openPositions (data Sample.binancePositions))
    = [("short", Js.Fin (1 # 2))].
Proof.
  assert (H : (BinanceFuturesBroker.getPositions 120000 (Resolved Sample.binancePositions)
                 Sample.broker).1
              = Return (BinanceFuturesBroker.openPositions (data Sample.binancePositions)))
    by by vm_compute.
  split; [exact H|]. split; [|by vm_compute].
  exact (proj1 (proj2 (getPositions_rows_open 120000 Sample.broker _))
           (Resolved Sample.binancePositions) H).
Defined.

(** X11.  Bybit positions keep the order-side word and the signed
    size.  The side of a returned row is the native [side] in lower
    case and the size is the native [size] as sent: for the native
    sides "Buy" and "Sell" every returned row says "buy" or "sell", and
    none says "long" or "short". *)
Theorem bybit_getPositions_side (now : Z) (b : Broker)
    (r : Response (BybitBroker.Body.t (list BybitBroker.PositionRow.t)))
    (rows : list Position.t) :
  Forall (λ row, BybitBroker.PositionRow.side row = "Buy" ∨
                 BybitBroker.PositionRow.side row = "Sell")
         (BybitBroker.Body.result (data r)) →
  (BybitBroker.getPositions now (Resolved r) b).1 = Return rows →
  Forall (λ p, (Position.side p = "buy" ∨ Position.side p = "sell") ∧
               ¬ openPosition p) rows.
Proof.
  intros Hside. unfold_methods. step.
  destruct (checkRateLimit (rateLimiter b) now "positions" 10 60000) as [[] rl];
    simpl; try done.
  destruct (BybitBroker.Body.retCode (data r) =? 0); simpl; [|done].
  intros [= <-]. unfold BybitBroker.openPositions.
  apply Forall_forall. intros p (row & <- & [Hin%list_elem_of_In _]%filter_In)%list_elem_of_In%in_map_iff.
  rewrite Forall_forall in Hside.
  unfold openPosition. simpl.
  destruct (Hside row Hin) as [-> | ->]; (split; [(by left) || (by right)|]);
    by intros (_ & _ & [|]).
Qed.

Lemma bybit_getPositions_side_witness :
  (Forall (λ row, BybitBroker.PositionRow.side row = "Buy" ∨
                  BybitBroker.PositionRow.side row = "Sell")
          (BybitBroker.Body.result (data Sample.bybitBook)) ∧
   (BybitBroker.getPositions 120000 (Resolved Sample.bybitBook)
      Sample.broker).1 = Return [BybitBroker.toPosition Sample.bybitLong]) ∧
  Forall (λ p, (Position.side p = "buy" ∨ Position.side p = "sell") ∧ ¬ openPosition p)
         [BybitBroker.toPosition Sample.bybitLong].
Proof.
  assert (H1 : Forall (λ row, BybitBroker.PositionRow.side row = "Buy" ∨
                              BybitBroker.PositionRow.side row = "Sell")
                 (BybitBroker.Body.result (data Sample.bybitBook)))
    by (repeat constructor).
  assert (H2 : (BybitBroker.getPositions 120000
                  (Resolved Sample.bybitBook) Sample.broker).1
               = Return [BybitBroker.toPosition Sample.bybitLong]) by by vm_compute.
  split; [by split|].
  exact (bybit_getPositions_side 120000 Sample.broker _ _ H1 H2).
Defined.

End RestMethods.

(** ** The registry

    The methods of BrokerFactory other than the look-up, on the heap of
    connectors. *)

Section RegistryMethods.
Import BaseBroker BrokerFactory.

Lemma string_app_inv_l (s a b : string) : s +:+ a = s +:+ b → a = b.
Proof.
  induction s as [|x s IH]; [by rewrite !app_empty_l|].
  rewrite !app_cons. intros [= H]. by apply IH.
Qed.

Lemma store_same (r : nat) (i : Instance) (reg : Registry) :
  heap reg !! r = Some i → store r (object i) reg = reg.
Proof.
  intros H. unfold store. destruct reg as [ins hp]. simpl in *. f_equal.
  apply list_eq. intros j. rewrite list_lookup_alter.
  case_decide; [subst j|done]. rewrite H. simpl. by destruct i.
Qed.

Lemma wellFormed_frame (reg reg' : Registry) :
  instances reg' = instances reg →
  length (heap reg') = length (heap reg) →
  wellFormed reg → wellFormed reg'.
Proof. intros Hi Hl [H1 H2]. unfold wellFormed. rewrite Hi, Hl. by split. Qed.

Lemma call_instances {A} method r (body : SupportedBroker → M A) reg :
  instances (call method r body reg).2 = instances reg ∧
  length (heap (call method r body reg).2) = length (heap reg).
Proof.
  unfold call. destruct (heap reg !! r) as [i|]; [|done].
  destruct (body (class i) (object i)) as [o b]. simpl. by rewrite length_alter.
Qed.

Lemma call_heap {A} method r (body : SupportedBroker → M A) reg r' :
  heap (call method r body reg).2 !! r' =
    if decide (r = r')
    then (λ i, {| class := class i; object := (body (class i) (object i)).2 |})
           <$> heap reg !! r
    else heap reg !! r'.
Proof.
  unfold call. destruct (heap reg !! r) as [i|] eqn:Hi.
  - destruct (body (class i) (object i)) as [o b] eqn:Hb. simpl.
    rewrite list_lookup_alter. case_decide; [|done]. rewrite Hi. simpl. by rewrite Hb.
  - simpl. case_decide as Heq; [by rewrite <- Heq, Hi|done].
Qed.

Lemma call_result {A} method r (body : SupportedBroker → M A) reg i :
  heap reg !! r = Some i →
  (call method r body reg).1 = (body (class i) (object i)).1.
Proof.
  intros Hi. unfold call. rewrite Hi. by destruct (body (class i) (object i)).
Qed.

Lemma call_wellFormed {A} method r (body : SupportedBroker → M A) reg :
  wellFormed reg → wellFormed (call method r body reg).2.
Proof. apply wellFormed_frame; apply call_instances. Qed.


Lemma supported_cases (brokerType : string) :
  (brokerType ∈ getSupportedBrokers ↔ is_Some (brokerClass brokerType)) ∧
  (brokerType ∈ getSupportedBrokers ↔ is_Some (getBrokerInfo brokerType)).
Proof.
  unfold getSupportedBrokers, brokerClass, getBrokerInfo.
  rewrite !elem_of_cons, elem_of_nil.
  destruct (String.eqb_spec brokerType "DELTA") as [->|H1];
    [split; (split; [by eexists|by left])|].
  destruct (String.eqb_spec brokerType "BINANCE") as [->|H2];
    [split; (split; [by eexists|by right; left])|].
  destruct (String.eqb_spec brokerType "BYBIT") as [->|H3];
    [split; (split; [by eexists|by right; right; left])|].
  destruct (String.eqb_spec brokerType "OKX") as [->|H4];
    [split; (split; [by eexists|by right; right; right; left])|].
  split; (split; [by intros [|[|[|[|]]]]|by intros [? [=]]]).
Qed.

Lemma supported_class (brokerType : string) :
  brokerType ∈ getSupportedBrokers ↔ is_Some (brokerClass brokerType).
Proof. apply supported_cases. Qed.

(** X12.  The registry constructs exactly the types it lists.  For a
    key that is not filed yet: a type that [getSupportedBrokers()]
    lists has an entry in the table of [getBrokerInfo] and gets a new
    connector, built from the credentials of the call, filed under the
    key and placed where no object was; for any other type
    [getBrokerInfo] has nothing and [createBroker] throws "Unsupported
    broker type: T" and leaves the registry as it was. *)
Theorem createBroker_supported_types
    (brokerType : string) (credentials : BrokerCredentials)
    (instanceId : option string) (reg : Registry) :
  getBroker (instanceKey brokerType credentials instanceId) reg = None →
  (brokerType ∈ getSupportedBrokers →
   is_Some (getBrokerInfo brokerType) ∧
   ∃ r reg' cls,
     createBroker brokerType credentials instanceId reg = (Return r, reg') ∧
     getBroker (instanceKey brokerType credentials instanceId) reg' = Some r ∧
     heap reg' !! r = Some {| class := cls; object := newBroker credentials |} ∧
     heap reg !! r = None) ∧
  (brokerType ∉ getSupportedBrokers →
   getBrokerInfo brokerType = None ∧
   createBroker brokerType credentials instanceId reg
     = (Throw (Error ("Unsupported broker type: " +:+ brokerType)), reg)).
Proof.
  unfold getBroker. intros Hnew.
  destruct (supported_cases brokerType) as [Hcls Hinfo]. split.
  - intros Hin. split; [by apply Hinfo|].
    apply Hcls in Hin as [cls Hc].
    eexists _, _, cls. split; [by apply createBroker_fresh|]. simpl.
    split; [apply lookup_insert_eq|]. split; [by apply list_lookup_middle|].
    by apply lookup_ge_None_2.
  - intros Hout. split.
    + destruct (getBrokerInfo brokerType) eqn:E; [|done].
      exfalso. apply Hout, Hinfo. by eexists.
    + unfold createBroker. rewrite Hnew.
      destruct (brokerClass brokerType) eqn:E; [|done].
      exfalso. apply Hout, Hcls. by eexists.
Qed.

Lemma createBroker_supported_types_witness :
  getBroker (instanceKey "KRAKEN" Sample.alice None) empty = None ∧
  ("KRAKEN" ∉ getSupportedBrokers) ∧
  createBroker "KRAKEN" Sample.alice None empty
    = (Throw (Error "Unsupported broker type: KRAKEN"), empty).
Proof.
  assert (H1 : getBroker (instanceKey "KRAKEN" Sample.alice None) empty = None) by done.
  assert (H2 : "KRAKEN" ∉ getSupportedBrokers) by (apply (not_iff_compat (proj1 (supported_cases "KRAKEN"))); by intros [? [=]]).
  split; [exact H1|]. split; [exact H2|].
  exact (proj2 (proj2 (createBroker_supported_types "KRAKEN" Sample.alice None empty H1) H2)).
Defined.

Lemma disconnectBroker_frame reg k k' r' :
  wellFormed reg → k' ≠ k → instances reg !! k' = Some r' →
  instances (disconnectBroker k reg) !! k' = Some r' ∧
  heap (disconnectBroker k reg) !! r' = heap reg !! r'.
Proof.
  intros [_ Hinj] Hne Hk'. unfold disconnectBroker.
  destruct (instances reg !! k) as [r|] eqn:Hk; [|done]. simpl. split.
  - by rewrite lookup_delete_ne.
  - apply list_lookup_alter_ne. intros Heq. subst r'. by apply Hne, (Hinj k' k r).
Qed.

(** X13.  [disconnectBroker] removes the key and disconnects the
    object, and nothing else.  On a well-formed registry with a
    connector filed under [instanceId]: afterwards the key is free;
    the object behind the old reference is still there, with
    [isConnected] false, no stream and its credentials; every other
    key keeps its reference and its object; and a connector created
    under the same key later is a new object, not the old one. *)
Theorem disconnectBroker_removes_and_disconnects
    (reg : Registry) (instanceId : string) (r : nat) (i : Instance) :
  wellFormed reg →
  getBroker instanceId reg = Some r → heap reg !! r = Some i →
  let reg' := disconnectBroker instanceId reg in
  getBroker instanceId reg' = None ∧
  heap reg' !! r = Some (disconnected i) ∧
  getConnectionStatus (object (disconnected i)) = false ∧
  wsClient (object (disconnected i)) = None ∧
  credentials (object (disconnected i)) = credentials (object i) ∧
  (∀ k' r', k' ≠ instanceId → getBroker k' reg = Some r' →
            getBroker k' reg' = Some r' ∧ heap reg' !! r' = heap reg !! r') ∧
  (∀ brokerType credentials instanceId' r2 reg2,
     instanceKey brokerType credentials instanceId' = instanceId →
     createBroker brokerType credentials instanceId' reg' = (Return r2, reg2) →
     r2 ≠ r ∧ heap reg2 !! r = Some (disconnected i) ∧
     ∃ cls, heap reg2 !! r2 = Some {| class := cls; object := newBroker credentials |}).
Proof.
  intros Hwf Hk Hi reg'. unfold getBroker in *.
  assert (Hreg' : reg' = {| instances := delete instanceId (instances reg);
                            heap := alter disconnected r (heap reg) |}).
  { unfold reg', disconnectBroker. by rewrite Hk. }
  assert (Hr : (r < length (heap reg))%nat) by by eapply lookup_lt_Some.
  split; [rewrite Hreg'; simpl; apply lookup_delete_eq|].
  split; [rewrite Hreg'; simpl; by rewrite list_lookup_alter_eq, Hi|].
  split; [done|]. split; [done|]. split; [done|].
  split; [intros k' r' Hne Hk'; by apply disconnectBroker_frame|].
  intros t c id' r2 reg2 Hkey Hcreate.
  unfold createBroker in Hcreate. rewrite Hkey, Hreg' in Hcreate. simpl in Hcreate.
  rewrite lookup_delete_eq in Hcreate.
  destruct (brokerClass t) as [cls|]; [|done].
  injection Hcreate as <- <-. simpl. rewrite length_alter.
  split; [lia|]. split.
  - rewrite lookup_app_l by by rewrite length_alter.
    by rewrite list_lookup_alter_eq, Hi.
  - exists cls. rewrite <- (length_alter disconnected (heap reg) r).
    by apply list_lookup_middle.
Qed.

(** *** The entries of the map *)

Lemma elem_of_entries reg k r :
  (k, r) ∈ entries reg ↔ instances reg !! k = Some r.
Proof.
  unfold entries. rewrite merge_sort_Permutation. apply elem_of_map_to_list.
Qed.

Lemma NoDup_entries reg : NoDup (entries reg).*1.
Proof.
  unfold entries. rewrite merge_sort_Permutation. apply NoDup_fst_map_to_list.
Qed.

Lemma NoDup_snd_of_inj (l : list (string * nat)) :
  NoDup l.*1 →
  (∀ k1 k2 r, (k1, r) ∈ l → (k2, r) ∈ l → k1 = k2) →
  NoDup l.*2.
Proof.
  induction l as [|[k r] l IH]; simpl; [constructor|].
  intros [Hk Hl]%NoDup_cons Hinj. constructor.
  - intros ([k' r'] & Hr & Hin)%list_elem_of_fmap. simpl in Hr. subst r'.
    apply Hk. apply list_elem_of_fmap. exists (k', r). split; [|done]. simpl.
    apply (Hinj k k' r); [left|by right].
  - apply IH; [done|]. intros k1 k2 r0 H1 H2. apply (Hinj k1 k2 r0); by right.
Qed.

Lemma NoDup_entries_refs reg : wellFormed reg → NoDup (entries reg).*2.
Proof.
  intros [_ Hinj]. apply NoDup_snd_of_inj; [apply NoDup_entries|].
  intros k1 k2 r H1%elem_of_entries H2%elem_of_entries. by eapply Hinj.
Qed.

Lemma elem_of_getConnectedBrokers reg k :
  k ∈ getConnectedBrokers reg ↔
  ∃ r i, instances reg !! k = Some r ∧ heap reg !! r = Some i ∧
         isConnected (object i) = true.
Proof.
  unfold getConnectedBrokers. rewrite list_elem_of_In, in_map_iff. split.
  - intros ([k' r] & <- & [Hin%list_elem_of_In%elem_of_entries Hc]%filter_In).
    simpl in *. destruct (heap reg !! r) as [i|] eqn:Hi; [|done].
    by exists r, i.
  - intros (r & i & Hk & Hi & Hc). exists (k, r). split; [done|].
    apply filter_In. split; [by apply list_elem_of_In, elem_of_entries|].
    simpl. by rewrite Hi.
Qed.

(** *** Connecting through the registry *)

Lemma connect_result (now : Z) (c : Probe.Check) (ws : WsResult) (b : Broker) :
  Probe.connect now c ws b =
    let b1 := setRateLimiter b (checkRateLimit (rateLimiter b) now "validate" 10 60000).2 in
    match ws with
    | WsOpened => (Return tt, setConnected (setWsClient b1 (Some OPEN)) true)
    | WsFailed error => (Throw (handleError error ""), setWsClient b1 None)
    end.
Proof.
  pose proof (validateCredentials_result now c b) as H.
  destruct c; simpl in *;
    unfold DeltaExchangeBroker.connect, BinanceFuturesBroker.connect,
      BybitBroker.connect, OKXBroker.connect;
    rewrite (connect_body_returned _ _ ws _ _ _ H); by destruct ws.
Qed.

Lemma connectBroker_unfold t c id x reg r reg1 i :
  createBroker t c id reg = (Return r, reg1) →
  heap reg1 !! r = Some i →
  connectBroker t c id x reg =
    if isConnected (object i) then (Return r, reg1)
    else
      let res := Probe.connect (clock x) (probe (class i) x) (handshake x) (object i) in
      (match res.1 with Return _ => Return r | Throw e => Throw e end,
       store r res.2 reg1).
Proof.
  intros Hc Hi. unfold connectBroker, mbind, R_bind. rewrite Hc.
  unfold call at 1. rewrite Hi. unfold read, getConnectionStatus.
  rewrite (store_same _ _ _ Hi).
  destruct (isConnected (object i)); simpl; [done|].
  unfold call. rewrite Hi.
  by destruct (Probe.connect _ _ _ _) as [[[]|e] b'].
Qed.

Lemma createBroker_returns_object t c id reg r reg1 :
  wellFormed reg → createBroker t c id reg = (Return r, reg1) →
  wellFormed reg1 ∧ instances reg1 !! instanceKey t c id = Some r ∧
  ∃ i, heap reg1 !! r = Some i.
Proof.
  intros Hwf Hc.
  pose proof (createBroker_wellFormed t c id reg Hwf) as Hwf1.
  rewrite Hc in Hwf1. simpl in Hwf1.
  pose proof (createBroker_filed _ _ _ _ _ _ Hc) as Hk.
  split; [done|]. split; [done|].
  apply lookup_lt_is_Some. destruct Hwf1 as [Hdom _]. by eapply Hdom.
Qed.

(** X15.  [connectBroker] hands out a connected connector whenever
    the stream opens.  On a well-formed registry, for a key that is
    filed or a type that is supported: if the handshake of the stream
    succeeds, the call returns a reference that is filed under the key,
    whose object says [getConnectionStatus()] true, and the key is
    among [getConnectedBrokers()], whatever the exchange answers to
    the credential request. *)
Theorem connectBroker_returns_connected
    (brokerType : string) (credentials : BrokerCredentials)
    (instanceId : option string) (x : Exchange) (reg : Registry) :
  wellFormed reg →
  is_Some (getBroker (instanceKey brokerType credentials instanceId) reg)
    ∨ brokerType ∈ getSupportedBrokers →
  handshake x = WsOpened →
  ∃ r i,
    (connectBroker brokerType credentials instanceId x reg).1 = Return r ∧
    let reg' := (connectBroker brokerType credentials instanceId x reg).2 in
    getBroker (instanceKey brokerType credentials instanceId) reg' = Some r ∧
    heap reg' !! r = Some i ∧
    getConnectionStatus (object i) = true ∧
    instanceKey brokerType credentials instanceId ∈ getConnectedBrokers reg'.
Proof.
  intros Hwf Hcan Hws.
  assert (∃ r reg1, createBroker brokerType credentials instanceId reg = (Return r, reg1))
    as (r & reg1 & Hc).
  { destruct Hcan as [[r Hr]|Hin].
    - exists r, reg. by apply createBroker_cached.
    - destruct (instances reg !! instanceKey brokerType credentials instanceId)
        as [r|] eqn:Hk.
      + exists r, reg. by apply createBroker_cached.
      + apply supported_class in Hin as [cls Hcls].
        eexists _, _. by apply createBroker_fresh. }
  destruct (createBroker_returns_object _ _ _ _ _ _ Hwf Hc) as (Hwf1 & Hk & i & Hi).
  rewrite (connectBroker_unfold _ _ _ x _ _ _ _ Hc Hi).
  unfold getBroker, getConnectionStatus.
  destruct (isConnected (object i)) eqn:Hcon.
  - exists r, i. simpl. repeat split; try done.
    apply elem_of_getConnectedBrokers. by exists r, i.
  - rewrite connect_result, Hws. simpl.
    eexists r, _. split; [done|]. split; [done|].
    split; [by rewrite list_lookup_alter_eq, Hi|]. split; [done|].
    apply elem_of_getConnectedBrokers. eexists r, _. split; [done|].
    split; [simpl; by rewrite list_lookup_alter_eq, Hi|done].
Qed.

(** Credentials that Bybit turns down, on an empty registry. *)
Lemma connectBroker_returns_connected_witness :
  (wellFormed empty ∧ "BYBIT" ∈ getSupportedBrokers ∧
   handshake Sample.rejecting = WsOpened) ∧
  ∃ r i,
    (connectBroker "BYBIT" Sample.alice None Sample.rejecting empty).1 = Return r ∧
    heap (connectBroker "BYBIT" Sample.alice None Sample.rejecting empty).2 !! r = Some i ∧
    getConnectionStatus (object i) = true.
Proof.
  assert (H2 : "BYBIT" ∈ getSupportedBrokers) by (apply supported_class; by eexists).
  split; [split; [exact wellFormed_empty|by split]|].
  destruct (connectBroker_returns_connected "BYBIT" Sample.alice None Sample.rejecting
              empty wellFormed_empty (or_intror H2) eq_refl)
    as (r & i & H & _ & Hi & Hc & _).
  by exists r, i.
Defined.

(** X16.  [connectBroker] does nothing for a connector that is
    connected.  If the key is filed and the object behind it says
    [getConnectionStatus()] true, the call returns that reference and
    leaves the registry as it is, whatever the type and the
    credentials of the call and whatever the exchange would answer:
    no request is made. *)
Theorem connectBroker_when_connected
    (brokerType : string) (credentials : BrokerCredentials)
    (instanceId : option string) (x : Exchange) (reg : Registry)
    (r : nat) (i : Instance) :
  getBroker (instanceKey brokerType credentials instanceId) reg = Some r →
  heap reg !! r = Some i →
  getConnectionStatus (object i) = true →
  connectBroker brokerType credentials instanceId x reg = (Return r, reg).
Proof.
  unfold getBroker, getConnectionStatus. intros Hk Hi Hc.
  rewrite (connectBroker_unfold _ _ _ x _ _ _ _ (createBroker_cached _ _ _ _ _ Hk) Hi).
  by rewrite Hc.
Qed.

(** *** Shutting down *)

Lemma disconnected_idemp (i : Instance) : disconnected (disconnected i) = disconnected i.
Proof. done. Qed.

Lemma disconnectEntry_heap reg k0 r0 r :
  heap (disconnectEntry reg (k0, r0)) !! r =
    if decide (r0 = r) then disconnected <$> heap reg !! r0 else heap reg !! r.
Proof. unfold disconnectEntry. by rewrite call_heap. Qed.

Lemma disconnectAll_fold (l : list (string * nat)) (reg : Registry) :
  length (heap (foldl disconnectEntry reg l)) = length (heap reg) ∧
  ∀ r, heap (foldl disconnectEntry reg l) !! r
       = (if decide (r ∈ l.*2) then disconnected else id) <$> heap reg !! r.
Proof.
  revert reg. induction l as [|[k0 r0] l IH]; intros reg; cbn [foldl].
  - split; [done|]. intros r. rewrite decide_False; [|by intros ?%elem_of_nil].
    by destruct (heap reg !! r).
  - destruct (IH (disconnectEntry reg (k0, r0))) as [Hlen Hheap].
    split; [rewrite Hlen; apply call_instances|].
    intros r. rewrite Hheap, disconnectEntry_heap, fmap_cons. cbn [snd].
    clear Hlen Hheap IH.
    destruct (decide (r0 = r)) as [->|Hne].
    + rewrite (decide_True (P := r ∈ r :: l.*2)) by by left.
      destruct (heap reg !! r) as [i|]; [|by case_decide]. by case_decide.
    + destruct (decide (r ∈ l.*2)) as [Hin|Hout].
      * by rewrite decide_True by by right.
      * rewrite decide_False; [done|]. rewrite elem_of_cons. by intros [|].
Qed.

(** X14.  [disconnectAllBrokers] empties the map and disconnects
    every filed connector.  Afterwards no key is filed and
    [getConnectedBrokers()] is empty; no object is dropped from the
    heap; each object that was filed is disconnected, without stream;
    objects that were not filed are left alone. *)
Theorem disconnectAllBrokers_disconnects_and_clears (reg : Registry) :
  let reg' := disconnectAllBrokers reg in
  (∀ k, getBroker k reg' = None) ∧
  getConnectedBrokers reg' = [] ∧
  length (heap reg') = length (heap reg) ∧
  (∀ k r i, getBroker k reg = Some r → heap reg !! r = Some i →
            heap reg' !! r = Some (disconnected i) ∧
            getConnectionStatus (object (disconnected i)) = false ∧
            wsClient (object (disconnected i)) = None) ∧
  (∀ r, (∀ k, getBroker k reg ≠ Some r) → heap reg' !! r = heap reg !! r).
Proof.
  intros reg'. unfold reg', disconnectAllBrokers, getBroker. simpl.
  destruct (disconnectAll_fold (entries reg) reg) as [Hlen Hheap].
  split; [intros k; apply lookup_empty|].
  split; [by unfold getConnectedBrokers, entries; simpl; rewrite map_to_list_empty|].
  split; [done|]. split.
  - intros k r i Hk Hi. split; [|done].
    rewrite Hheap, Hi, decide_True; [done|].
    apply list_elem_of_fmap. exists (k, r). split; [done|]. by apply elem_of_entries.
  - intros r Hfree. rewrite Hheap, decide_False; [by destruct (heap reg !! r)|].
    intros ([k r'] & -> & Hin%elem_of_entries)%list_elem_of_fmap. by eapply Hfree.
Qed.

(** *** Health of all connectors *)

Lemma healthCheck_result (now : Z) (c : Probe.Check) (b : Broker) :
  Probe.healthCheck now c b =
    (Return (allows b now "validate" 10 && Probe.accepted c),
     setRateLimiter b (checkRateLimit (rateLimiter b) now "validate" 10 60000).2).
Proof. by rewrite healthCheck_validateCredentials, validateCredentials_result. Qed.

Lemma setProperty_lookup key value healthChecks k :
  setProperty key value healthChecks !! k =
    if decide (key = k ∧ key ≠ "__proto__") then Some value else healthChecks !! k.
Proof.
  unfold setProperty. destruct (String.eqb_spec key "__proto__") as [->|Hne].
  - rewrite decide_False; [done|]. by intros [_ ?].
  - rewrite lookup_insert.
    destruct (decide (key = k)) as [->|Hk].
    + by rewrite decide_True.
    + rewrite decide_False; [done|]. by intros [? _].
Qed.

Lemma healthCheckEntry_result answers hc reg k0 r0 :
  healthCheckEntry answers (hc, reg) (k0, r0) =
    (setProperty k0 (match heap reg !! r0 with
                     | Some i => verdict i (answers k0)
                     | None => false
                     end) hc,
     (call "healthCheck" r0
        (λ cls, Probe.healthCheck (clock (answers k0)) (probe cls (answers k0))) reg).2).
Proof.
  unfold healthCheckEntry, call. cbn [fst snd].
  destruct (heap reg !! r0) as [i|]; [|done]. by rewrite healthCheck_result.
Qed.

Lemma healthCheckAll_fold (answers : string → Exchange)
    (l : list (string * nat)) (acc : gmap string bool * Registry) :
  NoDup l.*1 → NoDup l.*2 →
  instances (foldl (healthCheckEntry answers) acc l).2 = instances acc.2 ∧
  length (heap (foldl (healthCheckEntry answers) acc l).2) = length (heap acc.2) ∧
  (∀ r, (isConnected ∘ object) <$> heap (foldl (healthCheckEntry answers) acc l).2 !! r
        = (isConnected ∘ object) <$> heap acc.2 !! r) ∧
  (∀ k, k ∉ l.*1 → (foldl (healthCheckEntry answers) acc l).1 !! k = acc.1 !! k) ∧
  (foldl (healthCheckEntry answers) acc l).1 !! "__proto__" = acc.1 !! "__proto__" ∧
  (∀ k r i, (k, r) ∈ l → heap acc.2 !! r = Some i → k ≠ "__proto__" →
            (foldl (healthCheckEntry answers) acc l).1 !! k
              = Some (verdict i (answers k))).
Proof.
  revert acc. induction l as [|[k0 r0] l IH]; intros [hc reg].
  - intros _ _. cbn. repeat split; try done. by intros k r i ?%elem_of_nil.
  - rewrite !fmap_cons. cbn [fst snd foldl].
    intros [Hk0 Hks]%NoDup_cons [Hr0 Hrs]%NoDup_cons.
    destruct (IH (healthCheckEntry answers (hc, reg) (k0, r0)) Hks Hrs)
      as (Hi & Hl & Hc & Hp & Hproto & Hv).
    clear IH. rewrite healthCheckEntry_result in *. cbn [fst snd] in *.
    split; [rewrite Hi; apply call_instances|].
    split; [rewrite Hl; apply call_instances|].
    split; [|split; [|split]].
    + intros r. rewrite Hc, call_heap. case_decide as Heq; [subst r|done].
      destruct (heap reg !! r0) as [i|]; [|done]. simpl.
      by rewrite healthCheck_result.
    + intros k [Hne Hout]%not_elem_of_cons. rewrite (Hp k Hout).
      rewrite setProperty_lookup, decide_False; [done|]. by intros [? _].
    + rewrite Hproto, setProperty_lookup, decide_False; [done|].
      by intros [-> ?].
    + intros k r i [[= -> ->]|Hin]%elem_of_cons Hr Hne.
      * rewrite (Hp k0 Hk0), Hr, setProperty_lookup. by rewrite decide_True.
      * apply (Hv k r i Hin); [|done]. rewrite call_heap, decide_False; [done|].
        intros ->. apply Hr0. apply list_elem_of_fmap. by exists (k, r).
Qed.

(** X18.  [healthCheckAll] answers for every filed connector and
    changes no connection.  On a well-formed registry the result has,
    for each filed key other than "__proto__", the verdict of the
    health check of its connector, that is, whether its limiter lets a
    "validate" call through and the exchange accepts the credentials;
    it has nothing for other keys and nothing for "__proto__"; the
    map of the registry is as before, and so is
    [getConnectedBrokers()], also when every check fails. *)
Theorem healthCheckAll_reports_every_connector
    (answers : string → Exchange) (reg : Registry) :
  wellFormed reg →
  let res := healthCheckAll answers reg in
  (∀ k r i, getBroker k reg = Some r → heap reg !! r = Some i → k ≠ "__proto__" →
            res.1 !! k = Some (verdict i (answers k))) ∧
  (∀ k, getBroker k reg = None → res.1 !! k = None) ∧
  res.1 !! "__proto__" = None ∧
  (∀ k, getBroker k res.2 = getBroker k reg) ∧
  getConnectedBrokers res.2 = getConnectedBrokers reg.
Proof.
  intros Hwf res. unfold getBroker.
  destruct (healthCheckAll_fold answers (entries reg) (∅, reg)
              (NoDup_entries reg) (NoDup_entries_refs reg Hwf))
    as (Hi & Hl & Hc & Hp & Hproto & Hv).
  fold (healthCheckAll answers reg) in *. fold res in Hi, Hl, Hc, Hp, Hproto, Hv.
  simpl in *.
  split; [intros k r i Hk Hr Hne; apply (Hv k r i); [by apply elem_of_entries|done..]|].
  split.
  { intros k Hk. rewrite Hp; [apply lookup_empty|].
    intros ([k' r] & -> & Hin%elem_of_entries)%list_elem_of_fmap. simpl in *. congruence. }
  split; [by rewrite Hproto, lookup_empty|].
  split; [intros k; by rewrite Hi|].
  unfold getConnectedBrokers, entries. rewrite Hi. f_equal.
  apply filter_ext. intros [k r]. simpl. specialize (Hc r).
  unfold getConnectionStatus.
  destruct (heap res.2 !! r), (heap reg !! r); simpl in Hc; by simplify_eq.
Qed.

(** *** The invariant of the registry *)

Lemma connectBroker_wellFormed t c id x reg :
  wellFormed reg → wellFormed (connectBroker t c id x reg).2.
Proof.
  intros Hwf. unfold connectBroker, mbind, R_bind.
  pose proof (createBroker_wellFormed t c id reg Hwf) as H1.
  destruct (createBroker t c id reg) as [[r|e] reg1]; [|done]. simpl in H1.
  pose proof (call_wellFormed "getConnectionStatus" r
                (λ _, read getConnectionStatus) reg1 H1) as H2.
  destruct (call "getConnectionStatus" r (λ _, read getConnectionStatus) reg1)
    as [[connected|e] reg2]; [|done]. simpl in H2.
  destruct connected; simpl; [done|].
  pose proof (call_wellFormed "connect" r
                (λ cls, Probe.connect (clock x) (probe cls x) (handshake x)) reg2 H2) as H3.
  by destruct (call "connect" r _ reg2) as [[[]|e] reg3].
Qed.

Lemma step_wellFormed reg reg' : step reg reg' → wellFormed reg → wellFormed reg'.
Proof.
  intros Hstep Hwf. destruct Hstep.
  - by apply createBroker_wellFormed.
  - by apply connectBroker_wellFormed.
  - by apply disconnectBroker_wellFormed.
  - split; intros *; simpl; by rewrite lookup_empty.
  - destruct (healthCheckAll_fold answers (entries reg) (∅, reg)
                (NoDup_entries reg) (NoDup_entries_refs reg Hwf)) as (Hi & Hl & _).
    by apply (wellFormed_frame reg).
  - by apply call_wellFormed.
Qed.

(** *** Look-ups over the life of the registry *)

Lemma createBroker_keeps t c i reg k r :
  instances reg !! k = Some r →
  instances (createBroker t c i reg).2 !! k = Some r.
Proof.
  intros Hk. unfold createBroker.
  destruct (instances reg !! instanceKey t c i) as [r'|] eqn:Hkey; [done|].
  destruct (brokerClass t); [|done]. simpl.
  rewrite lookup_insert_ne; [done|]. intros Heq. congruence.
Qed.

Lemma connectBroker_instances t c i x reg :
  instances (connectBroker t c i x reg).2 = instances (createBroker t c i reg).2.
Proof.
  unfold connectBroker, mbind, R_bind.
  destruct (createBroker t c i reg) as [[r|e] reg1]; [|done]. simpl.
  pose proof (call_instances "getConnectionStatus" r
                (λ _, read getConnectionStatus) reg1) as [H2 _].
  destruct (call "getConnectionStatus" r (λ _, read getConnectionStatus) reg1)
    as [[connected|e] reg2]; [|done]. simpl in H2.
  destruct connected; simpl; [done|].
  pose proof (call_instances "connect" r
                (λ cls, Probe.connect (clock x) (probe cls x) (handshake x)) reg2) as [H3 _].
  destruct (call "connect" r _ reg2) as [[[]|e] reg3]; simpl in *; congruence.
Qed.

Lemma keeps_step key reg reg' : keeps key reg reg' → step reg reg'.
Proof. intros []; constructor. Qed.

Lemma keeps_filed key reg reg' r :
  keeps key reg reg' → wellFormed reg →
  instances reg !! key = Some r →
  wellFormed reg' ∧ instances reg' !! key = Some r.
Proof.
  intros Hkeeps Hwf Hk.
  split; [by eapply step_wellFormed, Hwf; apply (keeps_step key)|].
  destruct Hkeeps as [t c i reg|t c i x reg|k' reg Hne|answers reg|A method broker body reg].
  - by apply createBroker_keeps.
  - rewrite connectBroker_instances. by apply createBroker_keeps.
  - by apply disconnectBroker_frame.
  - destruct (healthCheckAll_fold answers (entries reg) (∅, reg)
                (NoDup_entries reg) (NoDup_entries_refs reg Hwf)) as (Hi & _).
    unfold healthCheckAll. by rewrite Hi.
  - by rewrite (proj1 (call_instances method broker body reg)).
Qed.

Lemma rtc_keeps_filed key reg reg' r :
  rtc (keeps key) reg reg' → wellFormed reg →
  instances reg !! key = Some r →
  wellFormed reg' ∧ instances reg' !! key = Some r.
Proof.
  induction 1 as [reg|reg reg1 reg2 Hstep _ IH]; [done|].
  intros Hwf Hk. destruct (keeps_filed _ _ _ _ Hstep Hwf Hk). by apply IH.
Qed.

(** C5.  The look-up is idempotent on the instance key.  The key of
    a call is its [instanceId] when one is given and not empty, and
    otherwise the broker type, an underscore and the first eight
    characters of the API key.  After a call that returned a
    connector, and after any further calls that do not disconnect its
    key (look-ups for any keys, connections, health checks, methods
    on connectors, disconnections of other keys): the same call
    returns the very same reference and leaves the registry as it
    is; any call returns that reference if it resolves to the same
    key, and a different reference if it resolves to a different
    key. *)
Theorem createBroker_idempotent_on_key
    (reg reg1 reg2 : Registry) (brokerType : string) (credentials : BrokerCredentials)
    (instanceId : option string) (r1 : nat) :
  wellFormed reg →
  createBroker brokerType credentials instanceId reg = (Return r1, reg1) →
  rtc (keeps (instanceKey brokerType credentials instanceId)) reg1 reg2 →
  instanceKey brokerType credentials instanceId
    = match instanceId with
      | Some id =>
          if Js.truthy id then id
          else brokerType +:+ "_" +:+ Js.substring0 8 (apiKey credentials)
      | None => brokerType +:+ "_" +:+ Js.substring0 8 (apiKey credentials)
      end ∧
  createBroker brokerType credentials instanceId reg2 = (Return r1, reg2) ∧
  ∀ brokerType' credentials' instanceId' r2 reg3,
    createBroker brokerType' credentials' instanceId' reg2 = (Return r2, reg3) →
    (instanceKey brokerType' credentials' instanceId'
       = instanceKey brokerType credentials instanceId → r2 = r1 ∧ reg3 = reg2) ∧
    (instanceKey brokerType' credentials' instanceId'
       ≠ instanceKey brokerType credentials instanceId → r2 ≠ r1).
Proof.
  intros Hwf Hcall Hlater.
  split; [by destruct instanceId|].
  destruct (createBroker_returns_object _ _ _ _ _ _ Hwf Hcall) as (Hwf1 & Hfiled1 & _).
  destruct (rtc_keeps_filed _ _ _ _ Hlater Hwf1 Hfiled1) as [Hwf2 Hfiled].
  split; [by apply createBroker_cached|].
  intros t' c' i' r2 reg3 Hcall2. split.
  - intros Hkey. rewrite <- Hkey in Hfiled.
    rewrite (createBroker_cached _ _ _ _ _ Hfiled) in Hcall2.
    by injection Hcall2 as <- <-.
  - intros Hkey ->.
    revert Hcall2. unfold createBroker.
    destruct (instances reg2 !! instanceKey t' c' i') as [r'|] eqn:Hk.
    + intros [= -> <-]. destruct Hwf2 as [_ Hinj]. by eapply Hkey, Hinj.
    + destruct (brokerClass t'); [|done]. intros [= Hr _].
      destruct Hwf2 as [Hdom _]. apply Hdom in Hfiled. lia.
Qed.

(** Look-ups for Binance, for Bybit and for Binance again; a look-up
    of another type under the key of the first as [instanceId]; and a
    look-up of the first type under an [instanceId] of its own. *)
Lemma createBroker_idempotent_on_key_witness :
  (wellFormed empty ∧
   createBroker "BINANCE" Sample.alice None empty = (Return 0%nat, Sample.first) ∧
   rtc (keeps (instanceKey "BINANCE" Sample.alice None)) Sample.first Sample.second) ∧
  (createBroker "BYBIT" Sample.alice None Sample.first).1 = Return 1%nat ∧
  createBroker "BINANCE" Sample.alice None Sample.second = (Return 0%nat, Sample.second) ∧
  createBroker "KRAKEN" Sample.bob (Some "BINANCE_9f8e7d6c") Sample.second
    = (Return 0%nat, Sample.second) ∧
  (createBroker "BINANCE" Sample.alice (Some "desk-2") Sample.second).1 = Return 2%nat.
Proof.
  assert (H1 : createBroker "BINANCE" Sample.alice None empty
               = (Return 0%nat, Sample.first)) by reflexivity.
  assert (H2 : rtc (keeps (instanceKey "BINANCE" Sample.alice None))
                 Sample.first Sample.second)
    by (apply rtc_once; apply keeps_createBroker).
  split; [split; [exact wellFormed_empty|by split]|].
  split; [by vm_compute|].
  destruct (createBroker_idempotent_on_key empty Sample.first Sample.second "BINANCE"
              Sample.alice None 0 wellFormed_empty H1 H2) as (_ & Hsame & Hother).
  split; [exact Hsame|]. split; [|by vm_compute].
  destruct (createBroker "KRAKEN" Sample.bob (Some "BINANCE_9f8e7d6c") Sample.second)
    as [o reg3] eqn:H3.
  assert (Ho : ∃ r2, o = Return r2) by (vm_compute in H3; injection H3 as <- _; by eexists).
  destruct Ho as [r2 ->].
  destruct (proj1 (Hother _ _ _ _ _ H3) eq_refl) as [-> ->]. done.
Defined.

(** X17.  A failed [connectBroker] leaves its connector behind.
    On a well-formed registry, for a new key and a supported type: if
    the handshake of the stream fails with [error], the call throws
    the classified error, and the connector it has created stays filed
    under the key, not connected, holding the credentials of the call;
    the key is not among [getConnectedBrokers()]; and from then on,
    whatever further calls are made that do not disconnect the key,
    every [createBroker] that resolves to this key, whatever its type,
    credentials and [instanceId], gets this connector and changes
    nothing. *)
Theorem connectBroker_failure_keeps_instance
    (brokerType : string) (credentials : BrokerCredentials)
    (instanceId : option string) (x : Exchange) (reg : Registry) (error : JsError) :
  wellFormed reg →
  getBroker (instanceKey brokerType credentials instanceId) reg = None →
  brokerType ∈ getSupportedBrokers →
  handshake x = WsFailed error →
  (connectBroker brokerType credentials instanceId x reg).1
    = Throw (handleError error "") ∧
  let reg' := (connectBroker brokerType credentials instanceId x reg).2 in
  ∃ r i,
    getBroker (instanceKey brokerType credentials instanceId) reg' = Some r ∧
    heap reg' !! r = Some i ∧
    BaseBroker.credentials (object i) = credentials ∧
    getConnectionStatus (object i) = false ∧
    (instanceKey brokerType credentials instanceId ∉ getConnectedBrokers reg') ∧
    ∀ reg2,
      rtc (keeps (instanceKey brokerType credentials instanceId)) reg' reg2 →
      ∀ brokerType' credentials' instanceId',
        instanceKey brokerType' credentials' instanceId'
          = instanceKey brokerType credentials instanceId →
        createBroker brokerType' credentials' instanceId' reg2 = (Return r, reg2).
Proof.
  unfold getBroker. intros Hwf Hk [cls Hcls]%supported_class Hws.
  pose proof (createBroker_fresh _ _ _ _ _ Hk Hcls) as Hc.
  destruct (createBroker_returns_object _ _ _ _ _ _ Hwf Hc) as (Hwf1 & Hk1 & _).
  pose proof (connectBroker_wellFormed brokerType credentials instanceId x reg Hwf) as Hwf'.
  assert (Hi : heap (createBroker brokerType credentials instanceId reg).2
                 !! length (heap reg)
               = Some {| class := cls; object := newBroker credentials |}).
  { rewrite Hc. simpl. by apply list_lookup_middle. }
  rewrite Hc in Hi. simpl in Hi.
  rewrite (connectBroker_unfold _ _ _ x _ _ _ _ Hc Hi) in *. simpl in *.
  rewrite connect_result, Hws in *. simpl in *. split; [done|].
  eexists (length (heap reg)), _.
  split; [apply lookup_insert_eq|].
  split; [by rewrite list_lookup_alter_eq, Hi|].
  split; [done|]. split; [done|]. split.
  - intros (r' & i' & Hr' & Hi' & Hcon)%elem_of_getConnectedBrokers. simpl in *.
    rewrite lookup_insert_eq in Hr'. injection Hr' as <-.
    rewrite list_lookup_alter_eq, Hi in Hi'. simpl in Hi'. by injection Hi' as <-.
  - intros reg2 Hlater t' c' i' Hkey. apply createBroker_cached. rewrite Hkey.
    eapply rtc_keeps_filed; [exact Hlater|exact Hwf'|]. simpl.
    apply lookup_insert_eq.
Qed.

(** A refused handshake on OKX, a look-up for Bybit, then a look-up
    under the key of the failed connector as [instanceId]. *)
Lemma connectBroker_failure_keeps_instance_witness :
  (wellFormed empty ∧
   getBroker (instanceKey "OKX" Sample.alice None) empty = None ∧
   "OKX" ∈ getSupportedBrokers ∧
   handshake Sample.offline = WsFailed Sample.refused) ∧
  (connectBroker "OKX" Sample.alice None Sample.offline empty).1
    = Throw (Error "Connection refused by broker") ∧
  ∃ reg2,
    rtc (keeps (instanceKey "OKX" Sample.alice None))
      (connectBroker "OKX" Sample.alice None Sample.offline empty).2 reg2 ∧
    (createBroker "BYBIT" Sample.alice None
       (connectBroker "OKX" Sample.alice None Sample.offline empty).2)
      = (Return 1%nat, reg2) ∧
    createBroker "KRAKEN" Sample.bob (Some "OKX_9f8e7d6c") reg2 = (Return 0%nat, reg2).
Proof.
  assert (H2 : "OKX" ∈ getSupportedBrokers) by (apply supported_class; by eexists).
  split; [split; [exact wellFormed_empty|by repeat split]|].
  destruct (connectBroker_failure_keeps_instance "OKX" Sample.alice None Sample.offline
              empty Sample.refused wellFormed_empty eq_refl H2 eq_refl)
    as (H & r & i & Hfiled & _ & _ & _ & _ & Hlater).
  split; [exact H|].
  exists (createBroker "BYBIT" Sample.alice None
            (connectBroker "OKX" Sample.alice None Sample.offline empty).2).2.
  assert (Hrun : rtc (keeps (instanceKey "OKX" Sample.alice None))
            (connectBroker "OKX" Sample.alice None Sample.offline empty).2
            (createBroker "BYBIT" Sample.alice None
               (connectBroker "OKX" Sample.alice None Sample.offline empty).2).2)
    by (apply rtc_once; apply keeps_createBroker).
  split; [exact Hrun|]. split; [by vm_compute|].
  assert (Hr : r = 0%nat) by (vm_compute in Hfiled; by injection Hfiled as <-).
  rewrite <- Hr. by apply (Hlater _ Hrun "KRAKEN" Sample.bob (Some "OKX_9f8e7d6c")).
Defined.


(** X19.  The invariant of the registry.  In every registry that
    calls of [createBroker], [connectBroker], [disconnectBroker],
    [disconnectAllBrokers], [healthCheckAll] and of methods on
    connectors can reach from the empty one, each filed reference
    points to an object, no object is filed under two keys, and a
    method called through a filed reference runs on that object. *)
Theorem reachable_wellFormed (reg : Registry) :
  reachable reg →
  wellFormed reg ∧
  (∀ k r, getBroker k reg = Some r → is_Some (heap reg !! r)) ∧
  (∀ k r {A} method (body : SupportedBroker → M A),
     getBroker k reg = Some r →
     ∃ i, heap reg !! r = Some i ∧
          (call method r body reg).1 = (body (class i) (object i)).1).
Proof.
  intros Hreach.
  assert (Hwf : wellFormed reg).
  { revert reg Hreach. apply (rtc_ind_r (λ reg, wellFormed reg) empty).
    - apply wellFormed_empty.
    - intros reg reg' _ Hstep Hwf. by eapply step_wellFormed. }
  assert (Hlive : ∀ k r, getBroker k reg = Some r → is_Some (heap reg !! r)).
  { intros k r Hk. apply lookup_lt_is_Some. destruct Hwf as [Hdom _]. by eapply Hdom. }
  split; [done|]. split; [done|].
  intros k r A method body Hk. destruct (Hlive k r Hk) as [i Hi].
  exists i. split; [done|]. by apply call_result.
Qed.

Lemma reachable_wellFormed_witness :
  reachable Sample.desk ∧ wellFormed Sample.desk ∧
  getBroker "BYBIT_9f8e7d6c" Sample.desk = Some 1%nat.
Proof.
  assert (H : reachable Sample.desk).
  { unfold reachable, Sample.desk.
    eapply rtc_r; [eapply rtc_once; apply step_createBroker|apply step_connectBroker]. }
  split; [exact H|]. split; [|by vm_compute].
  exact (proj1 (reachable_wellFormed Sample.desk H)).
Defined.

(** *** The registry as the account routes use it *)

(** X20.  Deleting an account does not release its connector.  The
    routes file the connector of an account under the broker type and
    the first eight characters of the API key; the delete route
    disconnects under the broker type and the account id.  Unless the
    account id is that prefix, the connector created for the account
    is still filed after the delete, its object is untouched, and the
    next request whose API key starts with the same eight characters
    is handed this connector. *)
Theorem deleted_account_keeps_connector
    (broker accountId : string) (credentials : BrokerCredentials)
    (reg reg1 : Registry) (r : nat) :
  wellFormed reg →
  AccountsRoute.brokerInstance broker credentials reg = (Return r, reg1) →
  accountId ≠ Js.substring0 8 (apiKey credentials) →
  let reg2 := AccountsRoute.disconnectDeleted broker accountId reg1 in
  getBroker (broker +:+ "_" +:+ Js.substring0 8 (apiKey credentials)) reg2 = Some r ∧
  heap reg2 !! r = heap reg1 !! r ∧
  ∀ credentials',
    Js.substring0 8 (apiKey credentials') = Js.substring0 8 (apiKey credentials) →
    AccountsRoute.brokerInstance broker credentials' reg2 = (Return r, reg2).
Proof.
  intros Hwf Hc Hne reg2. unfold reg2.
  unfold AccountsRoute.brokerInstance, AccountsRoute.disconnectDeleted, getBroker in *.
  destruct (createBroker_returns_object _ _ _ _ _ _ Hwf Hc) as (Hwf1 & Hk & _).
  change (instanceKey broker credentials None)
    with (broker +:+ "_" +:+ Js.substring0 8 (apiKey credentials)) in Hk.
  assert (Hkeys : broker +:+ "_" +:+ Js.substring0 8 (apiKey credentials)
                  ≠ broker +:+ "_" +:+ accountId).
  { intros Heq. apply Hne. symmetry.
    by apply (string_app_inv_l "_"), (string_app_inv_l broker). }
  destruct (disconnectBroker_frame reg1 _ _ r Hwf1 Hkeys Hk) as [Hk2 Hh2].
  split; [done|]. split; [done|].
  intros c' Hprefix. apply createBroker_cached.
  change (instanceKey broker c' None)
    with (broker +:+ "_" +:+ Js.substring0 8 (apiKey c')).
  by rewrite Hprefix.
Qed.

Lemma deleted_account_keeps_connector_witness :
  (wellFormed empty ∧
   "clx7account0000" ≠ Js.substring0 8 (apiKey Sample.alice)) ∧
  ∃ r reg1,
    AccountsRoute.brokerInstance "BINANCE" Sample.alice empty = (Return r, reg1) ∧
    getBroker "BINANCE_9f8e7d6c"
      (AccountsRoute.disconnectDeleted "BINANCE" "clx7account0000" reg1) = Some r.
Proof.
  assert (H2 : "clx7account0000" ≠ Js.substring0 8 (apiKey Sample.alice)) by done.
  split; [split; [exact wellFormed_empty|exact H2]|].
  destruct (AccountsRoute.brokerInstance "BINANCE" Sample.alice empty) as [o reg1] eqn:Hc.
  assert (Ho : o = Return 0%nat) by (by vm_compute in Hc; injection Hc as <- _).
  subst o. exists 0%nat, reg1. split; [done|].
  exact (proj1 (deleted_account_keeps_connector "BINANCE" "clx7account0000"
                  Sample.alice empty reg1 0 wellFormed_empty Hc H2)).
Defined.

(** The theorems above on a registry with two connectors. *)

Lemma desk_wellFormed : wellFormed Sample.desk.
Proof.
  apply connectBroker_wellFormed, createBroker_wellFormed, wellFormed_empty.
Qed.

Lemma disconnectBroker_removes_and_disconnects_witness :
  (wellFormed Sample.desk ∧
   getBroker "BYBIT_9f8e7d6c" Sample.desk = Some 1%nat ∧
   is_Some (heap Sample.desk !! 1%nat)) ∧
  getConnectedBrokers Sample.desk = ["BYBIT_9f8e7d6c"] ∧
  getBroker "BYBIT_9f8e7d6c" (disconnectBroker "BYBIT_9f8e7d6c" Sample.desk) = None ∧
  getConnectedBrokers (disconnectBroker "BYBIT_9f8e7d6c" Sample.desk) = [].
Proof.
  assert (H1 : getBroker "BYBIT_9f8e7d6c" Sample.desk = Some 1%nat) by by vm_compute.
  destruct (heap Sample.desk !! 1%nat) as [i|] eqn:Hi; [|by vm_compute in Hi].
  split; [split; [exact desk_wellFormed|by split]|].
  split; [by vm_compute|]. split; [|by vm_compute].
  exact (proj1 (disconnectBroker_removes_and_disconnects Sample.desk "BYBIT_9f8e7d6c"
                  1 i desk_wellFormed H1 Hi)).
Defined.

Lemma disconnectAllBrokers_disconnects_and_clears_witness :
  getConnectedBrokers Sample.desk = ["BYBIT_9f8e7d6c"] ∧
  getConnectedBrokers (disconnectAllBrokers Sample.desk) = [] ∧
  getBroker "OKX_9f8e7d6c" (disconnectAllBrokers Sample.desk) = None.
Proof.
  split; [by vm_compute|].
  destruct (disconnectAllBrokers_disconnects_and_clears Sample.desk) as (H1 & H2 & _).
  split; [exact H2|exact (H1 "OKX_9f8e7d6c")].
Defined.

Lemma connectBroker_when_connected_witness :
  (getBroker (instanceKey "BYBIT" Sample.bob None) Sample.desk = Some 1%nat ∧
   (getConnectionStatus ∘ object) <$> heap Sample.desk !! 1%nat = Some true) ∧
  connectBroker "BYBIT" Sample.bob None Sample.offline Sample.desk
    = (Return 1%nat, Sample.desk).
Proof.
  assert (H1 : getBroker (instanceKey "BYBIT" Sample.bob None) Sample.desk = Some 1%nat)
    by by vm_compute.
  assert (H2 : (getConnectionStatus ∘ object) <$> heap Sample.desk !! 1%nat = Some true)
    by by vm_compute.
  split; [by split|].
  destruct (heap Sample.desk !! 1%nat) as [i|] eqn:Hi; [|done].
  injection H2 as H2.
  exact (connectBroker_when_connected "BYBIT" Sample.bob None Sample.offline
           Sample.desk 1 i H1 Hi H2).
Defined.

Lemma healthCheckAll_reports_every_connector_witness :
  wellFormed Sample.desk ∧
  (healthCheckAll (λ _, Sample.accepting) Sample.desk).1 !! "OKX_9f8e7d6c" = Some true ∧
  (healthCheckAll (λ _, Sample.rejecting) Sample.desk).1 !! "BYBIT_9f8e7d6c" = Some false ∧
  getConnectedBrokers (healthCheckAll (λ _, Sample.rejecting) Sample.desk).2
    = ["BYBIT_9f8e7d6c"].
Proof.
  split; [exact desk_wellFormed|].
  destruct (heap Sample.desk !! 0%nat) as [i0|] eqn:H0; [|by vm_compute in H0].
  destruct (heap Sample.desk !! 1%nat) as [i1|] eqn:H1; [|by vm_compute in H1].
  destruct (healthCheckAll_reports_every_connector (λ _, Sample.accepting) Sample.desk
              desk_wellFormed) as (Ha & _).
  destruct (healthCheckAll_reports_every_connector (λ _, Sample.rejecting) Sample.desk
              desk_wellFormed) as (Hr & _ & _ & _ & Hc).
  split; [|split].
  - rewrite (Ha "OKX_9f8e7d6c" 0%nat i0 eq_refl H0 ltac:(done)).
    vm_compute in H0. by injection H0 as <-.
  - rewrite (Hr "BYBIT_9f8e7d6c" 1%nat i1 eq_refl H1 ltac:(done)).
    vm_compute in H1. by injection H1 as <-.
  - rewrite Hc. by vm_compute.
Defined.

End RegistryMethods.

(** ** Market data

    [subscribeToMarketData] and [unsubscribeFromMarketData] of the four
    connectors. *)

Section MarketData.
Import BaseBroker.

Lemma isOpen_wsClient (b : Broker) :
  isOpen b = true → setWsClient b (Some OPEN) = b.
Proof.
  unfold isOpen, setWsClient. destruct b as [c k rl [[]|]]; simpl; by intros.
Qed.

Lemma ensureOpen_open ws s : isOpen (this s) = true → ensureOpen ws s = (Return tt, s).
Proof. intros H. unfold ensureOpen. by rewrite H. Qed.

Lemma ensureOpen_closed ws s :
  isOpen (this s) = false →
  ensureOpen ws s =
    match ws with
    | WsOpened => (Return tt, {| this := setWsClient (this s) (Some OPEN); sent := sent s |})
    | WsFailed error => (Throw error, {| this := setWsClient (this s) None; sent := sent s |})
    end.
Proof. intros H. unfold ensureOpen, lift, connectWebSocket. rewrite H. by destruct ws. Qed.

(** After the guard of [subscribeToMarketData] the stream is open. *)
Lemma ensureOpen_ready ws s :
  isOpen (this s) = true ∨ ws = WsOpened →
  ensureOpen ws s
    = (Return tt, {| this := setWsClient (this s) (Some OPEN); sent := sent s |}).
Proof.
  intros H. destruct (isOpen (this s)) eqn:Ho.
  - rewrite ensureOpen_open, isOpen_wsClient by done. by destruct s.
  - destruct H as [H|H]; [congruence|subst ws]. by rewrite ensureOpen_closed.
Qed.

Lemma send_open message s :
  isOpen (this s) = true →
  send message s = (Return tt, {| this := this s; sent := (sent s ++ [message])%list |}).
Proof.
  unfold isOpen, send. by destruct (wsClient (this s)) as [[]|].
Qed.

(** X21.  Without an open stream.  On every connector, when the
    stream is not open: [unsubscribeFromMarketData] returns at once,
    with no request, no frame and no change; and if the handshake
    fails, [subscribeToMarketData] throws the error of the socket as it
    is, with nothing sent and [wsClient] cleared, where [connect()]
    throws the error in its classified form. *)
Theorem market_data_without_stream (c : Feed.Call) (s : Session) :
  isOpen (this s) = false →
  Feed.unsubscribeFromMarketData c s = (Return tt, s) ∧
  ∀ error,
    Feed.subscribeToMarketData c (WsFailed error) s
      = (Throw error, {| this := setWsClient (this s) None; sent := sent s |}) ∧
    ∀ now check b,
      (Probe.connect now check (WsFailed error) b).1 = Throw (handleError error "").
Proof.
  intros H. split.
  - destruct c; simpl;
      unfold DeltaExchangeBroker.unsubscribeFromMarketData,
        BinanceFuturesBroker.unsubscribeFromMarketData,
        BybitBroker.unsubscribeFromMarketData,
        OKXBroker.unsubscribeFromMarketData, whenOpen; by rewrite H.
  - intros error. split.
    + destruct c; simpl;
        unfold DeltaExchangeBroker.subscribeToMarketData,
          BinanceFuturesBroker.subscribeToMarketData,
          BybitBroker.subscribeToMarketData,
          OKXBroker.subscribeToMarketData, mbind, Wire_bind;
        by rewrite ensureOpen_closed.
    + intros now check b. by rewrite connect_result.
Qed.

Lemma market_data_without_stream_witness :
  isOpen (this Sample.silent) = false ∧
  Feed.subscribeToMarketData (Feed.OnBybit ["BTCUSDT"]) (WsFailed Sample.refused)
    Sample.silent = (Throw Sample.refused, Sample.silent) ∧
  (Probe.connect 120000 (Probe.OnBybit (Sample.bybitInfo 0 "OK"))
     (WsFailed Sample.refused) Sample.broker).1
    = Throw (Error "Connection refused by broker").
Proof.
  assert (H : isOpen (this Sample.silent) = false) by done.
  split; [exact H|].
  destruct (proj2 (market_data_without_stream (Feed.OnBybit ["BTCUSDT"]) Sample.silent H)
              Sample.refused) as [H1 H2].
  split; [exact H1|].
  exact (H2 120000 (Probe.OnBybit (Sample.bybitInfo 0 "OK")) Sample.broker).
Defined.

(** X22.  Subscribing and unsubscribing mirror each other.  On
    Binance-Futures, Bybit and OKX, when the stream is open or the
    handshake succeeds: [subscribeToMarketData] returns, leaves the
    stream open and has sent exactly one frame, which lists one entry
    per symbol (none for an empty list); [unsubscribeFromMarketData]
    with the same symbols then sends exactly one frame, which lists
    the same entries. *)
Theorem subscribe_then_unsubscribe (c : Feed.Call) (ws : WsResult) (s : Session) :
  Feed.oneFrame c = true →
  isOpen (this s) = true ∨ ws = WsOpened →
  ∃ frame frame',
    let s1 := {| this := setWsClient (this s) (Some OPEN);
                 sent := (sent s ++ [frame])%list |} in
    Feed.subscribeToMarketData c ws s = (Return tt, s1) ∧
    Feed.unsubscribeFromMarketData c s1
      = (Return tt, {| this := this s1; sent := (sent s1 ++ [frame'])%list |}) ∧
    length <$> Feed.listed frame = Some (length (Feed.symbols c)) ∧
    Feed.listed frame' = Feed.listed frame.
Proof.
  intros Hone Hready.
  destruct c as [| now symbols | symbols | symbols]; [done|..]; simpl;
    unfold BinanceFuturesBroker.subscribeToMarketData,
      BinanceFuturesBroker.unsubscribeFromMarketData,
      BybitBroker.subscribeToMarketData, BybitBroker.unsubscribeFromMarketData,
      OKXBroker.subscribeToMarketData, OKXBroker.unsubscribeFromMarketData,
      whenOpen, mbind, Wire_bind;
    rewrite (ensureOpen_ready _ _ Hready), send_open by done;
    eexists _, _; (split; [reflexivity|]); simpl;
    (split; [reflexivity|]); simpl;
    unfold BinanceFuturesBroker.streams, BybitBroker.topics, OKXBroker.channels;
    by rewrite length_map.
Qed.

Lemma subscribe_then_unsubscribe_witness :
  (Feed.oneFrame (Feed.OnBinance 120000 ["BTCUSDT"; "ETHUSDT"]) = true ∧
   WsOpened = WsOpened) ∧
  ∃ frame,
    (Feed.subscribeToMarketData (Feed.OnBinance 120000 ["BTCUSDT"; "ETHUSDT"])
       WsOpened Sample.silent).2
      = {| this := setWsClient Sample.broker (Some OPEN); sent := [frame] |} ∧
    Feed.listed frame = Some [JStr "btcusdt@ticker"; JStr "ethusdt@ticker"].
Proof.
  split; [done|].
  destruct (subscribe_then_unsubscribe (Feed.OnBinance 120000 ["BTCUSDT"; "ETHUSDT"])
              WsOpened Sample.silent eq_refl (or_intror eq_refl))
    as (frame & frame' & H1 & _).
  exists frame. rewrite H1. split; [done|].
  vm_compute in H1. by injection H1 as <-.
Defined.

(** One round of the loop of Delta on an open stream. *)
Lemma getProductId_found symbol r p b :
  Feed.productFor (DeltaExchangeBroker.Body.result (data r)) symbol = Some p →
  DeltaExchangeBroker.getProductId symbol (Resolved r) b
    = (Return (DeltaExchangeBroker.Product.id p), b).
Proof.
  unfold Feed.productFor, DeltaExchangeBroker.getProductId. intros H.
  unfold tryCatch, request, throw, mbind, M_bind, mret, M_ret. cbn beta iota.
  by rewrite H.
Qed.

Lemma getProductId_unknown symbol r b :
  Feed.productFor (DeltaExchangeBroker.Body.result (data r)) symbol = None →
  DeltaExchangeBroker.getProductId symbol (Resolved r) b
    = (Throw (Error ("Product not found for symbol: " +:+ symbol)), b).
Proof.
  unfold Feed.productFor, DeltaExchangeBroker.getProductId. intros H.
  unfold tryCatch, request, throw, mbind, M_bind, mret, M_ret. cbn beta iota.
  rewrite H. simpl. by rewrite handleError_plain.
Qed.

Lemma sendEach_known type known r s :
  isOpen (this s) = true →
  Forall (λ symbol,
            is_Some (Feed.productFor (DeltaExchangeBroker.Body.result (data r)) symbol))
         known →
  ∃ frames,
    Forall2 (λ symbol frame,
               ∃ p, Feed.productFor (DeltaExchangeBroker.Body.result (data r)) symbol
                      = Some p ∧
                    frame = DeltaExchangeBroker.tickerMessage type
                              (DeltaExchangeBroker.Product.id p))
            known frames ∧
    ∀ rest,
      DeltaExchangeBroker.sendEach type (known ++ rest)%list (λ _, Resolved r) s
        = DeltaExchangeBroker.sendEach type rest (λ _, Resolved r)
            {| this := this s; sent := (sent s ++ frames)%list |}.
Proof.
  intros Hopen Hknown. revert s Hopen.
  induction Hknown as [|symbol known [p Hp] _ IH]; intros s Hopen.
  - exists []. split; [constructor|]. intros rest. simpl.
    rewrite app_nil_r. by destruct s.
  - destruct (IH {| this := this s;
                    sent := (sent s ++ [DeltaExchangeBroker.tickerMessage type
                                          (DeltaExchangeBroker.Product.id p)])%list |}
                Hopen) as (frames & Hframes & Hrun).
    exists (DeltaExchangeBroker.tickerMessage type (DeltaExchangeBroker.Product.id p)
              :: frames).
    split; [constructor; [by exists p|done]|].
    intros rest. rewrite <- app_comm_cons.
    cbn [DeltaExchangeBroker.sendEach]. unfold mbind, Wire_bind, lift.
    rewrite (getProductId_found _ _ _ _ Hp), send_open by done.
    rewrite Hrun. simpl. by rewrite <- app_assoc.
Qed.

(** X23.  A subscription on Delta stops at the first unknown symbol
    and keeps what it has sent.  When the stream is open or the
    handshake succeeds, and the product list has every symbol of
    [known] but not [unknown]: subscribing to [known], [unknown] and
    [rest] throws "Product not found for symbol: ..." after one frame
    has gone out for each symbol of [known], with the id of its
    product; nothing is sent for [rest], and apart from the stream the
    connector, its limiter included, is as before. *)
Theorem delta_subscription_stops_at_unknown_symbol
    (known : list string) (unknown : string) (rest : list string)
    (r : Response (DeltaExchangeBroker.Body.t (list DeltaExchangeBroker.Product.t)))
    (ws : WsResult) (s : Session) :
  isOpen (this s) = true ∨ ws = WsOpened →
  Forall (λ symbol,
            is_Some (Feed.productFor (DeltaExchangeBroker.Body.result (data r)) symbol))
         known →
  Feed.productFor (DeltaExchangeBroker.Body.result (data r)) unknown = None →
  ∃ frames,
    DeltaExchangeBroker.subscribeToMarketData (known ++ unknown :: rest)%list ws
        (λ _, Resolved r) s
      = (Throw (Error ("Product not found for symbol: " +:+ unknown)),
         {| this := setWsClient (this s) (Some OPEN);
            sent := (sent s ++ frames)%list |}) ∧
    Forall2 (λ symbol frame,
               ∃ p, Feed.productFor (DeltaExchangeBroker.Body.result (data r)) symbol
                      = Some p ∧
                    frame = DeltaExchangeBroker.tickerMessage "subscribe"
                              (DeltaExchangeBroker.Product.id p))
            known frames.
Proof.
  intros Hready Hknown Hunknown.
  unfold DeltaExchangeBroker.subscribeToMarketData, mbind, Wire_bind.
  rewrite (ensureOpen_ready _ _ Hready).
  destruct (sendEach_known "subscribe" known r
              {| this := setWsClient (this s) (Some OPEN); sent := sent s |}
              eq_refl Hknown) as (frames & Hframes & Hrun).
  exists frames. split; [|done].
  rewrite Hrun. cbn [DeltaExchangeBroker.sendEach]. unfold mbind, Wire_bind, lift.
  by rewrite (getProductId_unknown _ _ _ Hunknown).
Qed.

Lemma delta_subscription_stops_at_unknown_symbol_witness :
  (isOpen (this Sample.streaming) = true ∧
   Forall (λ symbol,
             is_Some (Feed.productFor
                        (DeltaExchangeBroker.Body.result (data Sample.deltaProducts))
                        symbol)) ["BTCUSD"] ∧
   Feed.productFor (DeltaExchangeBroker.Body.result (data Sample.deltaProducts)) "DOGEUSD"
     = None) ∧
  DeltaExchangeBroker.subscribeToMarketData ["BTCUSD"; "DOGEUSD"; "ETHUSD"] WsOpened
      (λ _, Resolved Sample.deltaProducts) Sample.streaming
    = (Throw (Error "Product not found for symbol: DOGEUSD"),
       {| this := this Sample.streaming;
          sent := [DeltaExchangeBroker.tickerMessage "subscribe" 27] |}).
Proof.
  assert (H1 : isOpen (this Sample.streaming) = true) by done.
  assert (H2 : Forall (λ symbol,
             is_Some (Feed.productFor
                        (DeltaExchangeBroker.Body.result (data Sample.deltaProducts))
                        symbol)) ["BTCUSD"]) by (repeat constructor; by eexists).
  assert (H3 : Feed.productFor
                 (DeltaExchangeBroker.Body.result (data Sample.deltaProducts)) "DOGEUSD"
               = None) by done.
  split; [by repeat split|].
  destruct (delta_subscription_stops_at_unknown_symbol ["BTCUSD"] "DOGEUSD" ["ETHUSD"]
              Sample.deltaProducts WsOpened Sample.streaming (or_introl H1) H2 H3)
    as (frames & Hrun & Hframes).
  change (["BTCUSD"] ++ ["DOGEUSD"; "ETHUSD"])%list
    with ["BTCUSD"; "DOGEUSD"; "ETHUSD"] in Hrun.
  rewrite Hrun.
  apply Forall2_cons_inv_l in Hframes
    as (frame & frames' & (p & Hp & ->) & ->%Forall2_nil_inv_l & ->).
  vm_compute in Hp. by injection Hp as <-.
Defined.

End MarketData.
